(** * Verdaccio uplink proxy client ([packages/proxy/src/proxy.ts])

    A shallow embedding of the [ProxyStorage] class: package-name encoding,
    header construction (base headers, auth, forwarding, uplink overrides),
    the per-uplink health state with its request hooks, the metadata
    fetcher, both tarball fetchers and the search streamer.

    Conventions.
    - JavaScript strings are [string]s of 8-bit characters: a name is the
      sequence of bytes of its UTF-8 form, and case mapping is the ASCII one.
    - A JavaScript object used as a dictionary (request headers,
      [process.env], [config.headers]) is a [gmap string string].
    - The HTTP libraries ([got], [request], [undici], [JSONStream]) are the
      environment: their replies and the events they emit are inputs of the
      embedded functions, and every call that reaches the network is
      recorded as an [Effect]. *)

From Stdlib Require Import ZArith List Ascii String Bool Lia.
From stdpp Require Import base option list strings gmap.

Set Warnings "-register-all".

Local Open Scope string_scope.
Local Open Scope Z_scope.

(** ** JavaScript built-ins used by the module *)

Module JS.

(** Upper-case hexadecimal digit, as produced by [encodeURIComponent]. *)
Definition hexDigit (n : N) : ascii :=
  if (n <? 10)%N then ascii_of_N (48 + n) else ascii_of_N (55 + n).

(** Value of a hexadecimal digit of either case. *)
Definition hexVal (c : ascii) : option N :=
  let n := N_of_ascii c in
  if ((48 <=? n) && (n <=? 57))%N then Some (n - 48)%N
  else if ((65 <=? n) && (n <=? 70))%N then Some (n - 55)%N
  else if ((97 <=? n) && (n <=? 102))%N then Some (n - 87)%N
  else None.

Definition isUpper (c : ascii) : bool :=
  let n := N_of_ascii c in ((65 <=? n) && (n <=? 90))%N.

Definition isLower (c : ascii) : bool :=
  let n := N_of_ascii c in ((97 <=? n) && (n <=? 122))%N.

Definition isDigit (c : ascii) : bool :=
  let n := N_of_ascii c in ((48 <=? n) && (n <=? 57))%N.

(** The characters [encodeURIComponent] leaves alone:
    [A-Z a-z 0-9 - _ . ! ~ * ' ( )]. *)
Definition isUnreserved (c : ascii) : bool :=
  isUpper c || isLower c || isDigit c ||
  existsb (Ascii.eqb c)
    ["-"; "_"; "."; "!"; "~"; "*"; "'"; "("; ")"]%char.

Definition pctEncode (c : ascii) : string :=
  let n := N_of_ascii c in
  String "%" (String (hexDigit (n / 16)) (String (hexDigit (n mod 16)) "")).

Fixpoint encodeURIComponent (s : string) : string :=
  match s with
  | EmptyString => EmptyString
  | String c r =>
      if isUnreserved c then String c (encodeURIComponent r)
      else pctEncode c +:+ encodeURIComponent r
  end.

(** [decodeURIComponent]: [None] stands for the [URIError] thrown on a
    malformed escape. *)
Fixpoint decodeURIComponent (s : string) : option string :=
  match s with
  | EmptyString => Some EmptyString
  | String c r =>
      if Ascii.eqb c "%" then
        match r with
        | String h (String l r') =>
            match hexVal h, hexVal l with
            | Some a, Some b =>
                String (ascii_of_N (16 * a + b)) <$> decodeURIComponent r'
            | _, _ => None
            end
        | _ => None
        end
      else String c <$> decodeURIComponent r
  end.

Definition toLowerChar (c : ascii) : ascii :=
  if isUpper c then ascii_of_N (N_of_ascii c + 32) else c.

Definition toUpperChar (c : ascii) : ascii :=
  if isLower c then ascii_of_N (N_of_ascii c - 32) else c.

(** [String.prototype.toLowerCase]. *)
Fixpoint toLowerCase (s : string) : string :=
  match s with
  | EmptyString => EmptyString
  | String c r => String (toLowerChar c) (toLowerCase r)
  end.

(** lodash [_.upperFirst]: only the first character is changed. *)
Definition upperFirst (s : string) : string :=
  match s with
  | EmptyString => EmptyString
  | String c r => String (toUpperChar c) r
  end.

(** lodash [_.capitalize]: first character upper case, the rest lower. *)
Definition capitalize (s : string) : string :=
  match s with
  | EmptyString => EmptyString
  | String c r => String (toUpperChar c) (toLowerCase r)
  end.

(** [a.endsWith(b)]. *)
Definition endsWith (s suffix : string) : Prop :=
  exists front, s = front +:+ suffix.

End JS.

(** ** Package name encoding *)

(** [.replace(/^%40/, '@')] *)
Definition unescape_leading_at (s : string) : string :=
  match s with
  | String "%" (String "4" (String "0" r)) => String "@" r
  | _ => s
  end.

(** [const encode = function (thing) {...}] *)
Definition encode (thing : string) : string :=
  unescape_leading_at (JS.encodeURIComponent thing).

(** ** Constants imported from [@verdaccio/core] and [@verdaccio/utils] *)

Module HEADERS.
(** Modelled from the spec: the [Accept] header name of the [HEADERS]
    table of [@verdaccio/core], which is not part of this package. *)
Definition ACCEPT : string := "Accept".
(** Modelled from the spec: the [Accept-Encoding] header name. *)
Definition ACCEPT_ENCODING : string := "Accept-Encoding".
(** Modelled from the spec: the [User-Agent] header name. *)
Definition USER_AGENT : string := "User-Agent".
(** Modelled from the spec: the [Authorization] header name. *)
Definition AUTHORIZATION : string := "Authorization".
(** Modelled from the spec: the [X-Forwarded-For] header name. *)
Definition FORWARDED_FOR : string := "X-Forwarded-For".
(** Modelled from the spec: the [If-None-Match] header name. *)
Definition NONE_MATCH : string := "If-None-Match".
(** Modelled from the spec: the JSON media type; the module appends the
    semicolon itself ([Accept: application/json;]). *)
Definition JSON : string := "application/json".
End HEADERS.

Module HTTP_STATUS.
(** Modelled from the spec: the status codes named by [HTTP_STATUS] in
    [@verdaccio/core] (2xx is [OK <= code < MULTIPLE_CHOICES]). *)
Definition OK : Z := 200.
(** Modelled from the spec: first status above the 2xx range. *)
Definition MULTIPLE_CHOICES : Z := 300.
(** Modelled from the spec: 304 Not Modified. *)
Definition NOT_MODIFIED : Z := 304.
(** Modelled from the spec: 400, the least status the search streamer
    rejects. *)
Definition BAD_REQUEST : Z := 400.
(** Modelled from the spec: 404 Not Found. *)
Definition NOT_FOUND : Z := 404.
End HTTP_STATUS.

(** Modelled from the spec: [TOKEN_BASIC] of [@verdaccio/core], the auth type
    [Basic]. *)
Definition TOKEN_BASIC : string := "Basic".

(** Modelled from the spec: [TOKEN_BEARER] of [@verdaccio/core], the auth type
    [Bearer]. *)
Definition TOKEN_BEARER : string := "Bearer".

(** Modelled from the spec: [buildToken] of [@verdaccio/utils], which is not
    part of this package. The spec gives the header value as
    ["<Type> <token>"] with the type capitalised in the output. *)
Definition buildToken (type token : string) : string :=
  JS.capitalize type +:+ " " +:+ token.

(** [const contentTypeAccept = `${jsonContentType};`] *)
Definition contentTypeAccept : string := HEADERS.JSON +:+ ";".

(** ** Data model *)

(** A value of the untyped configuration, as far as the module tells the
    cases apart with [_.isNil], [_.isString] and [_.isBoolean]. *)
Inductive JsValue :=
| JsUndefined
| JsNull
| JsBoolean (b : bool)
| JsNumber (n : Z)
| JsString (s : string).

Definition isNil (v : JsValue) : bool :=
  match v with JsUndefined | JsNull => true | _ => false end.

(** [config.auth]: [type] is declared a string, [token] and [token_env] are
    inspected dynamically. *)
Record UpLinkTokenConf := {
  auth_type : option string;
  auth_token : JsValue;
  auth_token_env : JsValue;
}.

(** The part of [UpLinkConfLocal] the requests read. [conf_url] is the
    stored form, after the constructor stripped one trailing slash. *)
Record UpLinkConf := {
  conf_url : string;
  conf_auth : option UpLinkTokenConf;
  conf_headers : option (gmap string string);
}.

(** [Agents] of [got]: the proxy agent built by the constructor. *)
Inductive Agents :=
| AgentHTTPS (proxy : string)
| AgentHTTP (proxy : string).

(** Lines 139-144 of the constructor: an agent exists exactly when
    [_setupProxy] left a proxy URL. *)
Definition constructor_agent (isHTTPS : bool) (proxy : option string)
  : option Agents :=
  match proxy with
  | Some p => Some (if isHTTPS then AgentHTTPS p else AgentHTTP p)
  | None => None
  end.

(** [class ProxyStorage]. [url] is the serialised [URL] object
    ([`${this.url}`]); [last_request_time] is [None] until the first write
    (the constructor does not initialise it). *)
Record ProxyStorage := {
  config : UpLinkConf;
  failed_requests : Z;
  userAgent : string;
  server_id : string;
  url : string;
  max_fails : Z;
  fail_timeout : Z;
  upname : string;
  agent : option Agents;
  last_request_time : option Z;
}.

Definition set_failed_requests (n : Z) (self : ProxyStorage) : ProxyStorage :=
  {| config := config self; failed_requests := n;
     userAgent := userAgent self; server_id := server_id self;
     url := url self; max_fails := max_fails self;
     fail_timeout := fail_timeout self; upname := upname self;
     agent := agent self; last_request_time := last_request_time self |}.

Definition set_last_request_time (t : Z) (self : ProxyStorage) : ProxyStorage :=
  {| config := config self; failed_requests := failed_requests self;
     userAgent := userAgent self; server_id := server_id self;
     url := url self; max_fails := max_fails self;
     fail_timeout := fail_timeout self; upname := upname self;
     agent := agent self; last_request_time := Some t |}.

(** Errors the module throws or emits. [HTTPError] and [TransportError] are
    the libraries' own errors, passed on unchanged. *)
Inductive VerdaccioError :=
| UplinkOffline
| TokenRequired
| AuthInvalid (message : string)
| NotModifiedNoData
| NotFoundUplink
| NotFileUplink
| BadStatusCode (status : Z) (remoteStatus : option Z)
| ContentMismatch
| HTTPError (statusCode : Z)
| TransportError (code : string)
| InvalidURL (input : string).

Inductive Result (A : Type) :=
| Ok (a : A)
| Throw (e : VerdaccioError).
Arguments Ok {A} a.
Arguments Throw {A} e.

Inductive LogLevel := LError | LWarn | LInfo | LHttp | LDebug.

(** A log line: a message template of the source, or the message of the
    error about to be thrown. *)
Inductive LogMessage :=
| Template (text : string)
| MessageOf (e : VerdaccioError).

(** What a call does to the outside world, in order. [NetRequest] is the
    only effect that reaches the network; [hdrs] is [None] when the request
    is issued without a header object. *)
Inductive Effect :=
| Log (level : LogLevel) (message : LogMessage)
| NetRequest (method uri : string) (hdrs : option (gmap string string)).

Definition isNetRequest (e : Effect) : bool :=
  match e with NetRequest _ _ _ => true | Log _ _ => false end.

Definition noNetwork (es : list Effect) : Prop :=
  forallb (fun e => negb (isNetRequest e)) es = true.

(** Calls that log and may throw: the outcome and the effects so far. *)
Definition M (A : Type) : Type := (Result A * list Effect)%type.

Definition ret {A} (a : A) : M A := (Ok a, []).

Definition throw {A} (e : VerdaccioError) : M A := (Throw e, []).

Definition tell (es : list Effect) : M unit := (Ok tt, es).

Definition bind {A B} (m : M A) (k : A -> M B) : M B :=
  match m with
  | (Ok a, es) => let '(r, es') := k a in (r, (es ++ es')%list)
  | (Throw e, es) => (Throw e, es)
  end.

Notation "x <- m ;; k" := (bind m (fun x => k))
  (at level 100, m at next level, right associativity).
Notation "m ;;; k" := (bind m (fun _ => k))
  (at level 100, right associativity).

(** ** Header builder *)

(** JavaScript truthiness of a header slot: missing and empty are falsy. *)
Definition truthy (v : option string) : bool :=
  match v with
  | Some (String _ _) => true
  | _ => false
  end.

(** [v || d] *)
Definition orDefault (v : option string) (d : string) : string :=
  match v with
  | Some (String c r) => String c r
  | _ => d
  end.

(** String concatenation with a possibly missing operand:
    [s + undefined] appends the text [undefined]. *)
Definition jsToString (v : option string) : string :=
  match v with
  | Some s => s
  | None => "undefined"
  end.

(** The incoming client request the deprecated path reads ([options.req]). *)
Record IncomingRequest := {
  req_headers : gmap string string;
  req_remoteAddress : option string;
}.

(** [ISyncUplinksOptions], as far as the module reads it. *)
Record ISyncUplinksOptions := {
  opt_headers : option (gmap string string);
  opt_etag : option string;
  opt_remoteAddress : option string;
  opt_method : option string;
}.

Section Uplink.

(** [process.env] *)
Variable process_env : gmap string string.

(** The WHATWG serialiser: [new URL(input).href], [None] when the
    constructor throws. *)
Variable URL_href : string -> option string.

(** [_throwErrorAuth]: log the message, then throw. *)
Definition _throwErrorAuth {A} (e : VerdaccioError) : M A :=
  (Throw e, [Log LError (MessageOf e)]).

(** [_setHeaderAuthorization] *)
Definition _setHeaderAuthorization
    (headers : gmap string string) (type token : string)
  : M (gmap string string) :=
  let _type := JS.toLowerCase type in
  if negb (String.eqb _type (JS.toLowerCase TOKEN_BEARER))
     && negb (String.eqb _type (JS.toLowerCase TOKEN_BASIC))
  then _throwErrorAuth
         (AuthInvalid ("Auth type '" +:+ _type +:+ "' not allowed"))
  else
    let type := JS.upperFirst type in
    ret (<[HEADERS.AUTHORIZATION := buildToken type token]> headers).

(** [setAuthNext]. The guard on [_.isObject(auth)] never fires here:
    [auth] is a record. *)
Definition setAuthNext (self : ProxyStorage) (headers : gmap string string)
  : M (gmap string string) :=
  match conf_auth (config self) with
  | None => ret headers
  | Some tokenConf =>
      if truthy (headers !! HEADERS.AUTHORIZATION) then ret headers
      else
        token <-
          match auth_token tokenConf with
          | JsString s => ret (Some s)
          | _ =>
              if negb (isNil (auth_token_env tokenConf)) then
                match auth_token_env tokenConf with
                | JsString name => ret (process_env !! name)
                | JsBoolean true => ret (process_env !! "NPM_TOKEN")
                | _ =>
                    tell [Log LError (MessageOf TokenRequired)] ;;;
                    _throwErrorAuth TokenRequired
                end
              else ret (process_env !! "NPM_TOKEN")
          end ;;
        match token with
        | None => _throwErrorAuth TokenRequired
        | Some token =>
            let type := orDefault (auth_type tokenConf) TOKEN_BASIC in
            _setHeaderAuthorization headers type token
        end
  end.

(** [_setAuth] of the deprecated path: the same text as [setAuthNext]. *)
Definition _setAuth := setAuthNext.

(** [getHeadersNext(headers = {})] *)
Definition getHeadersNext
    (self : ProxyStorage) (headers : option (gmap string string))
  : M (gmap string string) :=
  let headers := default ∅ headers in
  let headers :=
    <[HEADERS.ACCEPT :=
        orDefault (headers !! HEADERS.ACCEPT) contentTypeAccept]> headers in
  let headers :=
    <[HEADERS.ACCEPT_ENCODING :=
        orDefault (headers !! HEADERS.ACCEPT_ENCODING) "gzip"]> headers in
  let headers :=
    <[HEADERS.USER_AGENT :=
        orDefault (headers !! HEADERS.USER_AGENT)
          ("npm (" +:+ userAgent self +:+ ")")]> headers in
  setAuthNext self headers.

(** [_setHeaders(options)] of the deprecated path. *)
Definition _setHeaders
    (self : ProxyStorage) (headers : option (gmap string string))
  : M (gmap string string) :=
  let headers := default ∅ headers in
  let headers :=
    <[HEADERS.ACCEPT :=
        orDefault (headers !! HEADERS.ACCEPT) contentTypeAccept]> headers in
  let headers :=
    <[HEADERS.ACCEPT_ENCODING :=
        orDefault (headers !! HEADERS.ACCEPT_ENCODING) "gzip"]> headers in
  let headers :=
    <[HEADERS.USER_AGENT :=
        orDefault (headers !! HEADERS.USER_AGENT)
          ("npm (" +:+ userAgent self +:+ ")")]> headers in
  _setAuth self headers.

(** The value appended to every [Via] chain. *)
Definition viaToken (self : ProxyStorage) : string :=
  "1.1 " +:+ server_id self +:+ " (Verdaccio)".

(** [addProxyHeadersNext(headers, remoteAddress)] *)
Definition addProxyHeadersNext
    (self : ProxyStorage) (headers : gmap string string)
    (remoteAddress : option string)
  : gmap string string :=
  let headers :=
    match agent self with
    | None =>
        <[HEADERS.FORWARDED_FOR :=
            (if truthy (headers !! "x-forwarded-for")
             then default "" (headers !! "x-forwarded-for") +:+ ", "
             else "")
            +:+ jsToString remoteAddress]> headers
    | Some _ => headers
    end in
  let headers :=
    <["via" :=
        if truthy (headers !! "via")
        then default "" (headers !! "via") +:+ ", "
        else ""]> headers in
  <["via" := default "" (headers !! "via") +:+ viaToken self]> headers.

(** [_addProxyHeaders(req, headers)] of the deprecated path. *)
Definition _addProxyHeaders
    (self : ProxyStorage) (req : option IncomingRequest)
    (headers : gmap string string)
  : gmap string string :=
  let headers :=
    match req, agent self with
    | Some r, None =>
        <[HEADERS.FORWARDED_FOR :=
            (if truthy (req_headers r !! "x-forwarded-for")
             then default "" (req_headers r !! "x-forwarded-for") +:+ ", "
             else "")
            +:+ jsToString (req_remoteAddress r)]> headers
    | _, _ => headers
    end in
  let via := req ≫= (fun r => req_headers r !! "via") in
  let headers :=
    <["Via" := if truthy via then default "" via +:+ ", " else ""]>
      headers in
  <["Via" := default "" (headers !! "Via") +:+ viaToken self]> headers.

(** [applyUplinkHeaders]: every key of [config.headers] is written over
    the header object. [_overrideWithUpLinkConfLocaligHeaders] of the
    deprecated path performs the same writes. *)
Definition applyUplinkHeaders
    (self : ProxyStorage) (headers : gmap string string)
  : gmap string string :=
  match conf_headers (config self) with
  | None => headers
  | Some overrides => overrides ∪ headers
  end.

Definition _overrideWithUpLinkConfLocaligHeaders := applyUplinkHeaders.

(** The header construction of [getRemoteMetadataNext] (lines 547-554),
    repeated verbatim in [fetchTarballNext] (lines 728-735). *)
Definition requestHeadersNext
    (self : ProxyStorage) (options : ISyncUplinksOptions)
  : M (gmap string string) :=
  headers <- getHeadersNext self (opt_headers options) ;;
  let headers := addProxyHeadersNext self headers (opt_remoteAddress options) in
  let headers := applyUplinkHeaders self headers in
  ret (match opt_etag options with
       | Some etag =>
           <[HEADERS.ACCEPT := contentTypeAccept]>
             (<[HEADERS.NONE_MATCH := etag]> headers)
       | None => headers
       end).

(** ** Health tracker *)

(** [_ifRequestFailure]. Before the first write [last_request_time] is
    undefined, the difference is NaN and the comparison is false. *)
Definition _ifRequestFailure (self : ProxyStorage) (now : Z) : bool :=
  (max_fails self <=? failed_requests self)
  && match last_request_time self with
     | Some t => Z.abs (now - t) <? fail_timeout self
     | None => false
     end.

(** [_statusCheck(alive)] of the deprecated path, called with an argument. *)
Definition _statusCheck (self : ProxyStorage) (now : Z) (alive : bool)
  : ProxyStorage * list Effect :=
  let '(self', log) :=
    if alive then
      (set_failed_requests 0 self,
       if max_fails self <=? failed_requests self
       then [Log LWarn (Template "host @{host} is back online")]
       else [])
    else
      let self' := set_failed_requests (failed_requests self + 1) self in
      (self',
       if failed_requests self' =? max_fails self'
       then [Log LWarn (Template "host @{host} is now offline")]
       else []) in
  (set_last_request_time now self', log).

(** What [got] reports to the callbacks installed by
    [getRemoteMetadataNext], in the order it reports them. The
    [downloadProgress] callback only feeds a log field and is left out. *)
Inductive GotEvent :=
| OnRequest (now : Z)
| OnResponse (statusCode : Z)
| AfterResponse (statusCode : Z)
| BeforeRetry (error : string) (count : option Z).

(** [hooks.afterResponse[0]] *)
Definition afterResponse (self : ProxyStorage) (code : Z)
  : ProxyStorage * list Effect :=
  if (HTTP_STATUS.OK <=? code) && (code <? HTTP_STATUS.MULTIPLE_CHOICES) then
    if max_fails self <=? failed_requests self then
      (set_failed_requests 0 self,
       [Log LWarn (Template "host @{host} is now online")])
    else (self, [])
  else (self, []).

(** [hooks.beforeRetry[0]], with [count ?? 0]. *)
Definition beforeRetry (self : ProxyStorage) (error : string) (count : option Z)
  : ProxyStorage * list Effect :=
  let self' := set_failed_requests (default 0 count) self in
  (self',
   Log LInfo (Template "retry @{retryCount} req: '@{request.method} @{request.url}'")
   :: (if max_fails self' <=? failed_requests self'
       then [Log LWarn (Template "host @{host} is now offline")]
       else [])).

Definition gotCallback (self : ProxyStorage) (ev : GotEvent)
  : ProxyStorage * list Effect :=
  match ev with
  | OnRequest now => (set_last_request_time now self, [])
  | OnResponse _ =>
      (self,
       [Log LHttp
          (Template "@{!status}, req: '@{request.method} @{request.url}' (streaming)")])
  | AfterResponse code => afterResponse self code
  | BeforeRetry error count => beforeRetry self error count
  end.

Fixpoint gotCallbacks (self : ProxyStorage) (evs : list GotEvent)
  : ProxyStorage * list Effect :=
  match evs with
  | [] => (self, [])
  | ev :: evs' =>
      let '(self1, log1) := gotCallback self ev in
      let '(self2, log2) := gotCallbacks self1 evs' in
      (self2, (log1 ++ log2)%list)
  end.

(** ** JSON documents and upstream replies *)

Inductive Json :=
| JNull
| JBool (b : bool)
| JNumber (n : Z)
| JString (s : string)
| JArray (items : list Json)
| JObject (members : list (string * Json)).

(** The response [got] hands over: status, decoded body, [ETag] header. *)
Record Response := {
  statusCode : Z;
  body : Json;
  etag : option string;
}.

(** Errors [got] rejects with: [HTTPError], whose [code] is
    [ERR_NON_2XX_3XX_RESPONSE], or any other (timeout, DNS, parse...). *)
Inductive GotError :=
| ERR_NON_2XX_3XX_RESPONSE (response : Response)
| GotOtherError (code : string).

Inductive GotResult :=
| Resolved (response : Response)
| Rejected (err : GotError).

(** [got]'s own test of a final response under the options the module
    passes (redirects followed, [throwHttpErrors] left on): 2xx and 304
    resolve, every other status rejects with [HTTPError]. *)
Definition isResponseOk (response : Response) : bool :=
  ((200 <=? statusCode response) && (statusCode response <=? 299))
  || (statusCode response =? 304).

Definition got_settle (response : Response) : GotResult :=
  if isResponseOk response then Resolved response
  else Rejected (ERR_NON_2XX_3XX_RESPONSE response).

(** One run of [got(uri, {...})]: the callbacks it triggers and how the
    promise settles. *)
Record GotSession := {
  got_events : list GotEvent;
  got_settled : GotResult;
}.

(** ** Metadata fetcher *)

(** The body of the [try] after [await got(...)] and the [catch] clause.
    The 304 error is thrown inside the [try]; its [code] is a number, so
    the [catch] rethrows it untouched. *)
Definition metadataOutcome (settled : GotResult)
  : M (Json * option string) :=
  match settled with
  | Resolved response =>
      if statusCode response =? HTTP_STATUS.NOT_MODIFIED
      then throw NotModifiedNoData
      else
        tell [Log LHttp (Template "@{!status}, req: '@{request.method} @{request.url}'")] ;;;
        ret (body response, etag response)
  | Rejected (ERR_NON_2XX_3XX_RESPONSE response) =>
      let code := statusCode response in
      if code =? HTTP_STATUS.NOT_FOUND then throw NotFoundUplink
      else if negb ((HTTP_STATUS.OK <=? code)
                    && (code <? HTTP_STATUS.MULTIPLE_CHOICES))
      then throw (BadStatusCode code (Some code))
      else throw (HTTPError code)
  | Rejected (GotOtherError code) => throw (TransportError code)
  end.

(** [getRemoteMetadataNext(name, options)], called at time [now], with
    the run of [got] it triggers if it gets that far. *)
Definition getRemoteMetadataNext
    (self : ProxyStorage) (now : Z) (name : string)
    (options : ISyncUplinksOptions) (net : GotSession)
  : Result (Json * option string) * ProxyStorage * list Effect :=
  if _ifRequestFailure self now then (Throw UplinkOffline, self, [])
  else
    match requestHeadersNext self options with
    | (Throw e, log) => (Throw e, self, log)
    | (Ok headers, log) =>
        let method := orDefault (opt_method options) "GET" in
        let uri := conf_url (config self) +:+ "/" +:+ encode name in
        let '(self', hooks) := gotCallbacks self (got_events net) in
        let '(result, final) := metadataOutcome (got_settled net) in
        (result, self',
         (log ++ NetRequest method uri (Some headers) :: hooks ++ final)%list)
    end.

(** ** Tarball fetchers *)

(** What the returned stream emits. *)
Inductive StreamEmit :=
| EmitError (e : VerdaccioError)
| EmitContentLength (value : Z)
| EmitData (chunk : string)
| EmitEnd.

Definition isEmitError (ev : StreamEmit) : bool :=
  match ev with EmitError _ => true | _ => false end.

(** Byte length of a chunk ([data.length]). *)
Definition chunkLength (chunk : string) : Z := Z.of_nat (String.length chunk).

(** Events of the stream the [request] library returns. A response carries
    its [content-length] header, if it has a non-empty one, as the number
    it denotes; responses and errors carry the clock reading. *)
Inductive RequestEvent :=
| ReqResponse (now : Z) (status : Z) (contentLength : option Z)
| ReqError (now : Z) (e : VerdaccioError)
| ReqData (chunk : string)
| ReqEnd (data : option string).

(** The options object of the deprecated [request(options, cb)]. *)
Record RequestOptions := {
  ro_uri : option string;
  ro_uri_full : option string;
  ro_method : option string;
  ro_headers : option (gmap string string);
  ro_req : option IncomingRequest;
}.

(** What [request] returns: the inert stream of the offline branch, which
    emits [UplinkOffline] on the next tick, or the library's stream. *)
Inductive RequestStream :=
| OfflineStream
| LiveStream.

(** [request(options)] without callback, up to the library call. *)
Definition request
    (self : ProxyStorage) (now : Z) (options : RequestOptions)
  : M RequestStream :=
  if negb (negb (_ifRequestFailure self now)) then ret OfflineStream
  else
    headers <- _setHeaders self (ro_headers options) ;;
    let headers := _addProxyHeaders self (ro_req options) headers in
    let headers := _overrideWithUpLinkConfLocaligHeaders self headers in
    let method := orDefault (ro_method options) "GET" in
    let uri :=
      orDefault (ro_uri_full options)
        (conf_url (config self) +:+ jsToString (ro_uri options)) in
    tell [Log LInfo (Template "making request: '@{method} @{uri}'");
          NetRequest method uri (Some headers)] ;;;
    ret LiveStream.

(** The ['response'] and ['error'] listeners [request] puts on the
    library's stream: the first of them to fire reports to the health
    tracker. The state is the client and the [statusCalled] flag. *)
Definition request_on
    (st : ProxyStorage * bool) (ev : RequestEvent)
  : (ProxyStorage * bool) * list Effect :=
  let '(self, statusCalled) := st in
  match ev with
  | ReqResponse now _ _ =>
      if statusCalled then (st, [])
      else let '(self', log) := _statusCheck self now true in
           ((self', true), log)
  | ReqError now _ =>
      if statusCalled then (st, [])
      else let '(self', log) := _statusCheck self now false in
           ((self', true), log)
  | _ => (st, [])
  end.

(** The local variables of [fetchTarball] its listeners share; [piped]
    records that [readStream.pipe(stream)] has run. *)
Record TarballState := {
  current_length : Z;
  expected_length : option Z;
  piped : bool;
}.

Definition is2xx (status : Z) : bool :=
  (HTTP_STATUS.OK <=? status) && (status <? HTTP_STATUS.MULTIPLE_CHOICES).

(** The four listeners [fetchTarball] installs on [readStream]. Data and
    end reach the returned stream through the pipe, after the listeners
    registered before it. *)
Definition fetchTarball_on (st : TarballState) (ev : RequestEvent)
  : TarballState * list StreamEmit :=
  match ev with
  | ReqResponse _ status contentLength =>
      if status =? HTTP_STATUS.NOT_FOUND then (st, [EmitError NotFileUplink])
      else if negb (is2xx status)
      then (st, [EmitError (BadStatusCode status None)])
      else
        ({| current_length := current_length st;
            expected_length :=
              match contentLength with
              | Some n => Some n
              | None => expected_length st
              end;
            piped := true |},
         match contentLength with
         | Some n => [EmitContentLength n]
         | None => []
         end)
  | ReqError _ e => (st, [EmitError e])
  | ReqData chunk =>
      ({| current_length := current_length st + chunkLength chunk;
          expected_length := expected_length st;
          piped := piped st |},
       if piped st then [EmitData chunk] else [])
  | ReqEnd data =>
      let current :=
        match data with
        | Some d => current_length st + chunkLength d
        | None => current_length st
        end in
      ({| current_length := current;
          expected_length := expected_length st;
          piped := piped st |},
       (match expected_length st with
        | Some expected =>
            if negb (current =? expected) then [EmitError ContentMismatch]
            else []
        | None => []
        end
        ++ (if piped st then [EmitEnd] else []))%list)
  end.

Fixpoint fetchTarball_run
    (self : ProxyStorage * bool) (st : TarballState) (evs : list RequestEvent)
  : ProxyStorage * list Effect * list StreamEmit :=
  match evs with
  | [] => (fst self, [], [])
  | ev :: evs' =>
      let '(self1, log1) := request_on self ev in
      let '(st1, out1) := fetchTarball_on st ev in
      let '(self2, log2, out2) := fetchTarball_run self1 st1 evs' in
      (self2, (log1 ++ log2)%list, (out1 ++ out2)%list)
  end.

Definition tarballStart : TarballState :=
  {| current_length := 0; expected_length := None; piped := false |}.

(** [fetchTarball(url)], called at [now]; [evs] is what the library's
    stream goes on to emit. A synchronous throw of the header builder
    escapes the call; the offline stream only ever emits its one error,
    to which none of [request]'s own listeners is attached. *)
Definition fetchTarball
    (self : ProxyStorage) (now : Z) (tarball_url : string)
    (evs : list RequestEvent)
  : Result (list StreamEmit) * ProxyStorage * list Effect :=
  let options :=
    {| ro_uri := None; ro_uri_full := Some tarball_url; ro_method := None;
       ro_headers := Some {[ "Accept" := contentTypeAccept ]};
       ro_req := None |} in
  match request self now options with
  | (Throw e, log) => (Throw e, self, log)
  | (Ok OfflineStream, log) =>
      (Ok (snd (fetchTarball_on tarballStart (ReqError now UplinkOffline))),
       self, log)
  | (Ok LiveStream, log) =>
      let '(self', hooks, out) := fetchTarball_run (self, false) tarballStart evs in
      (Ok out, self', (log ++ hooks)%list)
  end.

(** Events of the stream [got.stream] returns. *)
Inductive GotStreamEvent :=
| GsRequest
| GsResponse (status : Z) (contentLength : option Z)
| GsData (chunk : string)
| GsEnd
| GsError (e : VerdaccioError).

(** The locals of [fetchTarballNext]; [pipelined] records that the
    ['request'] listener has started [pipeline(readStream, fetchStream)]. *)
Record TarballNextState := {
  next_current_length : Z;
  next_expected_length : option Z;
  pipelined : bool;
}.

(** The listeners of [fetchTarballNext] together with the pipeline, which
    copies data and end to [fetchStream] and destroys it with the error
    of a failing source. [current_length] is never written and
    [expected_length] never read. *)
Definition fetchTarballNext_on (st : TarballNextState) (ev : GotStreamEvent)
  : TarballNextState * list StreamEmit :=
  match ev with
  | GsRequest =>
      ({| next_current_length := next_current_length st;
          next_expected_length := next_expected_length st;
          pipelined := true |}, [])
  | GsResponse status contentLength =>
      if status =? HTTP_STATUS.NOT_FOUND then (st, [EmitError NotFileUplink])
      else if negb (is2xx status)
      then (st, [EmitError (BadStatusCode status None)])
      else
        match contentLength with
        | Some n =>
            ({| next_current_length := next_current_length st;
                next_expected_length := Some n;
                pipelined := pipelined st |}, [EmitContentLength n])
        | None => (st, [])
        end
  | GsData chunk => (st, if pipelined st then [EmitData chunk] else [])
  | GsEnd => (st, if pipelined st then [EmitEnd] else [])
  | GsError e => (st, if pipelined st then [EmitError e] else [])
  end.

Fixpoint fetchTarballNext_run (st : TarballNextState) (evs : list GotStreamEvent)
  : list StreamEmit :=
  match evs with
  | [] => []
  | ev :: evs' =>
      let '(st1, out1) := fetchTarballNext_on st ev in
      (out1 ++ fetchTarballNext_run st1 evs')%list
  end.

Definition tarballNextStart : TarballNextState :=
  {| next_current_length := 0; next_expected_length := None;
     pipelined := false |}.

(** [fetchTarballNext(url, options)]: the promise rejects when the header
    builder throws, and otherwise resolves with the stream. There is no
    preflight check and no access to the health state. *)
Definition fetchTarballNext
    (self : ProxyStorage) (tarball_url : string)
    (options : ISyncUplinksOptions) (evs : list GotStreamEvent)
  : M (list StreamEmit) :=
  headers <- requestHeadersNext self options ;;
  tell [NetRequest "GET" tarball_url (Some headers)] ;;;
  ret (fetchTarballNext_run tarballNextStart evs).

(** ** Search streamer *)

(** [.replace(/([^:]\/)\/+/g, '$1')]: wherever a character other than a
    colon is followed by two or more slashes, keep the character and one
    slash. [skipping] is set while the rest of such a run is dropped. *)
Fixpoint collapseSlashes (skipping : bool) (s : string) : string :=
  match s with
  | EmptyString => EmptyString
  | String c r =>
      if skipping && Ascii.eqb c "/" then collapseSlashes true r
      else
        match r with
        | String d (String e r') =>
            if Ascii.eqb d "/" && Ascii.eqb e "/" && negb (Ascii.eqb c ":")
            then String c (String "/" (collapseSlashes true r'))
            else String c (collapseSlashes false r)
        | _ => String c (collapseSlashes false r)
        end
  end.

(** One step of a [JSONStream] path: a property name or the wildcard. *)
Inductive PathKey :=
| Key (name : string)
| Star.

Definition pathKeyMatches (k : PathKey) (name : string) : bool :=
  match k with
  | Key n => String.eqb n name
  | Star => true
  end.

(** The values of a document a path selects, in document order. A name
    never selects an array element (names that spell an index are not
    used by the module); the wildcard selects every element. *)
Fixpoint JSONStream_select (path : list PathKey) (v : Json) : list Json :=
  match path with
  | [] => [v]
  | k :: path' =>
      match v with
      | JObject members =>
          flat_map
            (fun m => if pathKeyMatches k (fst m)
                      then JSONStream_select path' (snd m) else [])
            members
      | JArray items =>
          match k with
          | Star => flat_map (JSONStream_select path') items
          | Key _ => []
          end
      | _ => []
      end
  end.

Definition isJNull (v : Json) : bool :=
  match v with JNull => true | _ => false end.

(** [JSONStream.parse(path)] applied to a whole document: one ['data']
    item per selected value that is not null. The path ['objects'] is
    [[Key "objects"]]; the elements of that array would be
    [[Key "objects"; Star]], written ['objects.*']. *)
Definition JSONStream_parse (path : list PathKey) (doc : Json) : list Json :=
  List.filter (fun v => negb (isJNull v)) (JSONStream_select path doc).

(** How [undiciFetch] settles: a response with its status and the JSON
    document its text spells, or a failure. *)
Inductive FetchResult :=
| FetchResponse (status : Z) (document : Json)
| FetchFailed (e : VerdaccioError).

(** [search({ url, abort })]: the items the returned stream yields, or the
    error thrown. The request carries no header object, and the health
    state is neither read nor written. *)
Definition search
    (self : ProxyStorage) (search_url : string) (reply : FetchResult)
  : M (list Json) :=
  let search_error {A} (e : VerdaccioError) : M A :=
    (Throw e,
     [Log LError (Template "proxy uplink @{name} search error: @{errorMessage}")]) in
  match URL_href (url self +:+ search_url) with
  | None => search_error (InvalidURL (url self +:+ search_url))
  | Some href =>
      let uri := collapseSlashes false href in
      tell [Log LHttp (Template "search request to uplink @{uplink} - @{uri}");
            NetRequest "GET" uri None] ;;;
      match reply with
      | FetchFailed e => search_error e
      | FetchResponse status document =>
          if HTTP_STATUS.BAD_REQUEST <=? status
          then search_error (BadStatusCode status None)
          else ret (JSONStream_parse [Key "objects"] document)
      end
  end.

End Uplink.

(** The request effects of a trace. *)
Definition requestsOf (es : list Effect) : list Effect :=
  List.filter isNetRequest es.
Arguments requestsOf : simpl never.

(** The header object a request effect carries. *)
Definition headersOf (e : Effect) : option (gmap string string) :=
  match e with
  | NetRequest _ _ h => h
  | Log _ _ => None
  end.

(** A request carries header [k] with value [v]. *)
Definition carries (e : Effect) (k v : string) : Prop :=
  exists h, headersOf e = Some h /\ h !! k = Some v.

(** A request carries no header named [k]. *)
Definition lacks (e : Effect) (k : string) : Prop :=
  forall h, headersOf e = Some h -> h !! k = None.


(** The headers the deprecated [fetchTarball] ends up sending: those
    [request] builds from [{ Accept: contentTypeAccept }] without an
    incoming request. *)
Definition fetchTarball_headers
    (process_env : gmap string string) (self : ProxyStorage)
  : M (gmap string string) :=
  bind (_setHeaders process_env self (Some {[ "Accept" := contentTypeAccept ]}))
    (fun h => ret (_overrideWithUpLinkConfLocaligHeaders self
                     (_addProxyHeaders self None h))).

(** [n] bytes of tarball content. *)
Fixpoint bytes (n : nat) : string :=
  match n with
  | O => EmptyString
  | S k => String "000" (bytes k)
  end.

(** A string in which two slashes in a row occur only right after a colon
    or at the very start. *)
Definition noDuplicateSlash (s : string) : Prop :=
  forall front c back,
    s = front +:+ String c (String "/" (String "/" back)) -> c = ":"%char.

Definition startsWithTwoSlashes (s : string) : bool :=
  match s with
  | String d (String e _) => Ascii.eqb d "/" && Ascii.eqb e "/"
  | _ => false
  end.

(** The same property as a test. *)
Fixpoint noDuplicateSlashb (s : string) : bool :=
  match s with
  | EmptyString => true
  | String c r =>
      (negb (startsWithTwoSlashes r) || Ascii.eqb c ":")
      && noDuplicateSlashb r
  end.

(** ** Sample uplinks and inputs for the examples *)

Definition sample_config : UpLinkConf :=
  {| conf_url := "https://registry.example.com";
     conf_auth := None;
     conf_headers := None |}.

(** A fresh uplink without proxy: [max_fails = 2], [fail_timeout = 60s]. *)
Definition sample_uplink : ProxyStorage :=
  {| config := sample_config; failed_requests := 0;
     userAgent := "verdaccio/6.0.0"; server_id := "f3a1";
     url := "https://registry.example.com/"; max_fails := 2;
     fail_timeout := 60000; upname := "npmjs"; agent := None;
     last_request_time := None |}.

(** The same uplink after two failures, the last one at time 1000. *)
Definition tripped_uplink : ProxyStorage :=
  set_last_request_time 1000 (set_failed_requests 2 sample_uplink).

(** An uplink behind an explicit proxy whose configured headers name
    [X-Forwarded-For]. *)
Definition proxied_uplink : ProxyStorage :=
  {| config :=
       {| conf_url := "https://registry.example.com";
          conf_auth := None;
          conf_headers := Some {[ "X-Forwarded-For" := "203.0.113.7" ]} |};
     failed_requests := 0;
     userAgent := "verdaccio/6.0.0"; server_id := "f3a1";
     url := "https://registry.example.com/"; max_fails := 2;
     fail_timeout := 60000; upname := "npmjs";
     agent := constructor_agent true (Some "http://corp:8080");
     last_request_time := None |}.

(** An uplink behind an explicit proxy, with no configured headers. *)
Definition corporate_uplink : ProxyStorage :=
  {| config := sample_config; failed_requests := 0;
     userAgent := "verdaccio/6.0.0"; server_id := "f3a1";
     url := "https://registry.example.com/"; max_fails := 2;
     fail_timeout := 60000; upname := "npmjs";
     agent := constructor_agent true (Some "http://corp:8080");
     last_request_time := None |}.

(** An uplink that authenticates with a bearer token taken from
    [NPM_TOKEN]. *)
Definition token_auth : UpLinkTokenConf :=
  {| auth_type := Some "BEARER"; auth_token := JsUndefined;
     auth_token_env := JsBoolean true |}.

Definition token_uplink : ProxyStorage :=
  {| config :=
       {| conf_url := "https://registry.example.com";
          conf_auth := Some token_auth;
          conf_headers := None |};
     failed_requests := 0;
     userAgent := "verdaccio/6.0.0"; server_id := "f3a1";
     url := "https://registry.example.com/"; max_fails := 2;
     fail_timeout := 60000; upname := "npmjs"; agent := None;
     last_request_time := None |}.

Definition token_env : gmap string string := {[ "NPM_TOKEN" := "s3cret" ]}.

Definition no_options : ISyncUplinksOptions :=
  {| opt_headers := None; opt_etag := None; opt_remoteAddress := None;
     opt_method := None |}.

(** A serialiser that leaves an already normalised URL as it is. *)
Definition href_id (input : string) : option string := Some input.

Definition sample_search_reply : FetchResult :=
  FetchResponse 200
    (JObject [("total", JNumber 2);
              ("objects", JArray [JObject [("a", JNumber 1)];
                                  JObject [("a", JNumber 2)]]);
              ("date", JString "Mon, 02 Nov 2026")]).

Definition sample_response (status : Z) : Response :=
  {| statusCode := status;
     body := JObject [("name", JString "@scope/pkg")];
     etag := Some "W-abc" |}.

(** * Further parts of the module *)

(** ** More JavaScript built-ins *)

Module JSX.

(** [s.split(sep)] for a one-character separator: never empty, and the
    empty string splits into one empty piece. *)
Fixpoint split (sep : ascii) (s : string) : list string :=
  match s with
  | EmptyString => [EmptyString]
  | String c r =>
      if Ascii.eqb c sep then EmptyString :: split sep r
      else match split sep r with
           | piece :: pieces => String c piece :: pieces
           | [] => [String c EmptyString]
           end
  end.

(** [h.lastIndexOf(needle)] as a position, [None] where JavaScript
    answers [-1]. *)
Fixpoint lastIndexOf (h needle : string) : option nat :=
  match h with
  | EmptyString => if String.prefix needle EmptyString then Some O else None
  | String _ r =>
      match lastIndexOf r needle with
      | Some i => Some (S i)
      | None => if String.prefix needle h then Some O else None
      end
  end.

(** The number [lastIndexOf] returns. *)
Definition lastIndexOfZ (h needle : string) : Z :=
  match lastIndexOf h needle with
  | Some i => Z.of_nat i
  | None => -1
  end.

End JSX.

(** ** The constructor's URL normalisation *)

(** [this.config.url.replace(/\/$/, '')]: one slash at the very end is
    removed. *)
Fixpoint stripTrailingSlash (s : string) : string :=
  match s with
  | EmptyString => EmptyString
  | String c r =>
      match r with
      | EmptyString => if Ascii.eqb c "/" then EmptyString else s
      | String _ _ => String c (stripTrailingSlash r)
      end
  end.

(** ** Proxy selection ([_setupProxy]) *)

(** A [no_proxy] setting: a comma-separated string or an array. *)
Inductive NoProxy :=
| NoProxyString (s : string)
| NoProxyArray (items : list string).

(** The proxy keys of an uplink's configuration or of the main
    configuration; [None] is a key the object does not have. *)
Record ProxySettings := {
  http_proxy : option string;
  https_proxy : option string;
  no_proxy : option NoProxy;
}.

(** [if (x[0] !== '.') x = '.' + x], applied to the host name and to each
    [no_proxy] entry. *)
Definition dotted (s : string) : string :=
  match s with
  | String c _ => if Ascii.eqb c "." then s else String "." s
  | EmptyString => String "." EmptyString
  end.

(** Line 1034:
    [hostname.lastIndexOf(noProxyItem) === hostname.length - noProxyItem.length]. *)
Definition noProxyMatches (hostname noProxyItem : string) : bool :=
  JSX.lastIndexOfZ hostname noProxyItem
  =? Z.of_nat (String.length hostname) - Z.of_nat (String.length noProxyItem).

(** The [for] loop over the [no_proxy] entries: the first entry that
    matches ends the loop, and clears the proxy if there is a non-empty
    one. *)
Fixpoint noProxyLoop (hostname : string) (proxy : option string)
    (noProxyList : list string) : option string * list Effect :=
  match noProxyList with
  | [] => (proxy, [])
  | item :: rest =>
      if noProxyMatches hostname (dotted item) then
        if truthy proxy
        then (None,
              [Log LDebug
                 (Template "not using proxy for @{url}, excluded by @{rule} rule")])
        else (proxy, [])
      else noProxyLoop hostname proxy rest
  end.

(** [_setupProxy(hostname, config, mainconfig, isHTTPS)]: the value left
    in [this.proxy], which starts out undefined. *)
Definition _setupProxy
    (hostname : string) (config mainconfig : ProxySettings) (isHTTPS : bool)
  : option string * list Effect :=
  let proxy_key (c : ProxySettings) :=
    if isHTTPS then https_proxy c else http_proxy c in
  let proxy :=
    match proxy_key config with
    | Some p => Some p
    | None => proxy_key mainconfig
    end in
  let noProxyList :=
    match no_proxy config with
    | Some l => Some l
    | None => no_proxy mainconfig
    end in
  let hostname := dotted hostname in
  let noProxyList :=
    match noProxyList with
    | Some (NoProxyString (String c r)) =>
        Some (NoProxyArray (JSX.split "," (String c r)))
    | other => other
    end in
  let '(proxy, log) :=
    match noProxyList with
    | Some (NoProxyArray items) => noProxyLoop hostname proxy items
    | _ => (proxy, [])
    end in
  (proxy,
   (log ++ match proxy with
           | Some _ => [Log LDebug (Template "using proxy @{proxy} for @{url}")]
           | None => []
           end)%list).

(** The proxy URL [_setupProxy] starts from: the uplink's own key if it
    has one, else the main configuration's. *)
Definition configuredProxy (config mainconfig : ProxySettings) (isHTTPS : bool)
  : option string :=
  match (if isHTTPS then https_proxy config else http_proxy config) with
  | Some p => Some p
  | None => if isHTTPS then https_proxy mainconfig else http_proxy mainconfig
  end.

(** The [no_proxy] entries the loop of [_setupProxy] runs over: those of
    the uplink if it has the key, else those of the main configuration;
    a non-empty string is split at its commas, an empty one gives no
    entry. *)
Definition noProxyEntries (config mainconfig : ProxySettings) : list string :=
  match (match no_proxy config with
         | Some l => Some l
         | None => no_proxy mainconfig
         end) with
  | Some (NoProxyString (String c r)) => JSX.split "," (String c r)
  | Some (NoProxyArray items) => items
  | _ => []
  end.

(** Lines 138-144 of the constructor: the proxy decision and the agent
    built from it. *)
Definition constructor_proxy_agent
    (hostname : string) (config mainconfig : ProxySettings) (isHTTPS : bool)
  : option Agents :=
  constructor_agent isHTTPS (fst (_setupProxy hostname config mainconfig isHTTPS)).

(** ** The deprecated health tracker over a run of outcomes *)

(** [_statusCheck(alive)] called once per outcome, each at its time. *)
Fixpoint statusChecks (self : ProxyStorage) (outcomes : list (Z * bool))
  : ProxyStorage * list Effect :=
  match outcomes with
  | [] => (self, [])
  | (now, alive) :: rest =>
      let '(self1, log1) := _statusCheck self now alive in
      let '(self2, log2) := statusChecks self1 rest in
      (self2, (log1 ++ log2)%list)
  end.

(** The offline warnings of a log. *)
Definition offlineWarnings (es : list Effect) : list Effect :=
  List.filter
    (fun e => match e with
              | Log LWarn (Template t) =>
                  String.eqb t "host @{host} is now offline"
              | _ => false
              end) es.

(** ** The deprecated metadata fetcher *)

(** How the [request] library finishes a call made with a callback: an
    error, or a response with its status, the outcome of [JSON.parse] on
    its body ([None] when that throws) and its [etag] header. Each comes
    with the clock reading of the ['error'] or ['response'] event. *)
Inductive RequestReply :=
| ReplyError (now : Z) (e : VerdaccioError)
| ReplyResponse (now : Z) (status : Z) (parsed : option Json)
    (etag : option string).

(** The [body] argument of the callback: the parsed document, or the
    bytes as they came when [processBody] did not parse them. *)
Inductive CallbackBody :=
| ParsedBody (document : Json)
| RawBody.

(** What becomes of a call that reports through a callback: the callback
    gets a value or an error ([CallbackSyntaxError] is the error
    [JSON.parse] threw), or an exception escapes before the callback is
    ever installed. *)
Inductive CallbackOutcome :=
| CallbackValue (body : CallbackBody) (etag : option string)
| CallbackError (e : VerdaccioError)
| CallbackSyntaxError
| Escaped (e : VerdaccioError).

(** The [(err, res, body)] the wrapper [requestCallback] passes on, after
    [processBody]: with [options.json] set, a body below status 300 is
    parsed, and a parse failure becomes the error. The line of
    [logActivity] is recorded by the fixed head of its message; the tail
    it appends (the error text or the byte counts) is left out. *)
Inductive CallbackArgs :=
| ArgsError (e : VerdaccioError)
| ArgsSyntaxError
| ArgsResponse (status : Z) (body : CallbackBody) (etag : option string).

Definition requestCallback (reply : RequestReply) : CallbackArgs * list Effect :=
  (match reply with
   | ReplyError _ e => ArgsError e
   | ReplyResponse _ status parsed etag =>
       if status <? 300 then
         match parsed with
         | Some j => ArgsResponse status (ParsedBody j) etag
         | None => ArgsSyntaxError
         end
       else ArgsResponse status RawBody etag
   end,
   [Log LHttp (Template "@{!status}, req: '@{request.method} @{request.url}'")]).

(** The callback [getRemoteMetadata] hands to [request]. *)
Definition getRemoteMetadata_callback (args : CallbackArgs) : CallbackOutcome :=
  match args with
  | ArgsError e => CallbackError e
  | ArgsSyntaxError => CallbackSyntaxError
  | ArgsResponse status body etag =>
      if status =? HTTP_STATUS.NOT_FOUND then CallbackError NotFoundUplink
      else if negb (is2xx status)
      then CallbackError (BadStatusCode status (Some status))
      else CallbackValue body etag
  end.

(** The ['response'] and ['error'] listeners of [request] when a callback
    was given: the health report of [request_on] and, on a response, the
    streaming log line. *)
Definition request_reply_on (self : ProxyStorage) (reply : RequestReply)
  : ProxyStorage * list Effect :=
  match reply with
  | ReplyError now _ => _statusCheck self now false
  | ReplyResponse now _ _ _ =>
      let '(self', log) := _statusCheck self now true in
      (self',
       (log ++ [Log LHttp
                  (Template "@{!status}, req: '@{request.method} @{request.url}' (streaming)")])%list)
  end.

(** The options [getRemoteMetadata] passes to [request]: the URI of the
    package, [json: true], the incoming request, and a fresh header
    object that holds [If-None-Match] and [Accept] when an etag is
    given. *)
Definition getRemoteMetadata_options
    (name : string) (etag : option string) (req : option IncomingRequest)
  : RequestOptions :=
  {| ro_uri := Some ("/" +:+ encode name); ro_uri_full := None;
     ro_method := None;
     ro_headers :=
       Some match etag with
            | Some e =>
                <[HEADERS.ACCEPT := contentTypeAccept]>
                  (<["If-None-Match" := e]> ∅)
            | None => ∅
            end;
     ro_req := req |}.

(** [getRemoteMetadata(name, options, callback)], called at [now], with
    [options.etag] and [options.req]. *)
Definition getRemoteMetadata
    (process_env : gmap string string)
    (self : ProxyStorage) (now : Z) (name : string)
    (etag : option string) (req : option IncomingRequest)
    (reply : RequestReply)
  : CallbackOutcome * ProxyStorage * list Effect :=
  match request process_env self now (getRemoteMetadata_options name etag req) with
  | (Throw e, log) => (Escaped e, self, log)
  | (Ok OfflineStream, log) => (CallbackError UplinkOffline, self, log)
  | (Ok LiveStream, log) =>
      let '(self', hooks) := request_reply_on self reply in
      let '(args, final) := requestCallback reply in
      (getRemoteMetadata_callback args, self', (log ++ hooks ++ final)%list)
  end.

(** ** Reading streams and reusing option objects *)



(** The body chunks the [request] stream delivered, in order. *)
Definition requestDataOf (evs : list RequestEvent) : list string :=
  flat_map (fun ev => match ev with ReqData chunk => [chunk] | _ => [] end) evs.

(** Total byte length of a list of chunks. *)
Definition totalLength (chunks : list string) : Z :=
  fold_right (fun chunk n => chunkLength chunk + n) 0 chunks.

(** The options of a second call that passes the header object of an
    earlier one again: the builders write into the caller's object and
    return that same object. *)
Definition reuse_headers (options : ISyncUplinksOptions)
    (mutated : gmap string string) : ISyncUplinksOptions :=
  {| opt_headers := Some mutated; opt_etag := opt_etag options;
     opt_remoteAddress := opt_remoteAddress options;
     opt_method := opt_method options |}.

(** The first ['response'] or ['error'] of a [request] stream. *)
Fixpoint firstReport (evs : list RequestEvent) : option (Z * bool) :=
  match evs with
  | [] => None
  | ReqResponse now _ _ :: _ => Some (now, true)
  | ReqError now _ :: _ => Some (now, false)
  | _ :: rest => firstReport rest
  end.

(** ** More sample inputs *)

Definition corp_settings : ProxySettings :=
  {| http_proxy := Some "http://corp:8080";
     https_proxy := Some "http://corp:8080";
     no_proxy := Some (NoProxyString ".example.com") |}.

Definition no_settings : ProxySettings :=
  {| http_proxy := None; https_proxy := None; no_proxy := None |}.

(** An uplink whose configured headers ask for another [Accept]. *)
Definition accept_uplink : ProxyStorage :=
  {| config :=
       {| conf_url := "https://registry.example.com";
          conf_auth := None;
          conf_headers :=
            Some {[ "Accept" := "application/vnd.npm.install-v1+json" ]} |};
     failed_requests := 0;
     userAgent := "verdaccio/6.0.0"; server_id := "f3a1";
     url := "https://registry.example.com/"; max_fails := 2;
     fail_timeout := 60000; upname := "npmjs"; agent := None;
     last_request_time := None |}.

Definition etag_options : ISyncUplinksOptions :=
  {| opt_headers := None; opt_etag := Some "W-abc";
     opt_remoteAddress := None; opt_method := None |}.

(** An uplink with token auth whose configured headers pin
    [Authorization]. *)
Definition pinned_uplink : ProxyStorage :=
  {| config :=
       {| conf_url := "https://registry.example.com";
          conf_auth := Some token_auth;
          conf_headers := Some {[ "Authorization" := "Basic cGlubmVk" ]} |};
     failed_requests := 0;
     userAgent := "verdaccio/6.0.0"; server_id := "f3a1";
     url := "https://registry.example.com/"; max_fails := 2;
     fail_timeout := 60000; upname := "npmjs"; agent := None;
     last_request_time := None |}.

(** The errors the [request] stream raised, as the returned stream
    re-emits them. *)
Definition requestErrorsOf (evs : list RequestEvent) : list StreamEmit :=
  flat_map (fun ev => match ev with
                      | ReqError _ e => [EmitError e]
                      | _ => []
                      end) evs.

(** No further response in a run of events. *)
Definition noResponse (evs : list RequestEvent) : Prop :=
  forall t status contentLength, ~ In (ReqResponse t status contentLength) evs.

(** The error [fetchTarball] and [fetchTarballNext] emit for a response
    status outside 2xx. *)
Definition tarballStatusError (status : Z) : VerdaccioError :=
  if status =? HTTP_STATUS.NOT_FOUND then NotFileUplink
  else BadStatusCode status None.

(** An incoming client request that came through one proxy already. *)
Definition sample_request : IncomingRequest :=
  {| req_headers := {[ "via" := "1.1 edge"; "x-forwarded-for" := "198.51.100.4" ]};
     req_remoteAddress := Some "10.0.0.9" |}.


(** An event after which the health state is as before: a ['response']
    event, or an [afterResponse] for a status outside 2xx. *)
Definition quietEvent (ev : GotEvent) : Prop :=
  match ev with
  | OnResponse _ => True
  | AfterResponse code => is2xx code = false
  | OnRequest _ | BeforeRetry _ _ => False
  end.
(** * Properties *)

(** ** Package name encoding *)

Example encode_plain : encode "left-pad" = "left-pad".
Proof. reflexivity. Qed.

Example encode_inner_at : encode "a@b" = "a%40b".
Proof. reflexivity. Qed.

Example encode_non_ascii :
  JS.decodeURIComponent (encode "@dom/café x") = Some "@dom/café x".
Proof. reflexivity. Qed.

(** Case analysis on the 256 characters. *)
Ltac each_char c := destruct c as [[] [] [] [] [] [] [] []].

Lemma decode_pctEncode (c : ascii) (r : string) :
  JS.decodeURIComponent (JS.pctEncode c +:+ r)
  = String c <$> JS.decodeURIComponent r.
Proof. each_char c; reflexivity. Qed.

Lemma decode_unreserved (c : ascii) (r : string) :
  JS.isUnreserved c = true ->
  JS.decodeURIComponent (String c r) = String c <$> JS.decodeURIComponent r.
Proof. each_char c; intros H; try discriminate H; reflexivity. Qed.

Lemma decode_encodeURIComponent (s : string) :
  JS.decodeURIComponent (JS.encodeURIComponent s) = Some s.
Proof.
  induction s as [|c r IH]; [reflexivity|].
  cbn [JS.encodeURIComponent].
  destruct (JS.isUnreserved c) eqn:Hc.
  - rewrite decode_unreserved by exact Hc. now rewrite IH.
  - rewrite decode_pctEncode. now rewrite IH.
Qed.

Lemma encode_cons (c : ascii) (r : string) :
  encode (String c r)
  = if Ascii.eqb c "@" then String "@" (JS.encodeURIComponent r)
    else JS.encodeURIComponent (String c r).
Proof. unfold encode. each_char c; reflexivity. Qed.

(** C7. [encode] round-trips under percent-decoding for every name, a
    leading [@] is left literal in the output, and [@scope/pkg] becomes
    [@scope%2Fpkg]. *)
Theorem encode_roundtrip (name : string) :
  JS.decodeURIComponent (encode name) = Some name
  /\ (forall rest : string,
        encode (String "@" rest) = String "@" (JS.encodeURIComponent rest))
  /\ encode "@scope/pkg" = "@scope%2Fpkg".
Proof.
  split; [|split; [intros rest; apply encode_cons | reflexivity]].
  destruct name as [|c r]; [reflexivity|].
  rewrite encode_cons.
  destruct (Ascii.eqb c "@") eqn:Hc.
  - apply Ascii.eqb_eq in Hc. subst c.
    change (String "@" <$> JS.decodeURIComponent (JS.encodeURIComponent r)
            = Some (String "@" r)).
    now rewrite decode_encodeURIComponent.
  - apply decode_encodeURIComponent.
Qed.

(** ** Which effects reach the network *)

Lemma requestsOf_app (a b : list Effect) :
  requestsOf (a ++ b) = (requestsOf a ++ requestsOf b)%list.
Proof. apply List.filter_app. Qed.

Lemma requestsOf_request method uri hdrs (es : list Effect) :
  requestsOf (NetRequest method uri hdrs :: es)
  = NetRequest method uri hdrs :: requestsOf es.
Proof. reflexivity. Qed.

Lemma requestsOf_log level message (es : list Effect) :
  requestsOf (Log level message :: es) = requestsOf es.
Proof. reflexivity. Qed.

Lemma bind_requests {A B} (m : M A) (k : A -> M B) :
  requestsOf (snd m) = [] ->
  (forall a, requestsOf (snd (k a)) = []) ->
  requestsOf (snd (bind m k)) = [].
Proof.
  intros Hm Hk. destruct m as [[a|e] es]; cbn in *; [|exact Hm].
  specialize (Hk a). destruct (k a) as [r es']. cbn in *.
  now rewrite requestsOf_app, Hm, Hk.
Qed.

Lemma setHeaderAuthorization_requests h type token :
  requestsOf (snd (_setHeaderAuthorization h type token)) = [].
Proof.
  unfold _setHeaderAuthorization.
  destruct (negb _ && negb _); reflexivity.
Qed.

Lemma setAuthNext_requests env self h :
  requestsOf (snd (setAuthNext env self h)) = [].
Proof.
  unfold setAuthNext.
  destruct (conf_auth (config self)) as [tc|]; [|reflexivity].
  destruct (truthy _); [reflexivity|].
  apply bind_requests.
  - destruct (auth_token tc); try reflexivity;
      destruct (isNil (auth_token_env tc)); try reflexivity;
      destruct (auth_token_env tc) as [| |[]| |]; reflexivity.
  - intros [tok|]; [apply setHeaderAuthorization_requests|reflexivity].
Qed.

Lemma requestHeadersNext_requests env self options :
  requestsOf (snd (requestHeadersNext env self options)) = [].
Proof.
  unfold requestHeadersNext. apply bind_requests; [|reflexivity].
  apply setAuthNext_requests.
Qed.

(** Split every conditional of the goal. *)
Ltac split_ifs :=
  repeat match goal with
         | |- context [if ?b then _ else _] => destruct b
         end.

Lemma gotCallback_requests self ev :
  requestsOf (snd (gotCallback self ev)) = [].
Proof.
  destruct ev; unfold gotCallback, afterResponse, beforeRetry;
    split_ifs; reflexivity.
Qed.

Lemma gotCallbacks_requests self evs :
  requestsOf (snd (gotCallbacks self evs)) = [].
Proof.
  revert self. induction evs as [|ev evs IH]; intros self; [reflexivity|].
  cbn [gotCallbacks].
  pose proof (gotCallback_requests self ev) as H1.
  destruct (gotCallback self ev) as [self1 log1].
  specialize (IH self1). destruct (gotCallbacks self1 evs) as [self2 log2].
  cbn in *. now rewrite requestsOf_app, IH, H1.
Qed.

Lemma metadataOutcome_requests settled :
  requestsOf (snd (metadataOutcome settled)) = [].
Proof.
  destruct settled as [r|[r|c]]; cbn; try reflexivity.
  - destruct (_ =? _); reflexivity.
  - destruct (_ =? _); [reflexivity|]. destruct (negb _); reflexivity.
Qed.

(** The network traffic of [getRemoteMetadataNext]: nothing when the
    preflight check or the header builder stops the call, and otherwise
    exactly one request, with the headers built. *)
Lemma getRemoteMetadataNext_requests env self now name options net :
  requestsOf (snd (getRemoteMetadataNext env self now name options net))
  = if _ifRequestFailure self now then []
    else match requestHeadersNext env self options with
         | (Ok headers, _) =>
             [NetRequest (orDefault (opt_method options) "GET")
                (conf_url (config self) +:+ "/" +:+ encode name)
                (Some headers)]
         | (Throw _, _) => []
         end.
Proof.
  unfold getRemoteMetadataNext.
  destruct (_ifRequestFailure self now); [reflexivity|].
  pose proof (requestHeadersNext_requests env self options) as Hh.
  destruct (requestHeadersNext env self options) as [[h|e] log]; cbn in *;
    [|exact Hh].
  pose proof (gotCallbacks_requests self (got_events net)) as Hc.
  destruct (gotCallbacks self (got_events net)) as [self' hooks].
  pose proof (metadataOutcome_requests (got_settled net)) as Ho.
  destruct (metadataOutcome (got_settled net)) as [result final].
  cbn in *. rewrite requestsOf_app, Hh. cbn.
  now rewrite requestsOf_request, requestsOf_app, Hc, Ho.
Qed.

(** The network traffic of [fetchTarballNext]: one request whenever the
    header builder succeeds. *)
Lemma fetchTarballNext_requests env self tarball_url options evs :
  requestsOf (snd (fetchTarballNext env self tarball_url options evs))
  = match requestHeadersNext env self options with
    | (Ok headers, _) => [NetRequest "GET" tarball_url (Some headers)]
    | (Throw _, _) => []
    end.
Proof.
  unfold fetchTarballNext.
  pose proof (requestHeadersNext_requests env self options) as Hh.
  destruct (requestHeadersNext env self options) as [[h|e] log]; cbn in *;
    [|exact Hh].
  now rewrite requestsOf_app, Hh.
Qed.

(** The network traffic of [search]: one request without headers whenever
    the URL parses. *)
Lemma search_requests URL_href self search_url reply :
  requestsOf (snd (search URL_href self search_url reply))
  = match URL_href (url self +:+ search_url) with
    | Some href => [NetRequest "GET" (collapseSlashes false href) None]
    | None => []
    end.
Proof.
  unfold search.
  destruct (URL_href (url self +:+ search_url)) as [href|]; [|reflexivity].
  destruct reply as [status document|e]; cbn; [|reflexivity].
  destruct (_ <=? _); reflexivity.
Qed.

Lemma statusCheck_requests self now alive :
  requestsOf (snd (_statusCheck self now alive)) = [].
Proof. unfold _statusCheck. destruct alive; split_ifs; reflexivity. Qed.

Lemma request_on_requests st ev :
  requestsOf (snd (request_on st ev)) = [].
Proof.
  destruct st as [self called].
  destruct ev; destruct called; cbn; split_ifs; reflexivity.
Qed.

Lemma fetchTarball_run_requests self st evs :
  requestsOf (snd (fst (fetchTarball_run self st evs))) = [].
Proof.
  revert self st. induction evs as [|ev evs IH]; intros self st;
    [reflexivity|].
  cbn [fetchTarball_run].
  pose proof (request_on_requests self ev) as H1.
  destruct (request_on self ev) as [self1 log1].
  destruct (fetchTarball_on st ev) as [st1 out1].
  specialize (IH self1 st1).
  destruct (fetchTarball_run self1 st1 evs) as [[self2 log2] out2].
  cbn in *. now rewrite requestsOf_app, H1, IH.
Qed.

Lemma fetchTarball_requests env self now tarball_url evs :
  requestsOf (snd (fetchTarball env self now tarball_url evs))
  = if _ifRequestFailure self now then []
    else match fetchTarball_headers env self with
         | (Ok headers, _) =>
             [NetRequest "GET"
                (orDefault (Some tarball_url)
                   (conf_url (config self) +:+ "undefined"))
                (Some headers)]
         | (Throw _, _) => []
         end.
Proof.
  unfold fetchTarball, request, fetchTarball_headers.
  destruct (_ifRequestFailure self now); [reflexivity|]. cbn [negb].
  cbn [ro_headers ro_req ro_method ro_uri ro_uri_full].
  pose proof (setAuthNext_requests env self) as Ha.
  unfold _setHeaders, _setAuth.
  match goal with
  | |- context [setAuthNext env self ?h] =>
      specialize (Ha h); destruct (setAuthNext env self h) as [[h'|e] log]
  end; cbn in *; [|exact Ha].
  pose proof (fetchTarball_run_requests (self, false) tarballStart evs) as Hr.
  destruct (fetchTarball_run (self, false) tarballStart evs)
    as [[self' hooks] out].
  cbn in *. rewrite !requestsOf_app, Ha, Hr. cbn.
  now rewrite requestsOf_log, requestsOf_request.
Qed.

(** ** C1: the preflight check *)

Example tripped_uplink_is_offline : _ifRequestFailure tripped_uplink 2000 = true.
Proof. reflexivity. Qed.

Example tripped_uplink_heals : _ifRequestFailure tripped_uplink 62000 = false.
Proof. reflexivity. Qed.

Example fresh_uplink_is_online (now : Z) : _ifRequestFailure sample_uplink now = false.
Proof. reflexivity. Qed.

Example metadata_fails_fast_when_offline :
  getRemoteMetadataNext ∅ tripped_uplink 2000 "left-pad" no_options
    {| got_events := [OnRequest 2000; OnResponse 200; AfterResponse 200];
       got_settled := got_settle (sample_response 200) |}
  = (Throw UplinkOffline, tripped_uplink, []).
Proof. reflexivity. Qed.

Example metadata_half_open_success :
  snd (fst (getRemoteMetadataNext ∅ tripped_uplink 62000 "left-pad" no_options
              {| got_events := [OnRequest 62000; OnResponse 200; AfterResponse 200];
                 got_settled := got_settle (sample_response 200) |}))
  = set_failed_requests 0 (set_last_request_time 62000 tripped_uplink).
Proof. reflexivity. Qed.

(** C1, as stated, fails for [search]: on an uplink that is offline at the
    time of the call, [search] does not fail with [UplinkOffline] and does
    reach the network. *)
Lemma search_skips_preflight :
  _ifRequestFailure tripped_uplink 2000 = true
  /\ fst (search href_id tripped_uplink "/-/v1/search?text=lodash"
            sample_search_reply)
     <> Throw UplinkOffline
  /\ ~ noNetwork (snd (search href_id tripped_uplink "/-/v1/search?text=lodash"
                         sample_search_reply)).
Proof.
  split; [reflexivity|]. split.
  - vm_compute. discriminate.
  - unfold noNetwork. vm_compute. discriminate.
Qed.

(** C1 (amended). [getRemoteMetadataNext] and the deprecated [request]
    path behind [fetchTarball] check the health state first: when the
    uplink is offline the former fails with [UplinkOffline] and the
    latter's stream emits it, with no effect at all and the state
    unchanged; when it is online each issues its one request as soon as
    its headers are built. [fetchTarballNext] and [search] make no such
    check: their traffic does not depend on the health state. *)
Theorem preflight_check
    env URL_href self now name options net tarball_url evs gs_evs
    search_url reply :
  (if _ifRequestFailure self now then
     getRemoteMetadataNext env self now name options net
     = (Throw UplinkOffline, self, [])
     /\ fetchTarball env self now tarball_url evs
        = (Ok [EmitError UplinkOffline], self, [])
   else
     requestsOf (snd (getRemoteMetadataNext env self now name options net))
     = match requestHeadersNext env self options with
       | (Ok headers, _) =>
           [NetRequest (orDefault (opt_method options) "GET")
              (conf_url (config self) +:+ "/" +:+ encode name)
              (Some headers)]
       | (Throw _, _) => []
       end
     /\ requestsOf (snd (fetchTarball env self now tarball_url evs))
        = match fetchTarball_headers env self with
          | (Ok headers, _) =>
              [NetRequest "GET"
                 (orDefault (Some tarball_url)
                    (conf_url (config self) +:+ "undefined"))
                 (Some headers)]
          | (Throw _, _) => []
          end)
  /\ requestsOf (snd (fetchTarballNext env self tarball_url options gs_evs))
     = match requestHeadersNext env self options with
       | (Ok headers, _) => [NetRequest "GET" tarball_url (Some headers)]
       | (Throw _, _) => []
       end
  /\ requestsOf (snd (search URL_href self search_url reply))
     = match URL_href (url self +:+ search_url) with
       | Some href => [NetRequest "GET" (collapseSlashes false href) None]
       | None => []
       end.
Proof.
  split; [|split; [apply fetchTarballNext_requests|apply search_requests]].
  pose proof (getRemoteMetadataNext_requests env self now name options net) as Hm.
  pose proof (fetchTarball_requests env self now tarball_url evs) as Ht.
  unfold getRemoteMetadataNext, fetchTarball, request in *.
  destruct (_ifRequestFailure self now); [split; reflexivity|].
  split; [exact Hm|exact Ht].
Qed.

(** ** C2: classification of the upstream reply *)

(** The [catch] clause and the 304 test, for each way [got] can settle. *)
Lemma metadataOutcome_resolved response :
  fst (metadataOutcome (Resolved response))
  = if statusCode response =? 304 then Throw NotModifiedNoData
    else Ok (body response, etag response).
Proof.
  cbn. change HTTP_STATUS.NOT_MODIFIED with 304.
  destruct (statusCode response =? 304); reflexivity.
Qed.

Lemma metadataOutcome_http_error response :
  fst (metadataOutcome (Rejected (ERR_NON_2XX_3XX_RESPONSE response)))
  = if statusCode response =? 404 then Throw NotFoundUplink
    else if is2xx (statusCode response)
         then Throw (HTTPError (statusCode response))
         else Throw (BadStatusCode (statusCode response)
                       (Some (statusCode response))).
Proof.
  cbn. change HTTP_STATUS.NOT_FOUND with 404. fold (is2xx (statusCode response)).
  destruct (statusCode response =? 404); [reflexivity|].
  destruct (is2xx (statusCode response)); reflexivity.
Qed.

Lemma metadataOutcome_transport code :
  fst (metadataOutcome (Rejected (GotOtherError code)))
  = Throw (TransportError code).
Proof. reflexivity. Qed.

Lemma getRemoteMetadataNext_result env self now name options net headers log :
  _ifRequestFailure self now = false ->
  requestHeadersNext env self options = (Ok headers, log) ->
  fst (fst (getRemoteMetadataNext env self now name options net))
  = fst (metadataOutcome (got_settled net)).
Proof.
  intros Hon Hh. unfold getRemoteMetadataNext. rewrite Hon, Hh.
  destruct (gotCallbacks self (got_events net)).
  destruct (metadataOutcome (got_settled net)). reflexivity.
Qed.

Example scoped_metadata_fresh_fetch :
  fst (fst (getRemoteMetadataNext ∅ sample_uplink 0 "@scope/pkg" no_options
              {| got_events := [OnRequest 0; OnResponse 200; AfterResponse 200];
                 got_settled := got_settle (sample_response 200) |}))
  = Ok (JObject [("name", JString "@scope/pkg")], Some "W-abc").
Proof. reflexivity. Qed.

(** C2. Once [getRemoteMetadataNext] has passed the preflight check and
    built its headers, the final response decides the outcome: 304 fails
    with [NotModifiedNoData], 404 with [NotFoundUplink], every other
    status outside 2xx with [BadStatusCode] carrying the status in
    [remoteStatus], and a 2xx status returns the decoded body with the
    [ETag] header. *)
Theorem metadata_classification
    env self now name options events response headers log :
  _ifRequestFailure self now = false ->
  requestHeadersNext env self options = (Ok headers, log) ->
  let code := statusCode response in
  let result :=
    fst (fst (getRemoteMetadataNext env self now name options
                {| got_events := events;
                   got_settled := got_settle response |})) in
  (code = 304 -> result = Throw NotModifiedNoData)
  /\ (code = 404 -> result = Throw NotFoundUplink)
  /\ (~ (200 <= code < 300) -> code <> 304 -> code <> 404 ->
      result = Throw (BadStatusCode code (Some code)))
  /\ (200 <= code < 300 -> result = Ok (body response, etag response)).
Proof.
  intros Hon Hh code result. subst result.
  rewrite (getRemoteMetadataNext_result _ _ _ _ _ _ _ _ Hon Hh).
  cbn [got_settled]. unfold got_settle, isResponseOk. fold code.
  assert (H2xx : is2xx code = (200 <=? code) && (code <=? 299)).
  { unfold is2xx, HTTP_STATUS.OK, HTTP_STATUS.MULTIPLE_CHOICES.
    f_equal. lia. }
  rewrite <- H2xx.
  repeat split.
  - intros H. rewrite H. cbn [is2xx orb]. change (is2xx 304) with false.
    cbn. fold code. now rewrite H.
  - intros H. rewrite H. change (is2xx 404) with false. cbn.
    fold code. now rewrite H.
  - intros H2 H304 H404.
    assert (is2xx code = false) as Hn by (rewrite H2xx; apply andb_false_iff; lia).
    rewrite Hn. replace (code =? 304) with false by lia. cbn [orb].
    rewrite metadataOutcome_http_error. fold code.
    replace (code =? 404) with false by lia. now rewrite Hn.
  - intros H2.
    assert (is2xx code = true) as Hy by (rewrite H2xx; apply andb_true_iff; lia).
    rewrite Hy. cbn [orb]. rewrite metadataOutcome_resolved. fold code.
    now replace (code =? 304) with false by lia.
Qed.

(** The theorem at the 404 of an unknown package. *)
Lemma metadata_classification_witness :
  _ifRequestFailure sample_uplink 0 = false
  /\ fst (requestHeadersNext ∅ sample_uplink no_options)
     = Ok {[ "Accept" := "application/json;"; "Accept-Encoding" := "gzip";
             "User-Agent" := "npm (verdaccio/6.0.0)";
             "X-Forwarded-For" := "undefined";
             "via" := "1.1 f3a1 (Verdaccio)" ]}
  /\ fst (fst (getRemoteMetadataNext ∅ sample_uplink 0 "nope" no_options
                 {| got_events :=
                      [OnRequest 0; OnResponse 404; AfterResponse 404];
                    got_settled := got_settle (sample_response 404) |}))
     = Throw NotFoundUplink.
Proof.
  split; [reflexivity|]. split; [vm_compute; reflexivity|].
  refine (proj1 (proj2
    (metadata_classification ∅ sample_uplink 0 "nope" no_options
       [OnRequest 0; OnResponse 404; AfterResponse 404]
       (sample_response 404) _ _ _ _)) _).
  - reflexivity.
  - vm_compute. reflexivity.
  - reflexivity.
Defined.

(** ** C3: the health hooks of the metadata fetcher *)

Example success_below_threshold_keeps_counter :
  failed_requests
    (fst (afterResponse (set_failed_requests 1 sample_uplink) 200)) = 1.
Proof. reflexivity. Qed.

Example retry_sequence_trips :
  gotCallbacks sample_uplink
    [OnRequest 10; BeforeRetry "ETIMEDOUT" (Some 1);
     OnRequest 20; BeforeRetry "ETIMEDOUT" (Some 2); OnRequest 30]
  = (set_last_request_time 30 (set_failed_requests 2 sample_uplink),
     [Log LInfo (Template "retry @{retryCount} req: '@{request.method} @{request.url}'");
      Log LInfo (Template "retry @{retryCount} req: '@{request.method} @{request.url}'");
      Log LWarn (Template "host @{host} is now offline")]).
Proof. reflexivity. Qed.

(** A successful response leaves the state alone while the counter is
    below [max_fails]. *)
Lemma afterResponse_below_threshold self code :
  failed_requests self < max_fails self ->
  afterResponse self code = (self, []).
Proof.
  intros H. unfold afterResponse.
  replace (max_fails self <=? failed_requests self) with false by lia.
  now destruct (_ && _).
Qed.

(** Only the ['request'] callback writes [last_request_time]. *)
Lemma gotCallback_last_request_time self ev :
  last_request_time (fst (gotCallback self ev))
  = match ev with
    | OnRequest now => Some now
    | _ => last_request_time self
    end.
Proof.
  destruct ev; unfold gotCallback, afterResponse, beforeRetry;
    split_ifs; reflexivity.
Qed.

(** A call that gets past the preflight check and the header builder
    leaves the state the callbacks produce. *)
Lemma getRemoteMetadataNext_state env self now name options net headers log :
  _ifRequestFailure self now = false ->
  requestHeadersNext env self options = (Ok headers, log) ->
  snd (fst (getRemoteMetadataNext env self now name options net))
  = fst (gotCallbacks self (got_events net)).
Proof.
  intros Hon Hh. unfold getRemoteMetadataNext. rewrite Hon, Hh.
  destruct (gotCallbacks self (got_events net)).
  destruct (metadataOutcome (got_settled net)). reflexivity.
Qed.

Lemma gotCallbacks_app self evs1 evs2 :
  fst (gotCallbacks self (evs1 ++ evs2))
  = fst (gotCallbacks (fst (gotCallbacks self evs1)) evs2).
Proof.
  revert self. induction evs1 as [|ev evs1 IH]; intros self; [reflexivity|].
  cbn [app gotCallbacks].
  destruct (gotCallback self ev) as [self1 log1].
  specialize (IH self1).
  destruct (gotCallbacks self1 (evs1 ++ evs2)) as [s2 l2].
  destruct (gotCallbacks self1 evs1) as [s3 l3]. exact IH.
Qed.

(** After a run of [got], [last_request_time] holds the time of the last
    request issued in it. *)
Lemma gotCallbacks_last_request self evs t rest :
  (forall t', ~ In (OnRequest t') rest) ->
  last_request_time (fst (gotCallbacks self (evs ++ OnRequest t :: rest)))
  = Some t.
Proof.
  intros Hrest. rewrite gotCallbacks_app.
  generalize (fst (gotCallbacks self evs)). intros self1.
  cbn [gotCallbacks gotCallback].
  assert (Hkeep : forall s,
    last_request_time (fst (gotCallbacks s rest)) = last_request_time s).
  { clear self self1. induction rest as [|ev rest IH]; intros s; [reflexivity|].
    cbn [gotCallbacks].
    pose proof (gotCallback_last_request_time s ev) as Hev.
    destruct (gotCallback s ev) as [s1 l1].
    assert (Hr : forall t', ~ In (OnRequest t') rest)
      by (intros t' Hin; apply (Hrest t'); now right).
    specialize (IH Hr s1). destruct (gotCallbacks s1 rest) as [s2 l2].
    cbn in *. rewrite IH, Hev.
    destruct ev; try reflexivity.
    exfalso. eapply Hrest. left. reflexivity. }
  specialize (Hkeep (set_last_request_time t self1)).
  destruct (gotCallbacks (set_last_request_time t self1) rest) as [s2 l2].
  exact Hkeep.
Qed.



(** ** Lookups in the headers built for a request *)

Lemma append_assoc (a b c : string) : (a +:+ b) +:+ c = a +:+ (b +:+ c).
Proof.
  induction a as [|x a IH]; [reflexivity|].
  change (String x ((a +:+ b) +:+ c) = String x (a +:+ (b +:+ c))).
  now rewrite IH.
Qed.

Lemma setHeaderAuthorization_lookup h type token h' log k :
  _setHeaderAuthorization h type token = (Ok h', log) ->
  k <> HEADERS.AUTHORIZATION ->
  h' !! k = h !! k.
Proof.
  unfold _setHeaderAuthorization. destruct (negb _ && negb _); [discriminate|].
  intros [= <- _] Hk. now rewrite lookup_insert_ne.
Qed.

Lemma setAuthNext_lookup env self h h' log k :
  setAuthNext env self h = (Ok h', log) ->
  k <> HEADERS.AUTHORIZATION ->
  h' !! k = h !! k.
Proof.
  unfold setAuthNext. intros H Hk.
  destruct (conf_auth (config self)) as [tc|]; [|now inversion H].
  destruct (truthy _); [now inversion H|].
  unfold bind in H.
  match type of H with
  | context [match ?m with _ => _ end] =>
      destruct m as [[[tok|]|e] es] eqn:Em; try discriminate H
  end.
  destruct (_setHeaderAuthorization h _ tok) as [r es'] eqn:Es.
  injection H as -> _.
  eapply setHeaderAuthorization_lookup; eauto.
Qed.

Lemma getHeadersNext_lookup env self hdrs h' log k :
  getHeadersNext env self hdrs = (Ok h', log) ->
  k <> HEADERS.ACCEPT -> k <> HEADERS.ACCEPT_ENCODING ->
  k <> HEADERS.USER_AGENT -> k <> HEADERS.AUTHORIZATION ->
  h' !! k = default ∅ hdrs !! k.
Proof.
  unfold getHeadersNext. intros H Ha He Hu Hz.
  rewrite (setAuthNext_lookup _ _ _ _ _ k H Hz).
  now rewrite !lookup_insert_ne.
Qed.

(** The final header object in terms of the three stages before it. *)
Lemma requestHeadersNext_inv env self options headers log :
  requestHeadersNext env self options = (Ok headers, log) ->
  exists h,
    getHeadersNext env self (opt_headers options) = (Ok h, log)
    /\ headers
       = match opt_etag options with
         | Some etag =>
             <[HEADERS.ACCEPT := contentTypeAccept]>
               (<[HEADERS.NONE_MATCH := etag]>
                  (applyUplinkHeaders self
                     (addProxyHeadersNext self h (opt_remoteAddress options))))
         | None =>
             applyUplinkHeaders self
               (addProxyHeadersNext self h (opt_remoteAddress options))
         end.
Proof.
  unfold requestHeadersNext, bind, ret. intros H.
  destruct (getHeadersNext env self (opt_headers options)) as [[h|e] es];
    [|discriminate H].
  injection H as <- <-. exists h. now rewrite app_nil_r.
Qed.

Lemma requestHeadersNext_lookup env self options headers log k :
  requestHeadersNext env self options = (Ok headers, log) ->
  k <> HEADERS.ACCEPT -> k <> HEADERS.NONE_MATCH ->
  exists h,
    getHeadersNext env self (opt_headers options) = (Ok h, log)
    /\ headers !! k
       = applyUplinkHeaders self
           (addProxyHeadersNext self h (opt_remoteAddress options)) !! k.
Proof.
  intros H Ha Hn. apply requestHeadersNext_inv in H as (h & Hh & ->).
  exists h. split; [exact Hh|].
  destruct (opt_etag options); [|reflexivity].
  now rewrite !lookup_insert_ne.
Qed.

Lemma applyUplinkHeaders_lookup self h k :
  applyUplinkHeaders self h !! k
  = match default ∅ (conf_headers (config self)) !! k with
    | Some v => Some v
    | None => h !! k
    end.
Proof.
  unfold applyUplinkHeaders.
  destruct (conf_headers (config self)) as [o|]; cbn.
  - rewrite lookup_union. destruct (o !! k), (h !! k); reflexivity.
  - now rewrite lookup_empty.
Qed.

Lemma addProxyHeadersNext_via self h remoteAddress :
  addProxyHeadersNext self h remoteAddress !! "via"
  = Some ((if truthy (h !! "via") then default "" (h !! "via") +:+ ", "
           else "") +:+ viaToken self).
Proof.
  unfold addProxyHeadersNext.
  rewrite lookup_insert_eq. f_equal.
  rewrite lookup_insert_eq. cbn [default].
  destruct (agent self); [reflexivity|].
  now rewrite lookup_insert_ne.
Qed.

Lemma addProxyHeadersNext_forwarded_for self h remoteAddress :
  addProxyHeadersNext self h remoteAddress !! HEADERS.FORWARDED_FOR
  = match agent self with
    | None =>
        Some ((if truthy (h !! "x-forwarded-for")
               then default "" (h !! "x-forwarded-for") +:+ ", " else "")
              +:+ jsToString remoteAddress)
    | Some _ => h !! HEADERS.FORWARDED_FOR
    end.
Proof.
  unfold addProxyHeadersNext.
  rewrite !lookup_insert_ne by discriminate.
  destruct (agent self); [reflexivity|].
  now rewrite lookup_insert_eq.
Qed.

(** ** C4: the Via header *)

Example via_chain_extended :
  addProxyHeadersNext sample_uplink {[ "via" := "1.1 edge" ]} (Some "10.0.0.9")
  !! "via" = Some "1.1 edge, 1.1 f3a1 (Verdaccio)".
Proof. vm_compute. reflexivity. Qed.

Example via_empty_prior_dropped :
  addProxyHeadersNext sample_uplink {[ "via" := "" ]} (Some "10.0.0.9")
  !! "via" = Some "1.1 f3a1 (Verdaccio)".
Proof. vm_compute. reflexivity. Qed.

(** C4, as stated, fails for [search]: its one outgoing request has no
    header object, hence no [Via] header under either spelling. *)
Lemma search_request_without_via :
  requestsOf (snd (search href_id sample_uplink "/-/v1/search?text=lodash"
                     sample_search_reply))
  = [NetRequest "GET" "https://registry.example.com/-/v1/search?text=lodash"
       None]
  /\ (forall k v,
        ~ carries
            (NetRequest "GET"
               "https://registry.example.com/-/v1/search?text=lodash" None)
            k v).
Proof.
  split; [vm_compute; reflexivity|].
  intros k v (h & Hh & _). discriminate Hh.
Qed.

(** C4 (amended). The one request of [getRemoteMetadataNext] and of
    [fetchTarballNext] carries the headers built for it, and these always
    hold a [via] entry: the value configured in the uplink's [headers]
    when there is one, and otherwise the caller's [via] value, if it is
    not empty, followed by [", "], followed by
    ["1.1 <server_id> (Verdaccio)"]. [search] sends no headers. *)
Theorem via_header env self options headers log :
  requestHeadersNext env self options = (Ok headers, log) ->
  let prior := default ∅ (opt_headers options) !! "via" in
  let configured := default ∅ (conf_headers (config self)) !! "via" in
  let token := "1.1 " +:+ server_id self +:+ " (Verdaccio)" in
  headers !! "via"
  = Some (match configured with
          | Some v => v
          | None =>
              (if truthy prior then default "" prior +:+ ", " else "")
              +:+ token
          end)
  /\ (configured = None -> JS.endsWith (default "" (headers !! "via")) token)
  /\ (configured = None ->
      forall v, prior = Some v -> v <> "" ->
                headers !! "via" = Some (v +:+ ", " +:+ token))
  /\ (forall now name net,
        _ifRequestFailure self now = false ->
        requestsOf (snd (getRemoteMetadataNext env self now name options net))
        = [NetRequest (orDefault (opt_method options) "GET")
             (conf_url (config self) +:+ "/" +:+ encode name) (Some headers)])
  /\ (forall tarball_url evs,
        requestsOf (snd (fetchTarballNext env self tarball_url options evs))
        = [NetRequest "GET" tarball_url (Some headers)])
  /\ (forall URL_href search_url reply e,
        In e (requestsOf (snd (search URL_href self search_url reply))) ->
        headersOf e = None).
Proof.
  intros H prior configured token.
  assert (Hvia :
    headers !! "via"
    = Some (match configured with
            | Some v => v
            | None =>
                (if truthy prior then default "" prior +:+ ", " else "")
                +:+ token
            end)).
  { destruct (requestHeadersNext_lookup _ _ _ _ _ "via" H) as (h & Hh & ->);
      [discriminate..|].
    rewrite applyUplinkHeaders_lookup. fold configured.
    destruct configured; [reflexivity|].
    rewrite addProxyHeadersNext_via.
    rewrite (getHeadersNext_lookup _ _ _ _ _ "via" Hh) by discriminate.
    reflexivity. }
  split; [exact Hvia|].
  split; [|split; [|split; [|split]]].
  - intros Hc. rewrite Hvia, Hc. cbn [default]. eexists. reflexivity.
  - intros Hc v Hv Hne. rewrite Hvia, Hc, Hv. cbn [default].
    destruct v as [|c r]; [contradiction|]. cbn [truthy].
    now rewrite append_assoc.
  - intros now name net Hon.
    now rewrite getRemoteMetadataNext_requests, Hon, H.
  - intros tarball_url evs. now rewrite fetchTarballNext_requests, H.
  - intros URL_href search_url reply e. rewrite search_requests.
    destruct (URL_href _); [|intros []].
    intros [<-|[]]. reflexivity.
Qed.

(** The theorem for a caller that hands over a [via] chain. *)
Lemma via_header_witness :
  fst (requestHeadersNext ∅ sample_uplink
         {| opt_headers := Some {[ "via" := "1.1 edge" ]};
            opt_etag := None; opt_remoteAddress := Some "10.0.0.9";
            opt_method := None |})
  = Ok {[ "Accept" := "application/json;"; "Accept-Encoding" := "gzip";
          "User-Agent" := "npm (verdaccio/6.0.0)";
          "X-Forwarded-For" := "10.0.0.9";
          "via" := "1.1 edge, 1.1 f3a1 (Verdaccio)" ]}
  /\ ({[ "Accept" := "application/json;"; "Accept-Encoding" := "gzip";
         "User-Agent" := "npm (verdaccio/6.0.0)";
         "X-Forwarded-For" := "10.0.0.9";
         "via" := "1.1 edge, 1.1 f3a1 (Verdaccio)" ]} : gmap string string)
     !! "via" = Some "1.1 edge, 1.1 f3a1 (Verdaccio)".
Proof.
  split; [vm_compute; reflexivity|].
  refine (proj1 (via_header ∅ sample_uplink
            {| opt_headers := Some {[ "via" := "1.1 edge" ]};
               opt_etag := None; opt_remoteAddress := Some "10.0.0.9";
               opt_method := None |} _ [] _)).
  vm_compute. reflexivity.
Defined.

(** ** C5: X-Forwarded-For and the explicit proxy *)

Example agent_follows_proxy (isHTTPS : bool) (proxy : option string) :
  constructor_agent isHTTPS proxy = None <-> proxy = None.
Proof. destruct proxy; cbn; split; congruence. Qed.

(** C5, as stated, fails in both directions. With an explicit proxy agent
    and an uplink whose configured [headers] name [X-Forwarded-For], the
    request of [getRemoteMetadataNext] carries that header; without any
    agent, the request of [search] carries none. *)
Lemma forwarded_for_not_tied_to_agent :
  (agent proxied_uplink = Some (AgentHTTPS "http://corp:8080")
   /\ exists e,
        requestsOf (snd (getRemoteMetadataNext ∅ proxied_uplink 0 "left-pad"
                           no_options
                           {| got_events := [OnRequest 0];
                              got_settled := got_settle (sample_response 200) |}))
        = [e]
        /\ carries e "X-Forwarded-For" "203.0.113.7")
  /\ (agent sample_uplink = None
      /\ exists e,
           requestsOf (snd (search href_id sample_uplink
                              "/-/v1/search?text=lodash" sample_search_reply))
           = [e]
           /\ forall v, ~ carries e "X-Forwarded-For" v).
Proof.
  split; (split; [reflexivity|]).
  - eexists. split; [vm_compute; reflexivity|].
    eexists. split; [reflexivity|]. vm_compute. reflexivity.
  - eexists. split; [vm_compute; reflexivity|].
    intros v (h & Hh & _). discriminate Hh.
Qed.

(** C5 (amended). The forwarding stage [addProxyHeadersNext] writes
    [X-Forwarded-For] exactly when no proxy agent is configured. In the
    headers of a [getRemoteMetadataNext] or [fetchTarballNext] request,
    the entry is: the value configured in the uplink's [headers] if any;
    otherwise, without agent, the caller's [x-forwarded-for] chain and
    the remote address; otherwise, with an agent, whatever the caller
    put under [X-Forwarded-For] itself, and nothing if the caller put
    nothing. [search] sends no headers. *)
Theorem forwarded_for_header env self options headers log :
  requestHeadersNext env self options = (Ok headers, log) ->
  let caller := default ∅ (opt_headers options) in
  let configured :=
    default ∅ (conf_headers (config self)) !! HEADERS.FORWARDED_FOR in
  (forall h remoteAddress,
      addProxyHeadersNext self h remoteAddress !! HEADERS.FORWARDED_FOR
      = match agent self with
        | None =>
            Some ((if truthy (h !! "x-forwarded-for")
                   then default "" (h !! "x-forwarded-for") +:+ ", "
                   else "")
                  +:+ jsToString remoteAddress)
        | Some _ => h !! HEADERS.FORWARDED_FOR
        end)
  /\ headers !! HEADERS.FORWARDED_FOR
     = match configured, agent self with
       | Some v, _ => Some v
       | None, None =>
           Some ((if truthy (caller !! "x-forwarded-for")
                  then default "" (caller !! "x-forwarded-for") +:+ ", "
                  else "")
                 +:+ jsToString (opt_remoteAddress options))
       | None, Some _ => caller !! HEADERS.FORWARDED_FOR
       end
  /\ (agent self <> None -> configured = None ->
      caller !! HEADERS.FORWARDED_FOR = None ->
      headers !! HEADERS.FORWARDED_FOR = None)
  /\ (forall URL_href search_url reply e,
        In e (requestsOf (snd (search URL_href self search_url reply))) ->
        headersOf e = None).
Proof.
  intros H caller configured.
  assert (Hx :
    headers !! HEADERS.FORWARDED_FOR
    = match configured, agent self with
      | Some v, _ => Some v
      | None, None =>
          Some ((if truthy (caller !! "x-forwarded-for")
                 then default "" (caller !! "x-forwarded-for") +:+ ", "
                 else "")
                +:+ jsToString (opt_remoteAddress options))
      | None, Some _ => caller !! HEADERS.FORWARDED_FOR
      end).
  { destruct (requestHeadersNext_lookup _ _ _ _ _ HEADERS.FORWARDED_FOR H)
      as (h & Hh & ->); [discriminate..|].
    rewrite applyUplinkHeaders_lookup. fold configured.
    destruct configured; [reflexivity|].
    rewrite addProxyHeadersNext_forwarded_for.
    rewrite !(getHeadersNext_lookup _ _ _ _ _ _ Hh) by discriminate.
    reflexivity. }
  split; [|split; [exact Hx|split]].
  - intros h remoteAddress. apply addProxyHeadersNext_forwarded_for.
  - intros Ha Hc Hcaller. rewrite Hx, Hc.
    destruct (agent self); [exact Hcaller|contradiction].
  - intros URL_href search_url reply e. rewrite search_requests.
    destruct (URL_href _); [|intros []].
    intros [<-|[]]. reflexivity.
Qed.

(** The theorem on an uplink behind a proxy with no configured headers:
    nothing is forwarded. *)
Lemma forwarded_for_header_witness :
  fst (requestHeadersNext ∅ corporate_uplink no_options)
  = Ok {[ "Accept" := "application/json;"; "Accept-Encoding" := "gzip";
          "User-Agent" := "npm (verdaccio/6.0.0)";
          "via" := "1.1 f3a1 (Verdaccio)" ]}
  /\ ({[ "Accept" := "application/json;"; "Accept-Encoding" := "gzip";
         "User-Agent" := "npm (verdaccio/6.0.0)";
         "via" := "1.1 f3a1 (Verdaccio)" ]} : gmap string string)
     !! HEADERS.FORWARDED_FOR = None.
Proof.
  split; [vm_compute; reflexivity|].
  refine (proj1 (proj2 (proj2
    (forwarded_for_header ∅ corporate_uplink no_options _ [] _))) _ _ _).
  - vm_compute. reflexivity.
  - discriminate.
  - reflexivity.
  - reflexivity.
Defined.

(** ** C10: a missing remote address *)


Example metadata_request_without_remote_address :
  requestsOf (snd (getRemoteMetadataNext ∅ sample_uplink 0 "left-pad" no_options
                     {| got_events := [OnRequest 0];
                        got_settled := got_settle (sample_response 200) |}))
  = [NetRequest "GET" "https://registry.example.com/left-pad"
       (Some {[ "Accept" := "application/json;"; "Accept-Encoding" := "gzip";
                "User-Agent" := "npm (verdaccio/6.0.0)";
                "X-Forwarded-For" := "undefined";
                "via" := "1.1 f3a1 (Verdaccio)" ]})].
Proof. vm_compute. reflexivity. Qed.



(** ** C6: the Authorization header *)

Lemma bind_ret {A B} (a : A) (k : A -> M B) : bind (ret a) k = k a.
Proof. unfold bind, ret. now destruct (k a). Qed.

Lemma upper_of_upper (c : ascii) :
  JS.toUpperChar (JS.toUpperChar c) = JS.toUpperChar (JS.toLowerChar c).
Proof. each_char c; reflexivity. Qed.

(** The type as [buildToken] prints it depends on its lower-case form only. *)
Lemma capitalize_upperFirst (type : string) :
  JS.capitalize (JS.upperFirst type)
  = match JS.toLowerCase type with
    | String c r => String (JS.toUpperChar c) r
    | EmptyString => EmptyString
    end.
Proof. destruct type as [|c r]; cbn; [reflexivity|]. now rewrite upper_of_upper. Qed.

Lemma setHeaderAuthorization_allowed h type token :
  JS.toLowerCase type = "basic" \/ JS.toLowerCase type = "bearer" ->
  _setHeaderAuthorization h type token
  = (Ok (<[HEADERS.AUTHORIZATION :=
             JS.capitalize (JS.upperFirst type) +:+ " " +:+ token]> h), []).
Proof.
  intros Ht. unfold _setHeaderAuthorization.
  destruct Ht as [-> | ->]; reflexivity.
Qed.

Lemma setHeaderAuthorization_rejected h type token :
  JS.toLowerCase type <> "basic" -> JS.toLowerCase type <> "bearer" ->
  _setHeaderAuthorization h type token
  = (Throw (AuthInvalid ("Auth type '" +:+ JS.toLowerCase type +:+ "' not allowed")),
     [Log LError
        (MessageOf
           (AuthInvalid ("Auth type '" +:+ JS.toLowerCase type +:+ "' not allowed")))]).
Proof.
  intros Hb Hr. unfold _setHeaderAuthorization.
  change (JS.toLowerCase TOKEN_BEARER) with "bearer".
  change (JS.toLowerCase TOKEN_BASIC) with "basic".
  destruct (String.eqb_spec (JS.toLowerCase type) "bearer"); [contradiction|].
  destruct (String.eqb_spec (JS.toLowerCase type) "basic"); [contradiction|].
  reflexivity.
Qed.

Example auth_bearer_from_env :
  setAuthNext token_env token_uplink ∅
  = (Ok {[ "Authorization" := "Bearer s3cret" ]}, []).
Proof. vm_compute. reflexivity. Qed.

Example auth_token_env_false :
  fst (setAuthNext token_env
         {| config :=
              {| conf_url := "https://registry.example.com";
                 conf_auth := Some {| auth_type := None;
                                      auth_token := JsNull;
                                      auth_token_env := JsBoolean false |};
                 conf_headers := None |};
            failed_requests := 0; userAgent := "verdaccio/6.0.0";
            server_id := "f3a1"; url := "https://registry.example.com/";
            max_fails := 2; fail_timeout := 60000; upname := "npmjs";
            agent := None; last_request_time := None |} ∅)
  = Throw TokenRequired.
Proof. reflexivity. Qed.

(** C6. With [auth] configured and no [Authorization] set by the caller:
    a string [auth.token] is the token; failing that, the environment
    variable named by a string [auth.token_env]; failing that,
    [NPM_TOKEN] when [auth.token_env] is [true]. When nothing resolves
    the call fails with [TokenRequired]. A resolved token [t] is written
    as ["Basic t"] or ["Bearer t"] when the type, whatever its letter
    case, is one of the two (a missing type counts as [Basic]); any
    other type fails with [AuthInvalid]. *)
Theorem auth_header env self headers tokenConf :
  conf_auth (config self) = Some tokenConf ->
  truthy (headers !! HEADERS.AUTHORIZATION) = false ->
  let type := orDefault (auth_type tokenConf) TOKEN_BASIC in
  let no_literal := forall s, auth_token tokenConf <> JsString s in
  let written (t : string) :=
    setAuthNext env self headers = _setHeaderAuthorization headers type t in
  (forall s, auth_token tokenConf = JsString s -> written s)
  /\ (forall name t,
        no_literal -> auth_token_env tokenConf = JsString name ->
        env !! name = Some t -> written t)
  /\ (forall t,
        no_literal -> auth_token_env tokenConf = JsBoolean true ->
        env !! "NPM_TOKEN" = Some t -> written t)
  /\ (no_literal ->
      match auth_token_env tokenConf with
      | JsString name => env !! name = None
      | JsBoolean true | JsUndefined | JsNull => env !! "NPM_TOKEN" = None
      | JsBoolean false | JsNumber _ => True
      end ->
      fst (setAuthNext env self headers) = Throw TokenRequired)
  /\ (forall t,
        (JS.toLowerCase type = "basic" ->
         _setHeaderAuthorization headers type t
         = (Ok (<[HEADERS.AUTHORIZATION := "Basic " +:+ t]> headers), []))
        /\ (JS.toLowerCase type = "bearer" ->
            _setHeaderAuthorization headers type t
            = (Ok (<[HEADERS.AUTHORIZATION := "Bearer " +:+ t]> headers), []))
        /\ (JS.toLowerCase type <> "basic" ->
            JS.toLowerCase type <> "bearer" ->
            exists message,
              fst (_setHeaderAuthorization headers type t)
              = Throw (AuthInvalid message))).
Proof.
  intros Hauth Hnone type no_literal written. subst written no_literal. cbn beta.
  unfold setAuthNext. rewrite Hauth, Hnone. fold type.
  split; [|split; [|split; [|split]]].
  - intros s ->. now rewrite bind_ret.
  - intros name t Hlit Henv Ht. rewrite Henv. cbn [isNil negb].
    destruct (auth_token tokenConf) eqn:E;
      try (exfalso; eapply Hlit; reflexivity);
      now rewrite bind_ret, Ht.
  - intros t Hlit Henv Ht. rewrite Henv. cbn [isNil negb].
    destruct (auth_token tokenConf) eqn:E;
      try (exfalso; eapply Hlit; reflexivity);
      now rewrite bind_ret, Ht.
  - intros Hlit Hnot.
    destruct (auth_token tokenConf) eqn:E;
      try (exfalso; eapply Hlit; reflexivity);
      destruct (auth_token_env tokenConf) as [| |[]| |name]; cbn [isNil negb];
      try reflexivity; now rewrite bind_ret, Hnot.
  - intros t. split; [|split].
    + intros Ht. rewrite setHeaderAuthorization_allowed by (now left).
      unfold buildToken. now rewrite capitalize_upperFirst, Ht.
    + intros Ht. rewrite setHeaderAuthorization_allowed by (now right).
      unfold buildToken. now rewrite capitalize_upperFirst, Ht.
    + intros Hb Hr. eexists.
      now rewrite setHeaderAuthorization_rejected.
Qed.

(** The theorem on the sample uplink with a bearer token in [NPM_TOKEN]. *)
Lemma auth_header_witness :
  conf_auth (config token_uplink) = Some token_auth
  /\ truthy ((∅ : gmap string string) !! HEADERS.AUTHORIZATION) = false
  /\ token_env !! "NPM_TOKEN" = Some "s3cret"
  /\ setAuthNext token_env token_uplink ∅
     = _setHeaderAuthorization ∅ "BEARER" "s3cret".
Proof.
  split; [reflexivity|]. split; [reflexivity|].
  split; [vm_compute; reflexivity|].
  refine (proj1 (proj2 (proj2
    (auth_header token_env token_uplink ∅ token_auth _ _))) "s3cret" _ _ _).
  - reflexivity.
  - reflexivity.
  - intros s. discriminate.
  - reflexivity.
  - vm_compute. reflexivity.
Defined.

(** ** C8: errors on the tarball stream *)

Example tarball_not_found :
  fst (fetchTarballNext ∅ sample_uplink
         "https://registry.example.com/left-pad/-/left-pad-1.3.0.tgz"
         no_options [GsRequest; GsResponse 404 None])
  = Ok [EmitError NotFileUplink].
Proof. vm_compute. reflexivity. Qed.

Example tarball_offline :
  fetchTarball ∅ tripped_uplink 2000
    "https://registry.example.com/left-pad/-/left-pad-1.3.0.tgz" []
  = (Ok [EmitError UplinkOffline], tripped_uplink, []).
Proof. reflexivity. Qed.

(** The deprecated fetcher compares the bytes seen with the advertised
    length when the source ends. *)
Lemma fetchTarball_on_end st :
  snd (fetchTarball_on st (ReqEnd None))
  = (match expected_length st with
     | Some expected =>
         if current_length st =? expected then []
         else [EmitError ContentMismatch]
     | None => []
     end ++ (if piped st then [EmitEnd] else []))%list.
Proof.
  cbn. destruct (expected_length st) as [n|]; [|reflexivity].
  now destruct (current_length st =? n).
Qed.

(** [fetchTarballNext] never raises [ContentMismatch] of its own: the
    error can only be one the source stream raised. *)
Lemma fetchTarballNext_run_mismatch st evs :
  In (EmitError ContentMismatch) (fetchTarballNext_run st evs) ->
  In (GsError ContentMismatch) evs.
Proof.
  revert st. induction evs as [|ev evs IH]; intros st; [intros []|].
  cbn [fetchTarballNext_run].
  destruct (fetchTarballNext_on st ev) as [st1 out1] eqn:E.
  intros H. apply in_app_or in H as [H|H]; [|right; eapply IH; exact H].
  left. destruct ev as [|status cl|chunk| |e]; cbn in E.
  - injection E as _ <-. destruct H.
  - destruct (status =? HTTP_STATUS.NOT_FOUND);
      [injection E as _ <-; destruct H as [H|[]]; discriminate H|].
    destruct (negb (is2xx status));
      [injection E as _ <-; destruct H as [H|[]]; discriminate H|].
    destruct cl; injection E as _ <-; [destruct H as [H|[]]; discriminate H|destruct H].
  - destruct (pipelined st); injection E as _ <-;
      [destruct H as [H|[]]; discriminate H|destruct H].
  - destruct (pipelined st); injection E as _ <-;
      [destruct H as [H|[]]; discriminate H|destruct H].
  - destruct (pipelined st); injection E as _ <-;
      [destruct H as [H|[]]; now injection H as ->|destruct H].
Qed.

(** C8, at the input of the length-mismatch scenario: a 200 response that
    advertises 100 bytes, 80 bytes of body, end of stream. The stream of
    [fetchTarballNext] passes the 80 bytes on and ends without an error;
    the deprecated [fetchTarball] emits [ContentMismatch] on the same
    input. *)
Theorem tarball_length_mismatch :
  fst (fetchTarballNext ∅ sample_uplink
         "https://registry.example.com/left-pad/-/left-pad-1.3.0.tgz"
         no_options
         [GsRequest; GsResponse 200 (Some 100); GsData (bytes 80); GsEnd])
  = Ok [EmitContentLength 100; EmitData (bytes 80); EmitEnd]
  /\ fst (fst (fetchTarball ∅ sample_uplink 0
                 "https://registry.example.com/left-pad/-/left-pad-1.3.0.tgz"
                 [ReqResponse 5 200 (Some 100); ReqData (bytes 80);
                  ReqEnd None]))
     = Ok [EmitContentLength 100; EmitData (bytes 80);
           EmitError ContentMismatch; EmitEnd].
Proof. split; vm_compute; reflexivity. Qed.

(** ** C9: the search streamer *)

Example search_url_joined :
  requestsOf (snd (search href_id sample_uplink "/-/v1/search?text=lodash"
                     sample_search_reply))
  = [NetRequest "GET" "https://registry.example.com/-/v1/search?text=lodash"
       None].
Proof. vm_compute. reflexivity. Qed.

Example collapse_keeps_scheme :
  collapseSlashes false "http://a//b///c/?q=x//y" = "http://a/b/c/?q=x/y".
Proof. reflexivity. Qed.

Example collapse_after_scheme :
  collapseSlashes false "http:///a" = "http://a".
Proof. reflexivity. Qed.

Example objects_path_versus_elements :
  JSONStream_parse [Key "objects"; Star]
    (JObject [("objects", JArray [JNumber 1; JNumber 2]); ("total", JNumber 2)])
  = [JNumber 1; JNumber 2]
  /\ JSONStream_parse [Key "objects"]
       (JObject [("objects", JArray [JNumber 1; JNumber 2]); ("total", JNumber 2)])
     = [JArray [JNumber 1; JNumber 2]].
Proof. split; reflexivity. Qed.

(** C9, as stated, fails on the search scenario: for a body whose
    [objects] array has two elements the stream yields one item, the
    array, and not its two elements. *)
Lemma search_yields_the_array :
  fst (search href_id sample_uplink "/-/v1/search?text=lodash"
         sample_search_reply)
  = Ok [JArray [JObject [("a", JNumber 1)]; JObject [("a", JNumber 2)]]]
  /\ fst (search href_id sample_uplink "/-/v1/search?text=lodash"
            sample_search_reply)
     <> Ok [JObject [("a", JNumber 1)]; JObject [("a", JNumber 2)]].
Proof. split; [vm_compute; reflexivity|vm_compute; discriminate]. Qed.

(** *** Slash collapsing *)

Lemma noDuplicateSlashb_sound (s : string) :
  noDuplicateSlashb s = true -> noDuplicateSlash s.
Proof.
  intros H front. revert s H.
  induction front as [|x front IH]; intros s H c back ->.
  - change (noDuplicateSlashb (String c (String "/" (String "/" back))) = true) in H.
    cbn in H. apply andb_true_iff in H as [H _].
    now apply Ascii.eqb_eq.
  - change (noDuplicateSlashb
              (String x (front +:+ String c (String "/" (String "/" back))))
            = true) in H.
    cbn [noDuplicateSlashb] in H. apply andb_true_iff in H as [_ H].
    eapply IH; [exact H|reflexivity].
Qed.

(** Outside a dropped run the first character is always kept. *)
Lemma collapseSlashes_head c r :
  exists t, collapseSlashes false (String c r) = String c t.
Proof.
  cbn. destruct r as [|d [|e r']]; try (eexists; reflexivity).
  destruct (_ && _ && _); eexists; reflexivity.
Qed.

Lemma collapseSlashes_skip_other c r :
  Ascii.eqb c "/" = false ->
  collapseSlashes true (String c r) = collapseSlashes false (String c r).
Proof. intros H. cbn. now rewrite H. Qed.

(** A dropped run leaves no slash at the front. *)
Lemma collapseSlashes_skip_head s :
  match collapseSlashes true s with
  | String c _ => Ascii.eqb c "/" = false
  | EmptyString => True
  end.
Proof.
  induction s as [|c r IH]; [exact I|].
  destruct (Ascii.eqb c "/") eqn:Hc.
  - cbn. rewrite Hc. exact IH.
  - rewrite (collapseSlashes_skip_other _ _ Hc).
    destruct (collapseSlashes_head c r) as (t & ->). exact Hc.
Qed.

Lemma startsWithTwoSlashes_skip s :
  startsWithTwoSlashes (collapseSlashes true s) = false.
Proof.
  pose proof (collapseSlashes_skip_head s) as H.
  destruct (collapseSlashes true s) as [|c [|e t]]; try reflexivity.
  cbn. now rewrite H.
Qed.

Lemma startsWithTwoSlashes_slash_skip s :
  startsWithTwoSlashes (String "/" (collapseSlashes true s)) = false.
Proof.
  pose proof (collapseSlashes_skip_head s) as H.
  destruct (collapseSlashes true s) as [|c t]; [reflexivity|].
  cbn. now rewrite H.
Qed.

Lemma collapseSlashes_cons c r :
  collapseSlashes false (String c r)
  = match r with
    | String d (String e r') =>
        if Ascii.eqb d "/" && Ascii.eqb e "/" && negb (Ascii.eqb c ":")
        then String c (String "/" (collapseSlashes true r'))
        else String c (collapseSlashes false r)
    | _ => String c (collapseSlashes false r)
    end.
Proof. reflexivity. Qed.

(** Collapsing never creates a double slash at the front. *)
Lemma startsWithTwoSlashes_collapse r :
  startsWithTwoSlashes r = false ->
  startsWithTwoSlashes (collapseSlashes false r) = false.
Proof.
  destruct r as [|d [|e r']]; try reflexivity.
  intros H. cbn [startsWithTwoSlashes] in H.
  rewrite collapseSlashes_cons.
  destruct r' as [|f r''].
  - exact H.
  - destruct (Ascii.eqb e "/" && Ascii.eqb f "/" && negb (Ascii.eqb d ":")) eqn:E.
    + apply andb_true_iff in E as [E _]. apply andb_true_iff in E as [E _].
      rewrite E, andb_true_r in H.
      cbn [startsWithTwoSlashes]. now rewrite H.
    + destruct (collapseSlashes_head e (String f r'')) as (t & ->).
      exact H.
Qed.

Lemma collapseSlashes_no_duplicate_aux (n : nat) :
  forall s b, (String.length s <= n)%nat ->
              noDuplicateSlashb (collapseSlashes b s) = true.
Proof.
  induction n as [|n IH]; intros s b Hn.
  - destruct s; [reflexivity|cbn in Hn; lia].
  - destruct s as [|c r]; [reflexivity|]. cbn in Hn.
    assert (Hr : forall b', noDuplicateSlashb (collapseSlashes b' r) = true)
      by (intros b'; apply IH; lia).
    cbn [collapseSlashes].
    destruct (b && Ascii.eqb c "/"); [apply Hr|].
    assert (Hplain :
      startsWithTwoSlashes r = false \/ Ascii.eqb c ":" = true ->
      noDuplicateSlashb (String c (collapseSlashes false r)) = true).
    { intros Hc. cbn [noDuplicateSlashb]. rewrite Hr, andb_true_r.
      destruct Hc as [Hc|Hc].
      - now rewrite (startsWithTwoSlashes_collapse _ Hc).
      - rewrite Hc. apply orb_true_r. }
    destruct r as [|d [|e r']]; try (apply Hplain; left; reflexivity).
    destruct (Ascii.eqb d "/" && Ascii.eqb e "/" && negb (Ascii.eqb c ":")) eqn:E.
    + cbn [noDuplicateSlashb].
      rewrite startsWithTwoSlashes_slash_skip, startsWithTwoSlashes_skip.
      cbn. apply IH. cbn in Hn. lia.
    + apply Hplain. cbn [startsWithTwoSlashes].
      destruct (Ascii.eqb d "/" && Ascii.eqb e "/"); [|now left].
      right. cbn in E. now apply negb_false_iff in E.
Qed.

(** After the replacement no character other than a colon is followed by
    two slashes. *)
Lemma collapseSlashes_no_duplicate (s : string) :
  noDuplicateSlash (collapseSlashes false s).
Proof.
  apply noDuplicateSlashb_sound.
  now apply (collapseSlashes_no_duplicate_aux (String.length s)).
Qed.

(** A string without such a spot is left as it is. *)
Lemma collapseSlashes_fixed (s : string) :
  noDuplicateSlashb s = true -> collapseSlashes false s = s.
Proof.
  induction s as [|c r IH]; [reflexivity|].
  cbn [noDuplicateSlashb]. intros H. apply andb_true_iff in H as [H1 H2].
  cbn [collapseSlashes andb]. rewrite (IH H2).
  destruct r as [|d [|e r']]; try reflexivity.
  cbn [startsWithTwoSlashes] in H1.
  destruct (Ascii.eqb d "/" && Ascii.eqb e "/"); [|reflexivity].
  cbn in H1. now rewrite H1.
Qed.

(** *** What the stream yields *)

Lemma JSONStream_select_others (k : string) (members : list (string * Json)) :
  (forall m, In m members -> fst m <> k) ->
  flat_map (fun m => if pathKeyMatches (Key k) (fst m)
                     then JSONStream_select [] (snd m) else [])
    members = [].
Proof.
  induction members as [|m ms IH]; intros H; [reflexivity|].
  cbn [flat_map pathKeyMatches].
  destruct (String.eqb_spec k (fst m)) as [E|_].
  - exfalso. apply (H m); [now left|now symmetry].
  - apply IH. intros m' Hm'. apply H. now right.
Qed.

(** With one [objects] member, the path [objects] selects the value of
    that member, whatever stands before and after it. *)
Lemma JSONStream_parse_objects before value after :
  (forall m, In m (before ++ after) -> fst m <> "objects") ->
  JSONStream_parse [Key "objects"]
    (JObject (before ++ ("objects", value) :: after))
  = if isJNull value then [] else [value].
Proof.
  intros H. unfold JSONStream_parse. cbn [JSONStream_select].
  rewrite flat_map_app. cbn [flat_map].
  rewrite !JSONStream_select_others
    by (intros m Hm; apply H, in_or_app; auto).
  cbn. now destruct (isJNull value).
Qed.

(** C9 (amended). When the joined URL parses, [search] issues one
    header-less [GET] to it with every run of slashes after a character
    other than a colon collapsed to one slash. A status of 400 or more
    fails with [BadStatusCode]; below 400 the stream yields what the path
    [objects] selects in the response document: for a document with one
    [objects] member holding an array, a single item, that array with its
    elements in their order; [total], [date] and every other member are
    dropped. *)
Theorem search_stream URL_href self search_url status document href :
  URL_href (url self +:+ search_url) = Some href ->
  let result := search URL_href self search_url (FetchResponse status document) in
  requestsOf (snd result)
  = [NetRequest "GET" (collapseSlashes false href) None]
  /\ noDuplicateSlash (collapseSlashes false href)
  /\ (400 <= status -> fst result = Throw (BadStatusCode status None))
  /\ (status < 400 ->
      fst result = Ok (JSONStream_parse [Key "objects"] document))
  /\ (status < 400 ->
      forall before items after,
        document = JObject (before ++ ("objects", JArray items) :: after) ->
        (forall m, In m (before ++ after) -> fst m <> "objects") ->
        fst result = Ok [JArray items]).
Proof.
  intros Hurl result.
  assert (Hlow : status < 400 ->
                 fst result = Ok (JSONStream_parse [Key "objects"] document)).
  { intros Hs. subst result. unfold search. rewrite Hurl. cbn.
    unfold HTTP_STATUS.BAD_REQUEST.
    now replace (400 <=? status) with false by lia. }
  split; [|split; [|split; [|split]]].
  - subst result. now rewrite search_requests, Hurl.
  - apply collapseSlashes_no_duplicate.
  - intros Hs. subst result. unfold search. rewrite Hurl. cbn.
    unfold HTTP_STATUS.BAD_REQUEST.
    now replace (400 <=? status) with true by lia.
  - exact Hlow.
  - intros Hs before items after -> Hu.
    rewrite (Hlow Hs). now rewrite JSONStream_parse_objects.
Qed.

(** The theorem on the search scenario. *)
Lemma search_stream_witness :
  href_id (url sample_uplink +:+ "/-/v1/search?text=lodash")
  = Some "https://registry.example.com//-/v1/search?text=lodash"
  /\ requestsOf (snd (search href_id sample_uplink "/-/v1/search?text=lodash"
                        sample_search_reply))
     = [NetRequest "GET"
          (collapseSlashes false
             "https://registry.example.com//-/v1/search?text=lodash") None].
Proof.
  split; [reflexivity|].
  refine (proj1 (search_stream href_id sample_uplink "/-/v1/search?text=lodash"
                   200 _ _ _)).
  reflexivity.
Defined.

(** * Further properties *)

(** ** Package name encoding: what the output is made of *)

Lemma pctEncode_append (c : ascii) (r : string) :
  JS.pctEncode c +:+ r
  = String "%" (String (JS.hexDigit (N_of_ascii c / 16))
                  (String (JS.hexDigit (N_of_ascii c mod 16)) r)).
Proof. reflexivity. Qed.

Lemma hexDigit_unreserved (c : ascii) :
  JS.isUnreserved (JS.hexDigit (N_of_ascii c / 16)) = true
  /\ JS.isUnreserved (JS.hexDigit (N_of_ascii c mod 16)) = true.
Proof. each_char c; split; reflexivity. Qed.

Lemma encodeURIComponent_chars (s : string) :
  Forall (fun c => JS.isUnreserved c = true \/ c = "%"%char)
    (list_ascii_of_string (JS.encodeURIComponent s)).
Proof.
  induction s as [|c r IH]; [constructor|].
  cbn [JS.encodeURIComponent].
  destruct (JS.isUnreserved c) eqn:Hc.
  - constructor; [now left|exact IH].
  - rewrite pctEncode_append. cbn [list_ascii_of_string].
    destruct (hexDigit_unreserved c) as [Hh Hl].
    constructor; [now right|]. constructor; [now left|].
    constructor; [now left|exact IH].
Qed.

Lemma decode_encode (name : string) :
  JS.decodeURIComponent (encode name) = Some name.
Proof.
  destruct name as [|c r]; [reflexivity|].
  rewrite encode_cons.
  destruct (Ascii.eqb c "@") eqn:Hc.
  - apply Ascii.eqb_eq in Hc. subst c.
    change (String "@" <$> JS.decodeURIComponent (JS.encodeURIComponent r)
            = Some (String "@" r)).
    now rewrite decode_encodeURIComponent.
  - apply decode_encodeURIComponent.
Qed.

(** X1. The encoded name is one URL path segment: it consists of
    unreserved characters and percent signs, with at most a literal [@]
    in front, so it never contains a slash, a question mark, a hash or a
    space. *)
Theorem encode_single_segment (name : string) :
  match encode name with
  | EmptyString => name = EmptyString
  | String c rest =>
      (c = "@"%char \/ JS.isUnreserved c = true \/ c = "%"%char)
      /\ Forall (fun x => JS.isUnreserved x = true \/ x = "%"%char)
           (list_ascii_of_string rest)
  end
  /\ (forall x, In x (list_ascii_of_string (encode name)) ->
                x <> "/"%char /\ x <> "?"%char /\ x <> "#"%char
                /\ x <> " "%char).
Proof.
  assert (Hshape :
    match encode name with
    | EmptyString => name = EmptyString
    | String c rest =>
        (c = "@"%char \/ JS.isUnreserved c = true \/ c = "%"%char)
        /\ Forall (fun x => JS.isUnreserved x = true \/ x = "%"%char)
             (list_ascii_of_string rest)
    end).
  { destruct name as [|c r]; [reflexivity|].
    rewrite encode_cons. destruct (Ascii.eqb c "@").
    - split; [now left|apply encodeURIComponent_chars].
    - pose proof (encodeURIComponent_chars (String c r)) as H.
      destruct (JS.encodeURIComponent (String c r)) as [|c' t] eqn:E.
      + cbn [JS.encodeURIComponent] in E.
        destruct (JS.isUnreserved c); [discriminate E|].
        rewrite pctEncode_append in E. discriminate E.
      + cbn [list_ascii_of_string] in H. inversion H as [|? ? Hc' Ht]; subst.
        split; [right; exact Hc'|exact Ht]. }
  split; [exact Hshape|].
  intros x Hx.
  assert (Hsafe : x = "@"%char \/ JS.isUnreserved x = true \/ x = "%"%char).
  { destruct (encode name) as [|c rest]; [destruct Hx|].
    destruct Hshape as [Hc Hrest]. destruct Hx as [<-|Hx]; [exact Hc|].
    right. rewrite Forall_forall in Hrest. apply Hrest.
    now apply list_elem_of_In. }
  repeat split; intros ->;
    destruct Hsafe as [H|[H|H]]; discriminate H.
Qed.

(** X2. Distinct names never share an encoding. *)
Theorem encode_injective (a b : string) :
  encode a = encode b -> a = b.
Proof.
  intros H. pose proof (decode_encode a) as Ha.
  rewrite H, decode_encode in Ha. now injection Ha.
Qed.

(** The theorem on a scoped and an unscoped spelling. *)
Lemma encode_injective_witness :
  encode "@scope/pkg" = encode (String "@" "scope/pkg")
  /\ "@scope/pkg" = String "@" "scope/pkg".
Proof.
  split; [reflexivity|].
  apply (encode_injective "@scope/pkg" (String "@" "scope/pkg")).
  reflexivity.
Defined.

(** ** Request headers: what survives the four stages *)

Lemma truthy_append_r (a : string) (c : ascii) (r : string) :
  truthy (Some (a +:+ String c r)) = true.
Proof. destruct a; reflexivity. Qed.

Lemma truthy_orDefault (v : option string) (c : ascii) (r : string) :
  truthy (Some (orDefault v (String c r))) = true.
Proof. destruct v as [[|x s]|]; reflexivity. Qed.

Lemma orDefault_truthy (v : option string) (d : string) :
  truthy v = true -> Some (orDefault v d) = v.
Proof. destruct v as [[|x s]|]; cbn; intros H; congruence. Qed.

(** X3. When [options.etag] is given, the request of
    [getRemoteMetadataNext] and [fetchTarballNext] carries
    [If-None-Match] with that value and [Accept: application/json;],
    whatever the caller's headers and the uplink's configured headers
    say. *)
Theorem etag_headers_clamped env self options headers log etag :
  requestHeadersNext env self options = (Ok headers, log) ->
  opt_etag options = Some etag ->
  headers !! HEADERS.NONE_MATCH = Some etag
  /\ headers !! HEADERS.ACCEPT = Some "application/json;".
Proof.
  intros H He. apply requestHeadersNext_inv in H as (h & _ & ->).
  rewrite He. split.
  - rewrite lookup_insert_ne by discriminate. apply lookup_insert_eq.
  - apply lookup_insert_eq.
Qed.

(** The theorem for a conditional request to an uplink configured with
    another [Accept]. *)
Lemma etag_headers_clamped_witness :
  fst (requestHeadersNext ∅ accept_uplink etag_options)
  = Ok {[ "Accept" := "application/json;"; "Accept-Encoding" := "gzip";
          "If-None-Match" := "W-abc";
          "User-Agent" := "npm (verdaccio/6.0.0)";
          "X-Forwarded-For" := "undefined";
          "via" := "1.1 f3a1 (Verdaccio)" ]}
  /\ opt_etag etag_options = Some "W-abc"
  /\ ({[ "Accept" := "application/json;"; "Accept-Encoding" := "gzip";
         "If-None-Match" := "W-abc";
         "User-Agent" := "npm (verdaccio/6.0.0)";
         "X-Forwarded-For" := "undefined";
         "via" := "1.1 f3a1 (Verdaccio)" ]} : gmap string string)
     !! HEADERS.ACCEPT = Some "application/json;".
Proof.
  split; [vm_compute; reflexivity|]. split; [reflexivity|].
  refine (proj2 (etag_headers_clamped ∅ accept_uplink etag_options _ []
                   "W-abc" _ _)).
  - vm_compute. reflexivity.
  - reflexivity.
Defined.

(** X4. Every header named in the uplink's configured [headers] leaves
    with the configured value, [Authorization] included; the only
    exception is [Accept] and [If-None-Match] on a request made with an
    etag. *)
Theorem uplink_headers_win env self options headers log overrides k v :
  requestHeadersNext env self options = (Ok headers, log) ->
  conf_headers (config self) = Some overrides ->
  overrides !! k = Some v ->
  opt_etag options = None
  \/ (k <> HEADERS.ACCEPT /\ k <> HEADERS.NONE_MATCH) ->
  headers !! k = Some v.
Proof.
  intros H Hc Hk Hclamp. apply requestHeadersNext_inv in H as (h & _ & ->).
  assert (Ho : applyUplinkHeaders self
                 (addProxyHeadersNext self h (opt_remoteAddress options)) !! k
               = Some v).
  { rewrite applyUplinkHeaders_lookup, Hc. cbn. now rewrite Hk. }
  destruct (opt_etag options) as [e|]; [|exact Ho].
  destruct Hclamp as [Hn|[Ha Hn]]; [discriminate Hn|].
  now rewrite !lookup_insert_ne by congruence.
Qed.

(** The theorem for an uplink whose configuration pins [Authorization]
    while the auth stage would build another one. *)
Lemma uplink_headers_win_witness :
  fst (requestHeadersNext token_env pinned_uplink no_options)
  = Ok {[ "Accept" := "application/json;"; "Accept-Encoding" := "gzip";
          "Authorization" := "Basic cGlubmVk";
          "User-Agent" := "npm (verdaccio/6.0.0)";
          "X-Forwarded-For" := "undefined";
          "via" := "1.1 f3a1 (Verdaccio)" ]}
  /\ ({[ "Accept" := "application/json;"; "Accept-Encoding" := "gzip";
         "Authorization" := "Basic cGlubmVk";
         "User-Agent" := "npm (verdaccio/6.0.0)";
         "X-Forwarded-For" := "undefined";
         "via" := "1.1 f3a1 (Verdaccio)" ]} : gmap string string)
     !! "Authorization" = Some "Basic cGlubmVk".
Proof.
  split; [vm_compute; reflexivity|].
  refine (uplink_headers_win token_env pinned_uplink no_options _ []
            {[ "Authorization" := "Basic cGlubmVk" ]} "Authorization"
            "Basic cGlubmVk" _ _ _ _).
  - vm_compute. reflexivity.
  - reflexivity.
  - vm_compute. reflexivity.
  - now left.
Defined.

(** X5. After [getHeadersNext], [Accept], [Accept-Encoding] and
    [User-Agent] are always present and non-empty, and a non-empty value
    the caller supplied for any of them is the one kept. *)
Theorem base_headers_present env self caller h log k :
  getHeadersNext env self caller = (Ok h, log) ->
  k = HEADERS.ACCEPT \/ k = HEADERS.ACCEPT_ENCODING \/ k = HEADERS.USER_AGENT ->
  truthy (h !! k) = true
  /\ (truthy (default ∅ caller !! k) = true -> h !! k = default ∅ caller !! k).
Proof.
  unfold getHeadersNext. intros H Hk.
  assert (Hne : k <> HEADERS.AUTHORIZATION)
    by (destruct Hk as [->|[->| ->]]; discriminate).
  rewrite (setAuthNext_lookup _ _ _ _ _ k H Hne).
  destruct Hk as [->|[->| ->]].
  - rewrite !lookup_insert_ne by discriminate. rewrite lookup_insert_eq.
    split; [apply truthy_orDefault|apply orDefault_truthy].
  - rewrite lookup_insert_ne by discriminate. rewrite lookup_insert_eq.
    rewrite lookup_insert_ne by discriminate.
    split; [apply truthy_orDefault|apply orDefault_truthy].
  - rewrite lookup_insert_eq. rewrite !lookup_insert_ne by discriminate.
    split; [|apply orDefault_truthy].
    change ("npm (" +:+ userAgent self +:+ ")")
      with (String "n" ("pm (" +:+ userAgent self +:+ ")")).
    apply truthy_orDefault.
Qed.

(** The theorem for a caller with its own [User-Agent]. *)
Lemma base_headers_present_witness :
  fst (getHeadersNext ∅ sample_uplink (Some {[ "User-Agent" := "pnpm/9" ]}))
  = Ok {[ "Accept" := "application/json;"; "Accept-Encoding" := "gzip";
          "User-Agent" := "pnpm/9" ]}
  /\ truthy
       (({[ "Accept" := "application/json;"; "Accept-Encoding" := "gzip";
            "User-Agent" := "pnpm/9" ]} : gmap string string)
        !! HEADERS.USER_AGENT) = true.
Proof.
  split; [vm_compute; reflexivity|].
  refine (proj1 (base_headers_present ∅ sample_uplink
                   (Some {[ "User-Agent" := "pnpm/9" ]}) _ []
                   HEADERS.USER_AGENT _ _)).
  - vm_compute. reflexivity.
  - right. right. reflexivity.
Defined.

Lemma setHeaderAuthorization_truthy h type token h' log :
  _setHeaderAuthorization h type token = (Ok h', log) ->
  truthy (h' !! HEADERS.AUTHORIZATION) = true.
Proof.
  unfold _setHeaderAuthorization. destruct (negb _ && negb _); [discriminate|].
  intros [= <- _]. rewrite lookup_insert_eq. unfold buildToken.
  apply truthy_append_r.
Qed.

(** X6. On an uplink with [auth] configured, a header build that gets
    through the auth stage always ends it with a non-empty
    [Authorization] entry, the caller's own if it brought one, and with
    every other entry as it was. *)
Theorem auth_stage_sets_authorization env self h h' log tokenConf :
  conf_auth (config self) = Some tokenConf ->
  setAuthNext env self h = (Ok h', log) ->
  truthy (h' !! HEADERS.AUTHORIZATION) = true
  /\ (truthy (h !! HEADERS.AUTHORIZATION) = true -> h' = h)
  /\ (forall k, k <> HEADERS.AUTHORIZATION -> h' !! k = h !! k).
Proof.
  intros Hauth H.
  split; [|split; [|intros k Hk; eapply setAuthNext_lookup; eauto]].
  - unfold setAuthNext in H. rewrite Hauth in H.
    destruct (truthy (h !! HEADERS.AUTHORIZATION)) eqn:Ht;
      [now injection H as <- _|].
    unfold bind in H.
    match type of H with
    | context [match ?m with _ => _ end] =>
        destruct m as [[[tok|]|e] es]; try discriminate H
    end.
    destruct (_setHeaderAuthorization h _ tok) as [[h2|e] es'] eqn:Es;
      [|discriminate H].
    injection H as <- _. eapply setHeaderAuthorization_truthy; eauto.
  - intros Ht. unfold setAuthNext in H. rewrite Hauth, Ht in H.
    now injection H as <- _.
Qed.

(** The theorem on the uplink that takes a bearer token from the
    environment. *)
Lemma auth_stage_sets_authorization_witness :
  conf_auth (config token_uplink) = Some token_auth
  /\ setAuthNext token_env token_uplink ∅
     = (Ok {[ "Authorization" := "Bearer s3cret" ]}, [])
  /\ truthy (({[ "Authorization" := "Bearer s3cret" ]} : gmap string string)
             !! HEADERS.AUTHORIZATION) = true.
Proof.
  split; [reflexivity|]. split; [vm_compute; reflexivity|].
  refine (proj1 (auth_stage_sets_authorization token_env token_uplink ∅ _ []
                   token_auth _ _)).
  - reflexivity.
  - vm_compute. reflexivity.
Defined.

Lemma requestHeadersNext_via env self options headers log :
  requestHeadersNext env self options = (Ok headers, log) ->
  default ∅ (conf_headers (config self)) !! "via" = None ->
  headers !! "via"
  = Some ((if truthy (default ∅ (opt_headers options) !! "via")
           then default "" (default ∅ (opt_headers options) !! "via") +:+ ", "
           else "") +:+ viaToken self).
Proof.
  intros H Hc.
  destruct (requestHeadersNext_lookup _ _ _ _ _ "via" H) as (h & Hh & ->);
    [discriminate..|].
  rewrite applyUplinkHeaders_lookup, Hc, addProxyHeadersNext_via.
  now rewrite (getHeadersNext_lookup _ _ _ _ _ "via" Hh) by discriminate.
Qed.

(** X7. The header builders write into the object the caller passed. A
    caller that passes the same header object to a second request sends
    a [via] chain that names this server twice: the chain of the first
    request, a comma, and the server's entry again. *)
Theorem via_grows_on_reuse env self options h1 log1 h2 log2 :
  requestHeadersNext env self options = (Ok h1, log1) ->
  requestHeadersNext env self (reuse_headers options h1) = (Ok h2, log2) ->
  default ∅ (conf_headers (config self)) !! "via" = None ->
  exists first,
    h1 !! "via" = Some first
    /\ JS.endsWith first (viaToken self)
    /\ h2 !! "via" = Some (first +:+ ", " +:+ viaToken self).
Proof.
  intros H1 H2 Hc.
  pose proof (requestHeadersNext_via _ _ _ _ _ H1 Hc) as V1.
  pose proof (requestHeadersNext_via _ _ _ _ _ H2 Hc) as V2.
  cbn [reuse_headers opt_headers default] in V2. unfold id in V2.
  set (p := if truthy (default ∅ (opt_headers options) !! "via")
            then default "" (default ∅ (opt_headers options) !! "via") +:+ ", "
            else "") in *.
  exists (p +:+ viaToken self). split; [exact V1|].
  split; [eexists; reflexivity|].
  rewrite V2, V1.
  change (viaToken self)
    with (String "1" (".1 " +:+ server_id self +:+ " (Verdaccio)")) at 1.
  rewrite truthy_append_r. cbn [default]. now rewrite append_assoc.
Qed.

(** The theorem for two conditional requests made with one header
    object. *)
Lemma via_grows_on_reuse_witness :
  fst (requestHeadersNext ∅ sample_uplink no_options)
  = Ok {[ "Accept" := "application/json;"; "Accept-Encoding" := "gzip";
          "User-Agent" := "npm (verdaccio/6.0.0)";
          "X-Forwarded-For" := "undefined";
          "via" := "1.1 f3a1 (Verdaccio)" ]}
  /\ exists first h2,
       fst (requestHeadersNext ∅ sample_uplink
              (reuse_headers no_options
                 {[ "Accept" := "application/json;"; "Accept-Encoding" := "gzip";
                    "User-Agent" := "npm (verdaccio/6.0.0)";
                    "X-Forwarded-For" := "undefined";
                    "via" := "1.1 f3a1 (Verdaccio)" ]})) = Ok h2
       /\ h2 !! "via" = Some (first +:+ ", " +:+ viaToken sample_uplink).
Proof.
  split; [vm_compute; reflexivity|].
  destruct (via_grows_on_reuse ∅ sample_uplink no_options
              {[ "Accept" := "application/json;"; "Accept-Encoding" := "gzip";
                 "User-Agent" := "npm (verdaccio/6.0.0)";
                 "X-Forwarded-For" := "undefined";
                 "via" := "1.1 f3a1 (Verdaccio)" ]} []
              {[ "Accept" := "application/json;"; "Accept-Encoding" := "gzip";
                 "User-Agent" := "npm (verdaccio/6.0.0)";
                 "X-Forwarded-For" := "undefined";
                 "via" := "1.1 f3a1 (Verdaccio), 1.1 f3a1 (Verdaccio)" ]} [])
    as (first & _ & _ & Hv).
  - vm_compute. reflexivity.
  - vm_compute. reflexivity.
  - reflexivity.
  - exists first. eexists. split; [vm_compute; reflexivity|exact Hv].
Defined.

(** ** The deprecated health tracker *)

Lemma statusCheck_fields self now alive :
  let s := fst (_statusCheck self now alive) in
  max_fails s = max_fails self
  /\ fail_timeout s = fail_timeout self
  /\ last_request_time s = Some now
  /\ failed_requests s = if alive then 0 else failed_requests self + 1.
Proof. unfold _statusCheck. destruct alive; cbn; auto. Qed.

Lemma statusChecks_app self a b :
  fst (statusChecks self (a ++ b))
  = fst (statusChecks (fst (statusChecks self a)) b).
Proof.
  revert self. induction a as [|[now alive] a IH]; intros self; [reflexivity|].
  cbn [app statusChecks].
  destruct (_statusCheck self now alive) as [s1 l1].
  specialize (IH s1).
  destruct (statusChecks s1 (a ++ b)) as [s2 l2].
  destruct (statusChecks s1 a) as [s3 l3]. exact IH.
Qed.

Lemma statusChecks_limits self outcomes :
  max_fails (fst (statusChecks self outcomes)) = max_fails self
  /\ fail_timeout (fst (statusChecks self outcomes)) = fail_timeout self.
Proof.
  revert self. induction outcomes as [|[now alive] rest IH]; intros self;
    [split; reflexivity|].
  cbn [statusChecks].
  pose proof (statusCheck_fields self now alive) as (Hm & Hf & _).
  destruct (_statusCheck self now alive) as [s1 l1].
  specialize (IH s1). destruct (statusChecks s1 rest) as [s2 l2].
  cbn in *. destruct IH as [IHm IHf]. split; congruence.
Qed.

(** X8. In the deprecated tracker a success wipes the history: after any
    run of outcomes that ends with a success the counter is 0 and the
    time is that of the success. The uplink is then online at every
    moment, unless [max_fails] is 0 or less, in which case it is offline
    for the whole [fail_timeout] window around that success. *)
Theorem status_success_resets self outcomes now :
  let s := fst (statusChecks self (outcomes ++ [(now, true)])) in
  failed_requests s = 0
  /\ last_request_time s = Some now
  /\ (forall t,
        _ifRequestFailure s t = true
        <-> max_fails self <= 0 /\ Z.abs (t - now) < fail_timeout self).
Proof.
  intros s. subst s. rewrite statusChecks_app.
  pose proof (statusChecks_limits self outcomes) as [Hm Hf].
  set (s0 := fst (statusChecks self outcomes)) in *.
  cbn [statusChecks].
  pose proof (statusCheck_fields s0 now true) as (Hm1 & Hf1 & Ht1 & Hc1).
  destruct (_statusCheck s0 now true) as [s1 l1]. cbn in *.
  split; [exact Hc1|]. split; [exact Ht1|].
  intros t. unfold _ifRequestFailure. rewrite Hc1, Ht1, Hm1, Hf1, Hm, Hf.
  rewrite andb_true_iff, Z.leb_le, Z.ltb_lt. reflexivity.
Qed.

Lemma failures_step self now :
  let s := fst (_statusCheck self now false) in
  length (offlineWarnings (snd (_statusCheck self now false)))
  = if failed_requests self + 1 =? max_fails self then 1%nat else 0%nat.
Proof.
  unfold _statusCheck. cbn.
  destruct (failed_requests self + 1 =? max_fails self); reflexivity.
Qed.

Lemma offlineWarnings_app a b :
  offlineWarnings (a ++ b) = (offlineWarnings a ++ offlineWarnings b)%list.
Proof. apply List.filter_app. Qed.

(** X9. A run of failures in the deprecated tracker adds one to the
    counter each and keeps the time of the last one; the offline warning
    is logged once, by the failure that brings the counter to exactly
    [max_fails], and by no other; and afterwards the uplink is offline
    exactly when the counter has reached [max_fails] and less than
    [fail_timeout] separates the moment from the last failure. *)
Theorem status_failures_trip self times last :
  let outcomes := map (fun t => (t, false)) (times ++ [last]) in
  let n := Z.of_nat (length times) + 1 in
  let s := fst (statusChecks self outcomes) in
  failed_requests s = failed_requests self + n
  /\ last_request_time s = Some last
  /\ length (offlineWarnings (snd (statusChecks self outcomes)))
     = (if (failed_requests self <? max_fails self)
           && (max_fails self <=? failed_requests self + n)
        then 1%nat else 0%nat)
  /\ (forall t,
        _ifRequestFailure s t = true
        <-> max_fails self <= failed_requests self + n
            /\ Z.abs (t - last) < fail_timeout self).
Proof.
  revert self. induction times as [|t0 times IH]; intros self.
  - cbn [app map length statusChecks Z.of_nat].
    pose proof (statusCheck_fields self last false) as (Hm & Hf & Ht & Hc).
    pose proof (failures_step self last) as Hw.
    destruct (_statusCheck self last false) as [s1 l1].
    cbn [fst snd] in *. cbn zeta in *. rewrite app_nil_r.
    split; [lia|]. split; [exact Ht|]. split.
    + rewrite Hw.
      destruct (Z.eqb_spec (failed_requests self + 1) (max_fails self)),
               (Z.ltb_spec (failed_requests self) (max_fails self)),
               (Z.leb_spec (max_fails self)
                  (failed_requests self + (Z.of_nat 0 + 1)));
        cbn [andb]; try reflexivity; lia.
    + intros t. unfold _ifRequestFailure. rewrite Hc, Ht, Hm, Hf.
      rewrite andb_true_iff, Z.leb_le, Z.ltb_lt.
      replace (failed_requests self + (Z.of_nat 0 + 1))
        with (failed_requests self + 1) by lia.
      reflexivity.
  - cbn [app map length statusChecks].
    pose proof (statusCheck_fields self t0 false) as (Hm & Hf & _ & Hc).
    pose proof (failures_step self t0) as Hw.
    destruct (_statusCheck self t0 false) as [s1 l1].
    cbn [fst snd] in Hm, Hf, Hc, Hw. cbn zeta in Hm, Hf, Hc, Hw.
    specialize (IH s1). cbn zeta in IH.
    destruct (statusChecks s1 (map (fun t => (t, false)) (times ++ [last])))
      as [s2 l2].
    cbn [fst snd] in *. destruct IH as (IHc & IHt & IHw & IHo).
    rewrite Hc, Hm in *. rewrite Hf in IHo.
    replace (Z.of_nat (S (length times)) + 1)
      with (Z.of_nat (length times) + 1 + 1) by lia.
    split; [lia|]. split; [exact IHt|]. split.
    + rewrite offlineWarnings_app, length_app, Hw, IHw.
      destruct (Z.eqb_spec (failed_requests self + 1) (max_fails self)),
               (Z.ltb_spec (failed_requests self + 1) (max_fails self)),
               (Z.leb_spec (max_fails self)
                  (failed_requests self + 1 + (Z.of_nat (length times) + 1))),
               (Z.ltb_spec (failed_requests self) (max_fails self)),
               (Z.leb_spec (max_fails self)
                  (failed_requests self + (Z.of_nat (length times) + 1 + 1)));
        cbn [andb Nat.add]; try reflexivity; lia.
    + intros t. rewrite IHo.
      replace (failed_requests self + 1 + (Z.of_nat (length times) + 1))
        with (failed_requests self + (Z.of_nat (length times) + 1 + 1)) by lia.
      reflexivity.
Qed.

Example two_failures_trip_once :
  statusChecks sample_uplink [(10, false); (20, false); (30, false)]
  = (set_last_request_time 30 (set_failed_requests 3 sample_uplink),
     [Log LWarn (Template "host @{host} is now offline")]).
Proof. reflexivity. Qed.

(** ** The deprecated tarball fetcher *)

Lemma fetchTarball_live env self now tarball_url evs h log :
  _ifRequestFailure self now = false ->
  fetchTarball_headers env self = (Ok h, log) ->
  fst (fetchTarball env self now tarball_url evs)
  = (Ok (snd (fetchTarball_run (self, false) tarballStart evs)),
     fst (fst (fetchTarball_run (self, false) tarballStart evs))).
Proof.
  intros Hon Hh. unfold fetchTarball, request. rewrite Hon. cbn [negb].
  cbn [ro_headers ro_req ro_method ro_uri ro_uri_full].
  unfold fetchTarball_headers in Hh.
  destruct (_setHeaders env self (Some {[ "Accept" := contentTypeAccept ]}))
    as [[h0|e] es]; [|discriminate Hh].
  cbn.
  now destruct (fetchTarball_run (self, false) tarballStart evs) as [[s l] o].
Qed.

Lemma fetchTarball_run_called self st evs :
  fst (fst (fetchTarball_run (self, true) st evs)) = self.
Proof.
  revert st. induction evs as [|ev evs IH]; intros st; [reflexivity|].
  cbn [fetchTarball_run].
  assert (E : request_on (self, true) ev = ((self, true), []))
    by (destruct ev; reflexivity).
  rewrite E. destruct (fetchTarball_on st ev) as [st1 out1].
  specialize (IH st1).
  now destruct (fetchTarball_run (self, true) st1 evs) as [[s l] o].
Qed.

Lemma fetchTarball_run_state self st evs :
  fst (fst (fetchTarball_run (self, false) st evs))
  = match firstReport evs with
    | Some (t, alive) => fst (_statusCheck self t alive)
    | None => self
    end.
Proof.
  revert st. induction evs as [|ev evs IH]; intros st; [reflexivity|].
  cbn [fetchTarball_run firstReport].
  destruct (fetchTarball_on st ev) as [st1 out1].
  destruct ev as [t status cl|t e|chunk|data]; cbn [request_on].
  - destruct (_statusCheck self t true) as [s1 l1].
    pose proof (fetchTarball_run_called s1 st1 evs) as H.
    now destruct (fetchTarball_run (s1, true) st1 evs) as [[s l] o].
  - destruct (_statusCheck self t false) as [s1 l1].
    pose proof (fetchTarball_run_called s1 st1 evs) as H.
    now destruct (fetchTarball_run (s1, true) st1 evs) as [[s l] o].
  - specialize (IH st1).
    now destruct (fetchTarball_run (self, false) st1 evs) as [[s l] o].
  - specialize (IH st1).
    now destruct (fetchTarball_run (self, false) st1 evs) as [[s l] o].
Qed.

(** X10. One deprecated request reports to the health tracker once: the
    state [fetchTarball] leaves is the one [_statusCheck] computes from
    the first ['response'] or ['error'] event alone, and every later
    event leaves it alone. A response counts as a success whatever its
    status, so a 500 resets the failure counter. *)
Theorem fetchTarball_reports_once env self now tarball_url evs :
  snd (fst (fetchTarball env self now tarball_url evs))
  = (if _ifRequestFailure self now then self
     else match fetchTarball_headers env self with
          | (Throw _, _) => self
          | (Ok _, _) =>
              match firstReport evs with
              | Some (t, alive) => fst (_statusCheck self t alive)
              | None => self
              end
          end)
  /\ (forall t status contentLength rest,
        failed_requests
          (fst (fst (fetchTarball_run (self, false) tarballStart
                       (ReqResponse t status contentLength :: rest)))) = 0).
Proof.
  split.
  - destruct (_ifRequestFailure self now) eqn:Hon.
    + unfold fetchTarball, request. now rewrite Hon.
    + destruct (fetchTarball_headers env self) as [[h|e] log] eqn:Hh.
      * rewrite (fetchTarball_live _ _ _ _ _ _ _ Hon Hh). cbn [snd].
        apply fetchTarball_run_state.
      * unfold fetchTarball, request. rewrite Hon. cbn [negb].
        cbn [ro_headers ro_req ro_method ro_uri ro_uri_full].
        unfold fetchTarball_headers in Hh.
        destruct (_setHeaders env self (Some {[ "Accept" := contentTypeAccept ]}))
          as [[h0|e0] es]; [discriminate Hh|reflexivity].
  - intros t status cl rest. rewrite fetchTarball_run_state.
    reflexivity.
Qed.

Example server_error_resets_counter :
  snd (fst (fetchTarball ∅ (set_failed_requests 1 sample_uplink) 0
              "https://registry.example.com/left-pad/-/left-pad-1.3.0.tgz"
              [ReqResponse 5 500 None; ReqError 6 (TransportError "ECONNRESET")]))
  = set_last_request_time 5 sample_uplink.
Proof. reflexivity. Qed.

Lemma fetchTarball_run_body self st chunks :
  piped st = true ->
  snd (fetchTarball_run self st (map ReqData chunks ++ [ReqEnd None]))
  = (map EmitData chunks
     ++ match expected_length st with
        | Some n =>
            if current_length st + totalLength chunks =? n then []
            else [EmitError ContentMismatch]
        | None => []
        end
     ++ [EmitEnd])%list.
Proof.
  revert self st. induction chunks as [|chunk chunks IH]; intros self st Hp.
  - cbn [map app fetchTarball_run totalLength fold_right].
    destruct (request_on self (ReqEnd None)) as [self1 log1].
    pose proof (fetchTarball_on_end st) as He.
    destruct (fetchTarball_on st (ReqEnd None)) as [st1 out1].
    cbn [snd] in *. rewrite He, Hp, app_nil_r, Z.add_0_r. reflexivity.
  - cbn [map app fetchTarball_run].
    destruct (request_on self (ReqData chunk)) as [self1 log1].
    cbn [fetchTarball_on]. rewrite Hp.
    match goal with
    | |- context [fetchTarball_run self1 ?st1 _] =>
        specialize (IH self1 st1 eq_refl);
        destruct (fetchTarball_run self1 st1
                    (map ReqData chunks ++ [ReqEnd None])) as [[s l] o]
    end.
    cbn [snd] in *. rewrite IH. cbn [current_length expected_length app].
    cbn [totalLength fold_right]. fold (totalLength chunks).
    now rewrite Z.add_assoc.
Qed.

(** X11. For a successful response followed by its body and the end of
    the stream, the stream of the deprecated [fetchTarball] announces
    the advertised length, passes the chunks on in order and ends; just
    before the end it emits [ContentMismatch] exactly when a length was
    advertised and the bytes of all chunks do not add up to it. *)
Theorem fetchTarball_checks_length
    env self now tarball_url h log t status contentLength chunks :
  _ifRequestFailure self now = false ->
  fetchTarball_headers env self = (Ok h, log) ->
  200 <= status < 300 ->
  fst (fst (fetchTarball env self now tarball_url
              (ReqResponse t status contentLength
               :: map ReqData chunks ++ [ReqEnd None])))
  = Ok (match contentLength with
        | Some n => [EmitContentLength n]
        | None => []
        end
        ++ map EmitData chunks
        ++ match contentLength with
           | Some n =>
               if totalLength chunks =? n then []
               else [EmitError ContentMismatch]
           | None => []
           end
        ++ [EmitEnd])%list.
Proof.
  intros Hon Hh Hs.
  rewrite (fetchTarball_live _ _ _ _ _ _ _ Hon Hh). cbn [fst]. f_equal.
  cbn [fetchTarball_run].
  destruct (request_on (self, false) (ReqResponse t status contentLength))
    as [self1 log1].
  cbn [fetchTarball_on].
  replace (status =? HTTP_STATUS.NOT_FOUND) with false
    by (unfold HTTP_STATUS.NOT_FOUND; lia).
  replace (is2xx status) with true
    by (symmetry; unfold is2xx, HTTP_STATUS.OK, HTTP_STATUS.MULTIPLE_CHOICES;
        apply andb_true_iff; lia).
  cbn [negb].
  match goal with
  | |- context [fetchTarball_run self1 ?st1 _] =>
      pose proof (fetchTarball_run_body self1 st1 chunks eq_refl) as Hb;
      destruct (fetchTarball_run self1 st1
                  (map ReqData chunks ++ [ReqEnd None])) as [[s l] o]
  end.
  cbn [snd] in *. rewrite Hb. cbn [expected_length current_length tarballStart].
  destruct contentLength as [n|]; reflexivity.
Qed.

(** The theorem on a 200 that advertises 100 bytes and delivers 80 in two
    chunks. *)
Lemma fetchTarball_checks_length_witness :
  _ifRequestFailure sample_uplink 0 = false
  /\ 200 <= 200 < 300
  /\ fst (fst (fetchTarball ∅ sample_uplink 0
                 "https://registry.example.com/left-pad/-/left-pad-1.3.0.tgz"
                 (ReqResponse 5 200 (Some 100)
                  :: map ReqData [bytes 50; bytes 30] ++ [ReqEnd None])))
     = Ok ([EmitContentLength 100]
           ++ map EmitData [bytes 50; bytes 30]
           ++ (if totalLength [bytes 50; bytes 30] =? 100 then []
               else [EmitError ContentMismatch])
           ++ [EmitEnd])%list.
Proof.
  split; [reflexivity|]. split; [lia|].
  refine (fetchTarball_checks_length ∅ sample_uplink 0 _ _ [] 5 200 (Some 100)
            [bytes 50; bytes 30] _ _ _).
  - reflexivity.
  - vm_compute. reflexivity.
  - lia.
Defined.

Lemma fetchTarball_run_unpiped self st evs :
  piped st = false -> expected_length st = None -> noResponse evs ->
  snd (fetchTarball_run self st evs) = requestErrorsOf evs.
Proof.
  revert self st. induction evs as [|ev evs IH]; intros self st Hp He Hn;
    [reflexivity|].
  assert (Hn' : noResponse evs)
    by (intros t s c Hin; apply (Hn t s c); now right).
  cbn [fetchTarball_run].
  destruct (request_on self ev) as [self1 log1].
  destruct ev as [t status cl|t e|chunk|data].
  - exfalso. eapply Hn. left. reflexivity.
  - cbn [fetchTarball_on]. specialize (IH self1 st Hp He Hn').
    destruct (fetchTarball_run self1 st evs) as [[s l] o]. cbn in *.
    now rewrite IH.
  - cbn [fetchTarball_on]. rewrite Hp.
    match goal with
    | |- context [fetchTarball_run self1 ?st1 _] =>
        specialize (IH self1 st1 ltac:(first [reflexivity|exact Hp])
                      ltac:(first [reflexivity|exact He]) Hn');
        destruct (fetchTarball_run self1 st1 evs) as [[s l] o]
    end.
    cbn in *. exact IH.
  - cbn [fetchTarball_on]. rewrite Hp, He.
    match goal with
    | |- context [fetchTarball_run self1 ?st1 _] =>
        specialize (IH self1 st1 ltac:(first [reflexivity|exact Hp])
                      ltac:(first [reflexivity|exact He]) Hn');
        destruct (fetchTarball_run self1 st1 evs) as [[s l] o]
    end.
    cbn in *. exact IH.
Qed.

(** X12. After a response outside 2xx the stream of the deprecated
    [fetchTarball] carries nothing but errors: [NotFileUplink] for a 404
    and [BadStatusCode] otherwise, then one error for each error the
    request still raises. No length is announced, no body byte is passed
    on and the stream is not ended, whatever the upstream sends. *)
Theorem fetchTarball_status_error
    env self now tarball_url h log t status contentLength rest :
  _ifRequestFailure self now = false ->
  fetchTarball_headers env self = (Ok h, log) ->
  ~ (200 <= status < 300) ->
  noResponse rest ->
  fst (fst (fetchTarball env self now tarball_url
              (ReqResponse t status contentLength :: rest)))
  = Ok (EmitError (tarballStatusError status) :: requestErrorsOf rest).
Proof.
  intros Hon Hh Hs Hn.
  rewrite (fetchTarball_live _ _ _ _ _ _ _ Hon Hh). cbn [fst]. f_equal.
  cbn [fetchTarball_run].
  destruct (request_on (self, false) (ReqResponse t status contentLength))
    as [self1 log1].
  cbn [fetchTarball_on]. unfold tarballStatusError.
  assert (H2 : is2xx status = false)
    by (unfold is2xx, HTTP_STATUS.OK, HTTP_STATUS.MULTIPLE_CHOICES;
        apply andb_false_iff; lia).
  destruct (status =? HTTP_STATUS.NOT_FOUND).
  - pose proof (fetchTarball_run_unpiped self1 tarballStart rest
                  eq_refl eq_refl Hn) as Hr.
    destruct (fetchTarball_run self1 tarballStart rest) as [[s l] o].
    cbn in *. now rewrite Hr.
  - rewrite H2. cbn [negb].
    pose proof (fetchTarball_run_unpiped self1 tarballStart rest
                  eq_refl eq_refl Hn) as Hr.
    destruct (fetchTarball_run self1 tarballStart rest) as [[s l] o].
    cbn in *. now rewrite Hr.
Qed.

(** The theorem on a 404 whose body is followed by a socket error: the
    stream emits two errors. *)
Lemma fetchTarball_status_error_witness :
  _ifRequestFailure sample_uplink 0 = false
  /\ ~ (200 <= 404 < 300)
  /\ fst (fst (fetchTarball ∅ sample_uplink 0
                 "https://registry.example.com/left-pad/-/left-pad-1.3.0.tgz"
                 [ReqResponse 5 404 (Some 9); ReqData "Not Found";
                  ReqError 6 (TransportError "ECONNRESET"); ReqEnd None]))
     = Ok [EmitError NotFileUplink; EmitError (TransportError "ECONNRESET")].
Proof.
  split; [reflexivity|]. split; [lia|].
  refine (fetchTarball_status_error ∅ sample_uplink 0 _ _ [] 5 404 (Some 9)
            [ReqData "Not Found"; ReqError 6 (TransportError "ECONNRESET");
             ReqEnd None] _ _ _ _).
  - reflexivity.
  - vm_compute. reflexivity.
  - lia.
  - intros t s c [H|[H|[H|[]]]]; discriminate H.
Defined.

(** ** The promise-style tarball fetcher *)





(** ** Headers of the deprecated path *)

Lemma setHeaders_lookup env self hdrs h log k :
  _setHeaders env self hdrs = (Ok h, log) ->
  k <> HEADERS.ACCEPT -> k <> HEADERS.ACCEPT_ENCODING ->
  k <> HEADERS.USER_AGENT -> k <> HEADERS.AUTHORIZATION ->
  h !! k = default ∅ hdrs !! k.
Proof.
  unfold _setHeaders, _setAuth. intros H Ha He Hu Hz.
  rewrite (setAuthNext_lookup _ _ _ _ _ k H Hz).
  now rewrite !lookup_insert_ne.
Qed.

Lemma addProxyHeaders_no_request self h k :
  k <> "Via" ->
  _addProxyHeaders self None h !! k = h !! k.
Proof.
  intros Hk. unfold _addProxyHeaders. cbn.
  now rewrite !lookup_insert_ne by congruence.
Qed.

Lemma addProxyHeaders_no_request_via self h :
  _addProxyHeaders self None h !! "Via" = Some (viaToken self).
Proof.
  unfold _addProxyHeaders. cbn. rewrite lookup_insert_eq.
  now rewrite lookup_insert_eq.
Qed.

(** X14. The request of the deprecated [fetchTarball] never forwards a
    client address, proxy agent or not: unless the uplink's configured
    headers name them, it has no [X-Forwarded-For], its [Via] is this
    server's entry alone, and its [Accept] is [application/json;]. *)
Theorem fetchTarball_headers_fixed env self h log :
  fetchTarball_headers env self = (Ok h, log) ->
  (default ∅ (conf_headers (config self)) !! HEADERS.FORWARDED_FOR = None ->
   h !! HEADERS.FORWARDED_FOR = None)
  /\ (default ∅ (conf_headers (config self)) !! "Via" = None ->
      h !! "Via" = Some (viaToken self))
  /\ (default ∅ (conf_headers (config self)) !! HEADERS.ACCEPT = None ->
      h !! HEADERS.ACCEPT = Some "application/json;").
Proof.
  intros H. unfold fetchTarball_headers, bind, ret in H.
  destruct (_setHeaders env self (Some {[ "Accept" := contentTypeAccept ]}))
    as [[h0|e] es] eqn:Hs; [|discriminate H].
  injection H as <- _.
  unfold _overrideWithUpLinkConfLocaligHeaders.
  split; [|split]; intros Hc; rewrite applyUplinkHeaders_lookup, Hc.
  - rewrite addProxyHeaders_no_request by discriminate.
    now rewrite (setHeaders_lookup _ _ _ _ _ _ Hs) by discriminate.
  - apply addProxyHeaders_no_request_via.
  - rewrite addProxyHeaders_no_request by discriminate.
    unfold _setHeaders, _setAuth in Hs.
    rewrite (setAuthNext_lookup _ _ _ _ _ _ Hs) by discriminate.
    rewrite !lookup_insert_ne by discriminate. rewrite lookup_insert_eq.
    reflexivity.
Qed.

(** The theorem on the sample uplink. *)
Lemma fetchTarball_headers_fixed_witness :
  fetchTarball_headers ∅ sample_uplink
  = (Ok {[ "Accept" := "application/json;"; "Accept-Encoding" := "gzip";
           "User-Agent" := "npm (verdaccio/6.0.0)";
           "Via" := "1.1 f3a1 (Verdaccio)" ]}, [])
  /\ ({[ "Accept" := "application/json;"; "Accept-Encoding" := "gzip";
         "User-Agent" := "npm (verdaccio/6.0.0)";
         "Via" := "1.1 f3a1 (Verdaccio)" ]} : gmap string string)
     !! HEADERS.FORWARDED_FOR = None.
Proof.
  split; [vm_compute; reflexivity|].
  refine (proj1 (fetchTarball_headers_fixed ∅ sample_uplink _ [] _) _).
  - vm_compute. reflexivity.
  - reflexivity.
Defined.

(** ** The health hooks of the metadata fetcher over a whole call *)

Lemma gotCallback_limits self ev :
  max_fails (fst (gotCallback self ev)) = max_fails self
  /\ fail_timeout (fst (gotCallback self ev)) = fail_timeout self.
Proof.
  destruct ev; unfold gotCallback, afterResponse, beforeRetry;
    split_ifs; split; reflexivity.
Qed.

Lemma gotCallbacks_limits self evs :
  max_fails (fst (gotCallbacks self evs)) = max_fails self
  /\ fail_timeout (fst (gotCallbacks self evs)) = fail_timeout self.
Proof.
  revert self. induction evs as [|ev evs IH]; intros self;
    [split; reflexivity|].
  cbn [gotCallbacks].
  pose proof (gotCallback_limits self ev) as [Hm Hf].
  destruct (gotCallback self ev) as [s1 l1].
  specialize (IH s1). destruct (gotCallbacks s1 evs) as [s2 l2].
  cbn in *. destruct IH. split; congruence.
Qed.

(** Without a retry the counter can only stay or drop to 0. *)
Lemma gotCallback_below self ev :
  (forall e c, ev <> BeforeRetry e c) ->
  failed_requests self < max_fails self ->
  failed_requests (fst (gotCallback self ev)) = failed_requests self.
Proof.
  intros Hn Hlt. destruct ev as [t|s|code|e c]; try reflexivity.
  - cbn. now rewrite afterResponse_below_threshold.
  - exfalso. now apply (Hn e c).
Qed.

Lemma gotCallbacks_below self evs :
  (forall e c, ~ In (BeforeRetry e c) evs) ->
  failed_requests self < max_fails self ->
  failed_requests (fst (gotCallbacks self evs)) = failed_requests self.
Proof.
  revert self. induction evs as [|ev evs IH]; intros self Hn Hlt;
    [reflexivity|].
  cbn [gotCallbacks].
  assert (Hev : forall e c, ev <> BeforeRetry e c)
    by (intros e c ->; apply (Hn e c); now left).
  pose proof (gotCallback_below self ev Hev Hlt) as Hc.
  pose proof (gotCallback_limits self ev) as [Hm _].
  destruct (gotCallback self ev) as [s1 l1]. cbn [fst] in *.
  assert (Hn' : forall e c, ~ In (BeforeRetry e c) evs)
    by (intros e c Hin; apply (Hn e c); now right).
  specialize (IH s1 Hn' ltac:(lia)).
  destruct (gotCallbacks s1 evs) as [s2 l2]. cbn [fst] in *. lia.
Qed.

(** X15. In [getRemoteMetadataNext] only retries feed the circuit
    breaker. A call during which [got] makes no retry leaves the failure
    counter of an uplink that is below [max_fails] exactly where it was,
    however the call ends, so the uplink is still online afterwards at
    every moment. *)
Theorem no_retry_no_trip env self now name options net :
  failed_requests self < max_fails self ->
  (forall e c, ~ In (BeforeRetry e c) (got_events net)) ->
  let s := snd (fst (getRemoteMetadataNext env self now name options net)) in
  failed_requests s = failed_requests self
  /\ (forall t, _ifRequestFailure s t = false).
Proof.
  intros Hlt Hn s.
  assert (Hs : failed_requests s = failed_requests self
               /\ max_fails s = max_fails self).
  { subst s. unfold getRemoteMetadataNext.
    destruct (_ifRequestFailure self now); [split; reflexivity|].
    destruct (requestHeadersNext env self options) as [[h|e] log];
      [|split; reflexivity].
    pose proof (gotCallbacks_below self (got_events net) Hn Hlt) as Hc.
    pose proof (gotCallbacks_limits self (got_events net)) as [Hm _].
    destruct (gotCallbacks self (got_events net)) as [s1 l1].
    destruct (metadataOutcome (got_settled net)). cbn in *. now split. }
  destruct Hs as [Hc Hm]. split; [exact Hc|].
  intros t. unfold _ifRequestFailure. rewrite Hc, Hm.
  replace (max_fails self <=? failed_requests self) with false by lia.
  reflexivity.
Qed.

(** The theorem on a call answered with a 500 and not retried. *)
Lemma no_retry_no_trip_witness :
  failed_requests sample_uplink < max_fails sample_uplink
  /\ failed_requests
       (snd (fst (getRemoteMetadataNext ∅ sample_uplink 0 "left-pad" no_options
                    {| got_events :=
                         [OnRequest 0; OnResponse 500; AfterResponse 500];
                       got_settled := got_settle (sample_response 500) |})))
     = failed_requests sample_uplink.
Proof.
  split; [reflexivity|].
  refine (proj1 (no_retry_no_trip ∅ sample_uplink 0 "left-pad" no_options
                   {| got_events :=
                        [OnRequest 0; OnResponse 500; AfterResponse 500];
                      got_settled := got_settle (sample_response 500) |} _ _)).
  - reflexivity.
  - intros e c [H|[H|[H|[]]]]; discriminate H.
Defined.

(** X16. A 2xx response heals the uplink: if [max_fails] is positive and
    [got] makes no retry after a 2xx response of the call, the counter
    ends up below [max_fails] and the uplink is online at every moment
    afterwards. *)
Theorem success_heals env self now name options headers log before code after
    settled :
  _ifRequestFailure self now = false ->
  requestHeadersNext env self options = (Ok headers, log) ->
  0 < max_fails self ->
  200 <= code < 300 ->
  (forall e c, ~ In (BeforeRetry e c) after) ->
  let s :=
    snd (fst (getRemoteMetadataNext env self now name options
                {| got_events := before ++ AfterResponse code :: after;
                   got_settled := settled |})) in
  failed_requests s < max_fails s
  /\ (forall t, _ifRequestFailure s t = false).
Proof.
  intros Hon Hh Hpos Hcode Hn s.
  assert (Hs : failed_requests s < max_fails s).
  { subst s. rewrite (getRemoteMetadataNext_state _ _ _ _ _ _ _ _ Hon Hh).
    cbn [got_events]. rewrite gotCallbacks_app.
    pose proof (gotCallbacks_limits self before) as [Hm _].
    set (s0 := fst (gotCallbacks self before)) in *.
    change (AfterResponse code :: after)
      with ([AfterResponse code] ++ after)%list.
    rewrite gotCallbacks_app.
    pose proof (gotCallback_limits s0 (AfterResponse code)) as [Hm1 _].
    assert (H1 : failed_requests (fst (gotCallback s0 (AfterResponse code)))
                 < max_fails s0).
    { cbn. unfold afterResponse.
      unfold HTTP_STATUS.OK, HTTP_STATUS.MULTIPLE_CHOICES.
      replace ((200 <=? code) && (code <? 300)) with true
        by (symmetry; apply andb_true_iff; lia).
      destruct (Z.leb_spec (max_fails s0) (failed_requests s0)); cbn; lia. }
    assert (E : fst (gotCallbacks s0 [AfterResponse code])
                = fst (gotCallback s0 (AfterResponse code))).
    { cbn [gotCallbacks]. now destruct (gotCallback s0 (AfterResponse code)). }
    rewrite E.
    set (s1 := fst (gotCallback s0 (AfterResponse code))) in *.
    pose proof (gotCallbacks_limits s1 after) as [Hm2 _].
    rewrite Hm2, Hm1.
    rewrite (gotCallbacks_below s1 after Hn) by lia. exact H1. }
  split; [exact Hs|].
  intros t. unfold _ifRequestFailure.
  replace (max_fails s <=? failed_requests s) with false by lia.
  reflexivity.
Qed.

(** The theorem on the tripped uplink, called again after the window. *)
Lemma success_heals_witness :
  _ifRequestFailure tripped_uplink 62000 = false
  /\ 0 < max_fails tripped_uplink
  /\ forall t,
       _ifRequestFailure
         (snd (fst (getRemoteMetadataNext ∅ tripped_uplink 62000 "left-pad"
                      no_options
                      {| got_events :=
                           [OnRequest 62000] ++ AfterResponse 200 :: [];
                         got_settled := got_settle (sample_response 200) |})))
         t = false.
Proof.
  split; [reflexivity|]. split; [reflexivity|].
  refine (proj2 (success_heals ∅ tripped_uplink 62000 "left-pad" no_options
                   _ [] [OnRequest 62000] 200 [] _ _ _ _ _ _)).
  - reflexivity.
  - vm_compute. reflexivity.
  - reflexivity.
  - lia.
  - intros e c [].
Defined.

(** ** Slash collapsing in the search URL *)

Lemma startsWithTwoSlashes_true r :
  startsWithTwoSlashes r = true ->
  exists back, r = String "/" (String "/" back).
Proof.
  destruct r as [|d [|e back]]; try discriminate. cbn.
  intros H. apply andb_true_iff in H as [Hd He].
  apply Ascii.eqb_eq in Hd, He. subst. now exists back.
Qed.

Lemma noDuplicateSlashb_complete (s : string) :
  noDuplicateSlash s -> noDuplicateSlashb s = true.
Proof.
  induction s as [|c r IH]; intros H; [reflexivity|].
  cbn [noDuplicateSlashb]. apply andb_true_iff. split.
  - destruct (startsWithTwoSlashes r) eqn:E; [|reflexivity].
    apply startsWithTwoSlashes_true in E as (back & ->).
    cbn. apply Ascii.eqb_eq. apply (H EmptyString c back). reflexivity.
  - apply IH. intros front x back ->.
    apply (H (String c front) x back). reflexivity.
Qed.

(** X17. Collapsing the slashes of a URL a second time changes nothing. *)
Theorem collapseSlashes_idempotent (s : string) :
  collapseSlashes false (collapseSlashes false s) = collapseSlashes false s.
Proof.
  apply collapseSlashes_fixed.
  now apply (collapseSlashes_no_duplicate_aux (String.length s)).
Qed.

(** X18. The replacement leaves a URL as it is exactly when the URL has
    no two slashes in a row after a character other than a colon; a
    double slash at the very start or right after a colon, as in
    [https://], is never touched. *)
Theorem collapseSlashes_fixed_iff (s : string) :
  collapseSlashes false s = s <-> noDuplicateSlash s.
Proof.
  split.
  - intros <-. apply collapseSlashes_no_duplicate.
  - intros H. apply collapseSlashes_fixed.
    now apply noDuplicateSlashb_complete.
Qed.

Example collapse_leaves_clean_url :
  collapseSlashes false "https://registry.example.com/-/v1/search?text=a"
  = "https://registry.example.com/-/v1/search?text=a".
Proof. reflexivity. Qed.

Example collapse_reaches_into_query :
  collapseSlashes false "https://registry.example.com/-/v1/search?text=a//b"
  = "https://registry.example.com/-/v1/search?text=a/b".
Proof. reflexivity. Qed.

(** ** The constructor's trailing slash *)

Lemma stripTrailingSlash_cons (c : ascii) (d : ascii) (r : string) :
  stripTrailingSlash (String c (String d r))
  = String c (stripTrailingSlash (String d r)).
Proof. reflexivity. Qed.

(** X19. The constructor removes one trailing slash and no more: a URL
    with a slash appended comes back as it was, so a configured URL that
    ends in two slashes is stored with one, and a URL that does not end
    in a slash is stored unchanged. *)
Theorem stripTrailingSlash_one (s : string) :
  stripTrailingSlash (s +:+ "/") = s
  /\ ((forall front, s <> front +:+ "/") -> stripTrailingSlash s = s).
Proof.
  split.
  - induction s as [|c r IH]; [reflexivity|].
    change (String c r +:+ "/") with (String c (r +:+ "/")).
    destruct r as [|d r'].
    + reflexivity.
    + change (String d r' +:+ "/") with (String d (r' +:+ "/")) in *.
      rewrite stripTrailingSlash_cons. now rewrite IH.
  - induction s as [|c r IH]; intros H; [reflexivity|].
    destruct r as [|d r'].
    + cbn. destruct (Ascii.eqb_spec c "/") as [->|_]; [|reflexivity].
      exfalso. apply (H EmptyString). reflexivity.
    + rewrite stripTrailingSlash_cons. f_equal. apply IH.
      intros front E. apply (H (String c front)).
      change (String c front +:+ "/") with (String c (front +:+ "/")).
      now rewrite E.
Qed.

Example strip_keeps_second_slash :
  stripTrailingSlash "https://registry.example.com//"
  = "https://registry.example.com/".
Proof. reflexivity. Qed.

(** ** Proxy selection *)

Lemma length_append (a b : string) :
  String.length (a +:+ b) = (String.length a + String.length b)%nat.
Proof.
  induction a as [|c a IH]; [reflexivity|].
  change (String c a +:+ b) with (String c (a +:+ b)). cbn. now rewrite IH.
Qed.

Lemma prefix_length (n h : string) :
  String.prefix n h = true -> (String.length n <= String.length h)%nat.
Proof.
  revert h. induction n as [|c n IH]; intros h H; [cbn; lia|].
  destruct h as [|d h]; cbn in H; [discriminate H|].
  destruct (Ascii.ascii_dec c d); [|discriminate H].
  apply IH in H. cbn. lia.
Qed.

Lemma prefix_same_length (n h : string) :
  String.prefix n h = true -> String.length n = String.length h -> n = h.
Proof.
  revert h. induction n as [|c n IH]; intros h H Hl.
  - destruct h; [reflexivity|discriminate Hl].
  - destruct h as [|d h]; cbn in H; [discriminate H|].
    destruct (Ascii.ascii_dec c d) as [->|]; [|discriminate H].
    f_equal. apply IH; [exact H|]. cbn in Hl. lia.
Qed.

Lemma prefix_refl (n : string) : String.prefix n n = true.
Proof.
  induction n as [|c n IH]; [reflexivity|]. cbn.
  destruct (Ascii.ascii_dec c c); [exact IH|contradiction].
Qed.

Lemma lastIndexOf_bound h n i :
  JSX.lastIndexOf h n = Some i ->
  (i + String.length n <= String.length h)%nat.
Proof.
  revert i. induction h as [|c r IH]; intros i H.
  - destruct n; cbn in H; [|discriminate H].
    injection H as <-. cbn. lia.
  - cbn [JSX.lastIndexOf] in H.
    destruct (JSX.lastIndexOf r n) as [j|].
    + injection H as <-. specialize (IH j eq_refl). cbn. lia.
    + destruct (String.prefix n (String c r)) eqn:E; [|discriminate H].
      injection H as <-. apply prefix_length in E. lia.
Qed.

Lemma lastIndexOf_at_end h n i :
  JSX.lastIndexOf h n = Some i ->
  (i + String.length n = String.length h)%nat ->
  JS.endsWith h n.
Proof.
  revert i. induction h as [|c r IH]; intros i H Hl.
  - destruct n; cbn in H; [|discriminate H].
    now exists EmptyString.
  - cbn [JSX.lastIndexOf] in H.
    destruct (JSX.lastIndexOf r n) as [j|] eqn:Er.
    + injection H as <-. cbn in Hl.
      destruct (IH j eq_refl ltac:(lia)) as (a & ->).
      now exists (String c a).
    + destruct (String.prefix n (String c r)) eqn:E; [|discriminate H].
      injection H as <-.
      rewrite (prefix_same_length _ _ E ltac:(lia)). now exists EmptyString.
Qed.

Lemma lastIndexOf_suffix a n :
  JSX.lastIndexOf (a +:+ n) n = Some (String.length a).
Proof.
  induction a as [|x a IH].
  - change (EmptyString +:+ n) with n. destruct n as [|c r]; [reflexivity|].
    cbn [JSX.lastIndexOf].
    destruct (JSX.lastIndexOf r (String c r)) as [j|] eqn:E.
    + apply lastIndexOf_bound in E. cbn in E. lia.
    + now rewrite prefix_refl.
  - change (String x a +:+ n) with (String x (a +:+ n)).
    cbn [JSX.lastIndexOf]. now rewrite IH.
Qed.

(** X20. The test [_setupProxy] applies to a [no_proxy] entry succeeds
    when the host name ends with the entry, and also, because
    [lastIndexOf] answers -1 for a missing entry, for every entry that
    is exactly one character longer than the host name; it succeeds in
    no other case. *)
Theorem noProxyMatches_iff (hostname entry : string) :
  noProxyMatches hostname entry = true
  <-> JS.endsWith hostname entry
      \/ String.length entry = S (String.length hostname).
Proof.
  unfold noProxyMatches, JSX.lastIndexOfZ. rewrite Z.eqb_eq. split.
  - destruct (JSX.lastIndexOf hostname entry) as [i|] eqn:E; intros H.
    + left. apply (lastIndexOf_at_end _ _ i E).
      pose proof (lastIndexOf_bound _ _ _ E). lia.
    + right. lia.
  - intros [(a & ->)|Hl].
    + rewrite lastIndexOf_suffix, length_append. lia.
    + destruct (JSX.lastIndexOf hostname entry) as [i|] eqn:E; [|lia].
      apply lastIndexOf_bound in E. lia.
Qed.

Example no_proxy_suffix_matches :
  noProxyMatches (dotted "pkg.example.com") (dotted ".example.com") = true.
Proof. reflexivity. Qed.

Example no_proxy_longer_entry_matches :
  noProxyMatches (dotted "a.io") (dotted "xy.de") = true
  /\ noProxyMatches (dotted "a.io") (dotted "x.de") = false.
Proof. split; reflexivity. Qed.

Lemma noProxyLoop_result hostname proxy entries :
  fst (noProxyLoop hostname proxy entries)
  = if existsb (fun e => noProxyMatches hostname (dotted e)) entries
       && truthy proxy
    then None else proxy.
Proof.
  induction entries as [|e entries IH]; [reflexivity|].
  cbn [noProxyLoop existsb].
  destruct (noProxyMatches hostname (dotted e)); [|exact IH].
  cbn [orb andb]. now destruct (truthy proxy).
Qed.

Lemma setupProxy_result hostname config mainconfig isHTTPS :
  fst (_setupProxy hostname config mainconfig isHTTPS)
  = if existsb (fun e => noProxyMatches (dotted hostname) (dotted e))
         (noProxyEntries config mainconfig)
       && truthy (configuredProxy config mainconfig isHTTPS)
    then None else configuredProxy config mainconfig isHTTPS.
Proof.
  unfold _setupProxy, noProxyEntries, configuredProxy.
  set (proxy := match (if isHTTPS then https_proxy config else http_proxy config) with
                | Some p => Some p
                | None => if isHTTPS then https_proxy mainconfig
                          else http_proxy mainconfig
                end).
  destruct (match no_proxy config with
            | Some l => Some l
            | None => no_proxy mainconfig
            end) as [[[|c r]|items]|].
  - reflexivity.
  - pose proof (noProxyLoop_result (dotted hostname) proxy
                  (JSX.split "," (String c r))) as H.
    destruct (noProxyLoop (dotted hostname) proxy (JSX.split "," (String c r))).
    exact H.
  - pose proof (noProxyLoop_result (dotted hostname) proxy items) as H.
    destruct (noProxyLoop (dotted hostname) proxy items). exact H.
  - reflexivity.
Qed.

(** X21. When the host name, with its leading dot, ends with one of the
    [no_proxy] entries in force, with theirs, a configured non-empty
    proxy is dropped and the constructor builds no proxy agent, wherever
    in the list the entry stands; when no entry passes the test, the
    configured proxy is the one used, the uplink's own before the main
    configuration's. *)
Theorem setupProxy_no_proxy hostname config mainconfig isHTTPS :
  (forall entry,
      In entry (noProxyEntries config mainconfig) ->
      JS.endsWith (dotted hostname) (dotted entry) ->
      truthy (configuredProxy config mainconfig isHTTPS) = true ->
      fst (_setupProxy hostname config mainconfig isHTTPS) = None
      /\ constructor_proxy_agent hostname config mainconfig isHTTPS = None)
  /\ ((forall entry,
         In entry (noProxyEntries config mainconfig) ->
         noProxyMatches (dotted hostname) (dotted entry) = false) ->
      fst (_setupProxy hostname config mainconfig isHTTPS)
      = configuredProxy config mainconfig isHTTPS).
Proof.
  split.
  - intros entry Hin Hend Hp.
    assert (E : fst (_setupProxy hostname config mainconfig isHTTPS) = None).
    { rewrite setupProxy_result, Hp, andb_true_r.
      replace (existsb _ _) with true; [reflexivity|].
      symmetry. apply existsb_exists. exists entry. split; [exact Hin|].
      apply noProxyMatches_iff. now left. }
    split; [exact E|]. unfold constructor_proxy_agent. now rewrite E.
  - intros Hnone. rewrite setupProxy_result.
    replace (existsb _ _) with false; [reflexivity|].
    symmetry. apply not_true_is_false. intros H.
    apply existsb_exists in H as (entry & Hin & Hm).
    rewrite (Hnone entry Hin) in Hm. discriminate Hm.
Qed.

(** The theorem on the no_proxy scenario: proxy [http://corp:8080],
    [no_proxy] [.example.com], uplink host [pkg.example.com]. *)
Lemma setupProxy_no_proxy_witness :
  In ".example.com" (noProxyEntries corp_settings no_settings)
  /\ JS.endsWith (dotted "pkg.example.com") (dotted ".example.com")
  /\ truthy (configuredProxy corp_settings no_settings true) = true
  /\ constructor_proxy_agent "pkg.example.com" corp_settings no_settings true
     = None.
Proof.
  assert (Hin : In ".example.com" (noProxyEntries corp_settings no_settings))
    by (left; reflexivity).
  assert (Hend : JS.endsWith (dotted "pkg.example.com") (dotted ".example.com"))
    by (exists ".pkg"; reflexivity).
  split; [exact Hin|]. split; [exact Hend|]. split; [reflexivity|].
  apply (proj1 (setupProxy_no_proxy "pkg.example.com" corp_settings
                  no_settings true) ".example.com" Hin Hend).
  reflexivity.
Defined.

(** ** The deprecated metadata fetcher *)

Lemma request_live env self now options :
  request env self now options
  = if _ifRequestFailure self now then (Ok OfflineStream, [])
    else match _setHeaders env self (ro_headers options) with
         | (Throw e, log) => (Throw e, log)
         | (Ok h, log) =>
             (Ok LiveStream,
              (log ++ [Log LInfo (Template "making request: '@{method} @{uri}'");
                       NetRequest (orDefault (ro_method options) "GET")
                         (orDefault (ro_uri_full options)
                            (conf_url (config self)
                             +:+ jsToString (ro_uri options)))
                         (Some (_overrideWithUpLinkConfLocaligHeaders self
                                  (_addProxyHeaders self (ro_req options) h)))])%list)
         end.
Proof.
  unfold request. destruct (_ifRequestFailure self now); [reflexivity|].
  cbn [negb]. unfold bind, tell, ret.
  destruct (_setHeaders env self (ro_headers options)) as [[h|e] log];
    [|reflexivity].
  now rewrite app_nil_r.
Qed.

Example legacy_metadata_not_modified :
  fst (fst (getRemoteMetadata ∅ sample_uplink 0 "left-pad" (Some "W-abc") None
              (ReplyResponse 5 304 None (Some "W-abc"))))
  = CallbackError (BadStatusCode 304 (Some 304)).
Proof. vm_compute. reflexivity. Qed.

(** X22. Once the deprecated [getRemoteMetadata] has issued its request,
    its callback gets: the error of a failed request as it is;
    [NotFoundUplink] for a 404; [BadStatusCode] with the status in
    [remoteStatus] for every other status from 300 up, a 304 included,
    which this path does not tell apart; for a 2xx status the parsed
    body with the [etag] header, or the parser's error when the body is
    not JSON. *)
Theorem getRemoteMetadata_classification env self now name etag req :
  fst (request env self now (getRemoteMetadata_options name etag req))
  = Ok LiveStream ->
  let outcome reply :=
    fst (fst (getRemoteMetadata env self now name etag req reply)) in
  (forall t e, outcome (ReplyError t e) = CallbackError e)
  /\ (forall t parsed tag,
        outcome (ReplyResponse t 404 parsed tag) = CallbackError NotFoundUplink)
  /\ (forall t status parsed tag,
        300 <= status -> status <> 404 ->
        outcome (ReplyResponse t status parsed tag)
        = CallbackError (BadStatusCode status (Some status)))
  /\ (forall t parsed tag,
        outcome (ReplyResponse t 304 parsed tag)
        = CallbackError (BadStatusCode 304 (Some 304)))
  /\ (forall t status document tag,
        200 <= status < 300 ->
        outcome (ReplyResponse t status (Some document) tag)
        = CallbackValue (ParsedBody document) tag)
  /\ (forall t status tag,
        200 <= status < 300 ->
        outcome (ReplyResponse t status None tag) = CallbackSyntaxError).
Proof.
  intros Hlive outcome.
  assert (Hout : forall reply,
    outcome reply = getRemoteMetadata_callback (fst (requestCallback reply))).
  { intros reply. subst outcome. cbn beta. unfold getRemoteMetadata.
    destruct (request env self now (getRemoteMetadata_options name etag req))
      as [[[|]|e] log]; cbn in Hlive; try discriminate Hlive.
    destruct (request_reply_on self reply) as [s l].
    now destruct (requestCallback reply). }
  assert (Hhigh : forall t status parsed tag,
    300 <= status -> status <> 404 ->
    outcome (ReplyResponse t status parsed tag)
    = CallbackError (BadStatusCode status (Some status))).
  { intros t status parsed tag Hs Hn. rewrite Hout. cbn.
    replace (status <? 300) with false by lia. cbn.
    unfold HTTP_STATUS.NOT_FOUND. replace (status =? 404) with false by lia.
    replace (is2xx status) with false; [reflexivity|].
    symmetry. unfold is2xx, HTTP_STATUS.OK, HTTP_STATUS.MULTIPLE_CHOICES.
    apply andb_false_iff. lia. }
  repeat split.
  - intros t e. now rewrite Hout.
  - intros t parsed tag. now rewrite Hout.
  - exact Hhigh.
  - intros t parsed tag. apply Hhigh; lia.
  - intros t status document tag Hs. rewrite Hout. cbn.
    replace (status <? 300) with true by lia. cbn.
    unfold HTTP_STATUS.NOT_FOUND. replace (status =? 404) with false by lia.
    replace (is2xx status) with true; [reflexivity|].
    symmetry. unfold is2xx, HTTP_STATUS.OK, HTTP_STATUS.MULTIPLE_CHOICES.
    apply andb_true_iff. lia.
  - intros t status tag Hs. rewrite Hout. cbn.
    now replace (status <? 300) with true by lia.
Qed.

(** The theorem on a conditional request answered with 304. *)
Lemma getRemoteMetadata_classification_witness :
  fst (request ∅ sample_uplink 0
         (getRemoteMetadata_options "left-pad" (Some "W-abc") None))
  = Ok LiveStream
  /\ fst (fst (getRemoteMetadata ∅ sample_uplink 0 "left-pad" (Some "W-abc")
                 None (ReplyResponse 5 304 None (Some "W-abc"))))
     = CallbackError (BadStatusCode 304 (Some 304)).
Proof.
  split; [vm_compute; reflexivity|].
  refine (proj1 (proj2 (proj2 (proj2
    (getRemoteMetadata_classification ∅ sample_uplink 0 "left-pad"
       (Some "W-abc") None _)))) 5 None (Some "W-abc")).
  vm_compute. reflexivity.
Defined.






(** ** The circuit breaker across two calls *)

Lemma gotCallbacks_quiet self evs :
  Forall quietEvent evs -> fst (gotCallbacks self evs) = self.
Proof.
  induction 1 as [|ev evs Hq _ IH]; [reflexivity|].
  cbn [gotCallbacks].
  assert (E : gotCallback self ev = (self, snd (gotCallback self ev))).
  { destruct ev as [t|s|code|e c]; cbn in Hq; try contradiction.
    - reflexivity.
    - cbn. unfold afterResponse. fold (is2xx code). now rewrite Hq. }
  rewrite E. now destruct (gotCallbacks self evs).
Qed.

(** X25. The breaker trips across calls: when the last retry of a
    [getRemoteMetadataNext] call has an index of at least [max_fails]
    and the attempt it starts, issued at time [t], brings no 2xx
    response, every call made less than [fail_timeout] from [t] fails
    with [UplinkOffline], has no effect, and leaves the state as it
    is, so that the uplink stays closed until the window has passed. *)
Theorem breaker_trips
    env self now name options headers log before error k t after settled :
  _ifRequestFailure self now = false ->
  requestHeadersNext env self options = (Ok headers, log) ->
  max_fails self <= k ->
  Forall quietEvent after ->
  let s :=
    snd (fst (getRemoteMetadataNext env self now name options
                {| got_events :=
                     before ++ BeforeRetry error (Some k) :: OnRequest t :: after;
                   got_settled := settled |})) in
  forall now2 name2 options2 net2,
    Z.abs (now2 - t) < fail_timeout self ->
    getRemoteMetadataNext env s now2 name2 options2 net2
    = (Throw UplinkOffline, s, []).
Proof.
  intros Hon Hh Hk Hq s now2 name2 options2 net2 Hw.
  assert (Hs : failed_requests s = k /\ last_request_time s = Some t
               /\ max_fails s = max_fails self
               /\ fail_timeout s = fail_timeout self).
  { subst s. rewrite (getRemoteMetadataNext_state _ _ _ _ _ _ _ _ Hon Hh).
    cbn [got_events]. rewrite gotCallbacks_app.
    pose proof (gotCallbacks_limits self before) as [Hm Hf].
    set (s0 := fst (gotCallbacks self before)) in *.
    change (BeforeRetry error (Some k) :: OnRequest t :: after)
      with ([BeforeRetry error (Some k); OnRequest t] ++ after)%list.
    rewrite gotCallbacks_app, (gotCallbacks_quiet _ after Hq).
    cbn. now repeat split. }
  destruct Hs as (Hc & Ht & Hm & Hf).
  unfold getRemoteMetadataNext, _ifRequestFailure.
  rewrite Hc, Ht, Hm, Hf.
  replace (max_fails self <=? k) with true by lia.
  now replace (Z.abs (now2 - t) <? fail_timeout self) with true by lia.
Qed.

(** The theorem on two retries against a dead uplink, and a second call
    ten seconds later. *)
Lemma breaker_trips_witness :
  _ifRequestFailure sample_uplink 0 = false
  /\ max_fails sample_uplink <= 2
  /\ Z.abs (10000 - 200) < fail_timeout sample_uplink
  /\ fst (fst (getRemoteMetadataNext ∅
                 (snd (fst (getRemoteMetadataNext ∅ sample_uplink 0 "left-pad"
                              no_options
                              {| got_events :=
                                   [OnRequest 0; BeforeRetry "ETIMEDOUT" (Some 1);
                                    OnRequest 100]
                                   ++ BeforeRetry "ETIMEDOUT" (Some 2)
                                      :: OnRequest 200 :: [];
                                 got_settled :=
                                   Rejected (GotOtherError "ETIMEDOUT") |})))
                 10000 "left-pad" no_options
                 {| got_events := [OnRequest 10000];
                    got_settled := got_settle (sample_response 200) |}))
     = Throw UplinkOffline.
Proof.
  split; [reflexivity|]. split; [vm_compute; discriminate|].
  split; [reflexivity|].
  rewrite (breaker_trips ∅ sample_uplink 0 "left-pad" no_options
             {[ "Accept" := "application/json;"; "Accept-Encoding" := "gzip";
                "User-Agent" := "npm (verdaccio/6.0.0)";
                "X-Forwarded-For" := "undefined";
                "via" := "1.1 f3a1 (Verdaccio)" ]} []
             [OnRequest 0; BeforeRetry "ETIMEDOUT" (Some 1); OnRequest 100]
             "ETIMEDOUT" 2 200 [] (Rejected (GotOtherError "ETIMEDOUT"))).
  - reflexivity.
  - reflexivity.
  - vm_compute. reflexivity.
  - vm_compute. discriminate.
  - constructor.
  - reflexivity.
Defined.

(** ** Joining the base URL and the search path *)

Lemma noDuplicateSlash_suffix (a b : string) :
  noDuplicateSlash (a +:+ b) -> noDuplicateSlash b.
Proof.
  intros H front c back ->. apply (H (a +:+ front) c back).
  now rewrite append_assoc.
Qed.

Lemma collapseSlashes_skip_clean (path : string) :
  match path with
  | String p _ => Ascii.eqb p "/" = false
  | EmptyString => True
  end ->
  noDuplicateSlash path ->
  collapseSlashes true path = path.
Proof.
  intros Hs Hc. destruct path as [|p r]; [reflexivity|].
  rewrite (collapseSlashes_skip_other _ _ Hs).
  apply collapseSlashes_fixed. now apply noDuplicateSlashb_complete.
Qed.

Lemma collapseSlashes_join (base : string) (c : ascii) (path : string) :
  Ascii.eqb c "/" = false -> Ascii.eqb c ":" = false ->
  match path with
  | String p _ => Ascii.eqb p "/" = false
  | EmptyString => True
  end ->
  noDuplicateSlash (base +:+ String c (String "/" path)) ->
  collapseSlashes false (base +:+ String c (String "/" (String "/" path)))
  = base +:+ String c (String "/" path).
Proof.
  intros Hc Hcolon Hp. induction base as [|x b IH]; intros Hclean.
  - change (EmptyString +:+ ?s) with s in *.
    rewrite collapseSlashes_cons. cbv beta iota.
    change (Ascii.eqb "/" "/") with true. rewrite Hcolon. cbn [andb negb].
    rewrite collapseSlashes_skip_clean; [reflexivity|exact Hp|].
    apply (noDuplicateSlash_suffix (String c (String "/" EmptyString))).
    exact Hclean.
  - change (String x b +:+ ?s) with (String x (b +:+ s)) in *.
    assert (Hb : noDuplicateSlash (b +:+ String c (String "/" path)))
      by (apply (noDuplicateSlash_suffix (String x EmptyString)); exact Hclean).
    specialize (IH Hb).
    destruct b as [|y [|z b']].
    + change (EmptyString +:+ ?s) with s in *.
      rewrite collapseSlashes_cons. cbv beta iota.
      rewrite Hc. cbn [andb]. now rewrite IH.
    + change (String y EmptyString +:+ ?s) with (String y s) in *.
      rewrite collapseSlashes_cons. cbv beta iota.
      rewrite Hc, andb_false_r. cbn [andb]. now rewrite IH.
    + change (String y (String z b') +:+ ?s)
        with (String y (String z (b' +:+ s))) in *.
      rewrite collapseSlashes_cons. cbv beta iota.
      destruct (Ascii.eqb y "/" && Ascii.eqb z "/" && negb (Ascii.eqb x ":"))
        eqn:E; [|now rewrite IH].
      exfalso. apply andb_true_iff in E as [E Hx].
      apply andb_true_iff in E as [Hy Hz].
      apply Ascii.eqb_eq in Hy, Hz. subst y z.
      apply negb_true_iff in Hx.
      specialize (Hclean EmptyString x (b' +:+ String c (String "/" path)) eq_refl).
      subst x. discriminate Hx.
Qed.

(** X26. A base URL that ends in a slash, joined by [search] with a path
    that starts with one, is requested with exactly one slash between
    the two: when the serialiser leaves the joined URL alone and neither
    part holds a double slash of its own outside the scheme, the request
    goes to the base, one slash, and the rest of the path. *)
Theorem search_joins_with_one_slash
    URL_href self base c path search_url reply :
  url self = base +:+ String c (String "/" EmptyString) ->
  search_url = String "/" path ->
  URL_href (url self +:+ search_url) = Some (url self +:+ search_url) ->
  c <> "/"%char -> c <> ":"%char ->
  (forall rest, path <> String "/" rest) ->
  noDuplicateSlash (base +:+ String c (String "/" path)) ->
  requestsOf (snd (search URL_href self search_url reply))
  = [NetRequest "GET" (base +:+ String c (String "/" path)) None].
Proof.
  intros Hu Hs Hhref Hc Hcolon Hp Hclean.
  rewrite search_requests, Hhref, Hu, Hs, append_assoc.
  change (String c (String "/" EmptyString) +:+ String "/" path)
    with (String c (String "/" (String "/" path))).
  rewrite collapseSlashes_join; auto.
  - now apply Ascii.eqb_neq.
  - now apply Ascii.eqb_neq.
  - destruct path as [|p r]; [exact I|].
    apply Ascii.eqb_neq. intros ->. now apply (Hp r).
Qed.

(** The theorem on the sample uplink and the v1 search path. *)
Lemma search_joins_with_one_slash_witness :
  url sample_uplink
  = "https://registry.example.co" +:+ String "m" (String "/" EmptyString)
  /\ requestsOf (snd (search href_id sample_uplink "/-/v1/search?text=lodash"
                        sample_search_reply))
     = [NetRequest "GET"
          ("https://registry.example.co"
           +:+ String "m" (String "/" "-/v1/search?text=lodash")) None].
Proof.
  split; [reflexivity|].
  apply (search_joins_with_one_slash href_id sample_uplink
           "https://registry.example.co" "m" "-/v1/search?text=lodash").
  - reflexivity.
  - reflexivity.
  - reflexivity.
  - discriminate.
  - discriminate.
  - intros rest. discriminate.
  - apply noDuplicateSlashb_sound. reflexivity.
Defined.

(** ** Forwarding headers of the deprecated path *)

Lemma addProxyHeaders_via self r h :
  _addProxyHeaders self (Some r) h !! "Via"
  = Some ((if truthy (req_headers r !! "via")
           then default "" (req_headers r !! "via") +:+ ", " else "")
          +:+ viaToken self).
Proof.
  unfold _addProxyHeaders. rewrite lookup_insert_eq. f_equal.
  now rewrite lookup_insert_eq.
Qed.

Lemma addProxyHeaders_forwarded_for self r h :
  _addProxyHeaders self (Some r) h !! HEADERS.FORWARDED_FOR
  = match agent self with
    | None =>
        Some ((if truthy (req_headers r !! "x-forwarded-for")
               then default "" (req_headers r !! "x-forwarded-for") +:+ ", "
               else "")
              +:+ jsToString (req_remoteAddress r))
    | Some _ => h !! HEADERS.FORWARDED_FOR
    end.
Proof.
  unfold _addProxyHeaders. rewrite !lookup_insert_ne by discriminate.
  destruct (agent self); [reflexivity|]. apply lookup_insert_eq.
Qed.

Lemma request_live_inv env self now options :
  fst (request env self now options) = Ok LiveStream ->
  _ifRequestFailure self now = false
  /\ exists h0 log, _setHeaders env self (ro_headers options) = (Ok h0, log).
Proof.
  rewrite request_live.
  destruct (_ifRequestFailure self now); [discriminate|].
  destruct (_setHeaders env self (ro_headers options)) as [[h0|e] log];
    [|discriminate].
  intros _. split; [reflexivity|]. now exists h0, log.
Qed.

Lemma request_reply_on_requests self reply :
  requestsOf (snd (request_reply_on self reply)) = [].
Proof.
  destruct reply as [t e|t status parsed tag]; unfold request_reply_on.
  - apply statusCheck_requests.
  - pose proof (statusCheck_requests self t true) as H.
    destruct (_statusCheck self t true) as [s1 l1]. cbn [snd] in *.
    now rewrite requestsOf_app, H.
Qed.

Lemma getRemoteMetadata_requests env self now name etag req reply h0 log :
  _ifRequestFailure self now = false ->
  _setHeaders env self (ro_headers (getRemoteMetadata_options name etag req))
  = (Ok h0, log) ->
  requestsOf (snd (getRemoteMetadata env self now name etag req reply))
  = [NetRequest "GET" (conf_url (config self) +:+ "/" +:+ encode name)
       (Some (_overrideWithUpLinkConfLocaligHeaders self
                (_addProxyHeaders self req h0)))].
Proof.
  intros Hon Hs. unfold getRemoteMetadata. rewrite request_live, Hon, Hs.
  pose proof (setAuthNext_requests env self) as Ha.
  unfold _setHeaders, _setAuth in Hs.
  match type of Hs with
  | setAuthNext env self ?x = _ => specialize (Ha x); rewrite Hs in Ha
  end.
  cbn [snd] in Ha.
  pose proof (request_reply_on_requests self reply) as Hh.
  destruct (request_reply_on self reply) as [s hooks].
  destruct (requestCallback reply) as [args final] eqn:Ef.
  assert (Hf : requestsOf final = [])
    by (unfold requestCallback in Ef; now injection Ef as _ <-).
  cbn [snd] in *.
  rewrite !requestsOf_app, Ha, Hh, Hf. cbn [app].
  now rewrite requestsOf_log, requestsOf_request.
Qed.

(** X27. When the deprecated [getRemoteMetadata] is given the client's
    request, and the uplink's configured headers do not name them, its
    request carries a [Via] made of the client's non-empty [via] chain,
    a comma and this server's entry, and without proxy agent an
    [X-Forwarded-For] made of the client's non-empty chain, a comma and
    the connection's remote address; with a proxy agent it carries no
    [X-Forwarded-For] at all. *)
Theorem getRemoteMetadata_forwards env self now name etag r reply :
  fst (request env self now (getRemoteMetadata_options name etag (Some r)))
  = Ok LiveStream ->
  default ∅ (conf_headers (config self)) !! "Via" = None ->
  default ∅ (conf_headers (config self)) !! HEADERS.FORWARDED_FOR = None ->
  exists h,
    requestsOf (snd (getRemoteMetadata env self now name etag (Some r) reply))
    = [NetRequest "GET" (conf_url (config self) +:+ "/" +:+ encode name)
         (Some h)]
    /\ h !! "Via"
       = Some ((if truthy (req_headers r !! "via")
                then default "" (req_headers r !! "via") +:+ ", " else "")
               +:+ viaToken self)
    /\ h !! HEADERS.FORWARDED_FOR
       = match agent self with
         | None =>
             Some ((if truthy (req_headers r !! "x-forwarded-for")
                    then default "" (req_headers r !! "x-forwarded-for") +:+ ", "
                    else "")
                   +:+ jsToString (req_remoteAddress r))
         | Some _ => None
         end.
Proof.
  intros Hlive Hv Hx.
  apply request_live_inv in Hlive as (Hon & h0 & log & Hs).
  eexists. split; [apply (getRemoteMetadata_requests _ _ _ _ _ _ _ _ _ Hon Hs)|].
  unfold _overrideWithUpLinkConfLocaligHeaders. split.
  - rewrite applyUplinkHeaders_lookup, Hv. apply addProxyHeaders_via.
  - rewrite applyUplinkHeaders_lookup, Hx, addProxyHeaders_forwarded_for.
    destruct (agent self); [|reflexivity].
    rewrite (setHeaders_lookup _ _ _ _ _ _ Hs) by discriminate.
    cbn [getRemoteMetadata_options ro_headers]. cbn.
    destruct etag; rewrite ?lookup_insert_ne by discriminate;
      apply lookup_empty.
Qed.

(** The theorem on a client request that came through one proxy. *)
Lemma getRemoteMetadata_forwards_witness :
  fst (request ∅ sample_uplink 0
         (getRemoteMetadata_options "left-pad" None (Some sample_request)))
  = Ok LiveStream
  /\ exists h,
       requestsOf (snd (getRemoteMetadata ∅ sample_uplink 0 "left-pad" None
                          (Some sample_request)
                          (ReplyResponse 5 200 (Some JNull) None)))
       = [NetRequest "GET" "https://registry.example.com/left-pad" (Some h)]
       /\ h !! "Via" = Some "1.1 edge, 1.1 f3a1 (Verdaccio)"
       /\ h !! "X-Forwarded-For" = Some "198.51.100.4, 10.0.0.9".
Proof.
  split; [vm_compute; reflexivity|].
  destruct (getRemoteMetadata_forwards ∅ sample_uplink 0 "left-pad" None
              sample_request (ReplyResponse 5 200 (Some JNull) None))
    as (h & Hr & Hvia & Hxff).
  - vm_compute. reflexivity.
  - reflexivity.
  - reflexivity.
  - exists h. split; [exact Hr|]. split.
    + refine (eq_trans Hvia _). vm_compute. reflexivity.
    + refine (eq_trans Hxff _). vm_compute. reflexivity.
Defined.
